(* ===================================================================== *)
(*  natal: conversation state machine and chart rendering of src/main.py  *)
(*                                                                       *)
(*  A shallow embedding of the Python source.  Python values are kept    *)
(*  close to what the interpreter has:                                   *)
(*   - str     : [string]; a character is a code point below 256, so the *)
(*               decimal digits of the regex class \d are "0".."9" and   *)
(*               the white space of str.strip is 9-13, 28-32, 133, 160;  *)
(*               the time parser is modelled on every str as well, as a  *)
(*               list of code points (module Unicode);                   *)
(*   - int     : [Z];                                                    *)
(*   - float   : the primitive binary64 [float], with CPython's          *)
(*               float_rem / float_divmod / float.__int__ / format       *)
(*               algorithms written out over it;                         *)
(*   - dict    : records for the fixed-key session dictionaries, [gmap]  *)
(*               for SESSIONS and for chart["positions"];                *)
(*   - raise   : the error monad [result].                               *)
(* ===================================================================== *)

From Stdlib Require Import ZArith String Ascii List Lia.
From Stdlib Require Import PrimFloat SpecFloat FloatOps Uint63 DecimalString.
From Stdlib Require Import FloatAxioms FloatLemmas Bool.
From Stdlib Require Import QArith Qround Qpower.
From stdpp Require Import base gmap strings.

Local Open Scope string_scope.
Local Open Scope Z_scope.
Local Open Scope list_scope.

(* ===================================================================== *)
(** * Exceptions and the error monad                                      *)
(* ===================================================================== *)

(** The subclasses of [Exception] that the modelled code can meet.
    [ExternalError] stands for whatever an external collaborator raises
    (HTTP status errors, transport errors, swisseph errors, unknown time
    zones); all of them are caught by [except Exception]. *)
Inductive exn : Type :=
| ValueError
| OverflowError
| ZeroDivisionError
| KeyError
| IndexError
| AttributeError
| TypeError
| ExternalError (what : string).

Inductive result (A : Type) : Type :=
| Ok (a : A)
| Raise (e : exn).
Arguments Ok {A} a.
Arguments Raise {A} e.

#[global] Instance result_ret : MRet result := fun A a => Ok a.
#[global] Instance result_bind : MBind result := fun A B f m =>
  match m with
  | Ok a => f a
  | Raise e => Raise e
  end.

Definition is_ok {A} (r : result A) : bool :=
  match r with Ok _ => true | Raise _ => false end.

(* ===================================================================== *)
(** * Python str primitives                                               *)
(* ===================================================================== *)

Definition code (c : ascii) : Z := Z.of_N (N_of_ascii c).

(** [str.isspace] on one character (code points below 256). *)
Definition isspace (c : ascii) : bool :=
  let n := code c in
  ((9 <=? n) && (n <=? 13)) || ((28 <=? n) && (n <=? 32))
  || (n =? 133) || (n =? 160).

(** The regex class [\d] on code points below 256, where the decimal
    digits are "0".."9"; the same class on every code point is
    [Unicode.isdecimal]. *)
Definition isdigit (c : ascii) : bool :=
  let n := code c in (48 <=? n) && (n <=? 57).

Definition digit_value (c : ascii) : Z := code c - 48.

(** [str.lower] on one character: A-Z and the Latin-1 capitals. *)
Definition lower_char (c : ascii) : ascii :=
  let n := code c in
  if ((65 <=? n) && (n <=? 90))
     || ((192 <=? n) && (n <=? 214)) || ((216 <=? n) && (n <=? 222))
  then ascii_of_N (Z.to_N (n + 32)) else c.

Fixpoint lower (s : string) : string :=
  match s with
  | EmptyString => EmptyString
  | String c s' => String (lower_char c) (lower s')
  end.

Fixpoint lstrip_by (sp : ascii -> bool) (s : string) : string :=
  match s with
  | EmptyString => EmptyString
  | String c s' => if sp c then lstrip_by sp s' else s
  end.

Fixpoint rstrip_by (sp : ascii -> bool) (s : string) : string :=
  match s with
  | EmptyString => EmptyString
  | String c s' =>
      match rstrip_by sp s' with
      | EmptyString => if sp c then EmptyString else String c EmptyString
      | r => String c r
      end
  end.

(** [s.strip()] *)
Definition strip (s : string) : string := rstrip_by isspace (lstrip_by isspace s).

(** [c in s] for a one-character needle. *)
Fixpoint contains (c : ascii) (s : string) : bool :=
  match s with
  | EmptyString => false
  | String c' s' => Ascii.eqb c c' || contains c s'
  end.

(** Number of occurrences of a character, [s.count(c)]. *)
Fixpoint count_char (c : ascii) (s : string) : nat :=
  match s with
  | EmptyString => O
  | String c' s' => (if Ascii.eqb c c' then 1 else 0)%nat + count_char c s'
  end.

(** [s.replace(a, b)] for one-character [a] and [b]. *)
Fixpoint replace_char (a b : ascii) (s : string) : string :=
  match s with
  | EmptyString => EmptyString
  | String c s' => String (if Ascii.eqb c a then b else c) (replace_char a b s')
  end.

(** [s.split(sep)] for a one-character separator: never empty. *)
Fixpoint split (sep : ascii) (s : string) : list string :=
  match s with
  | EmptyString => [EmptyString]
  | String c s' =>
      if Ascii.eqb c sep then EmptyString :: split sep s'
      else match split sep s' with
           | h :: t => String c h :: t
           | [] => [String c EmptyString]
           end
  end.

(** [s.split(sep, 1)[1]]: what follows the first separator. *)
Fixpoint split1_snd (sep : ascii) (s : string) : result string :=
  match s with
  | EmptyString => Raise IndexError
  | String c s' => if Ascii.eqb c sep then Ok s' else split1_snd sep s'
  end.

(** [str(x)] inside an f-string for a value that may be [None]. *)
Definition str_opt (o : option string) : string :=
  match o with Some s => s | None => "None" end.

(** ** The regular expressions of the source

    Every pattern the source hands to [re.fullmatch] is a sequence of
    one-character atoms, so a pattern is a list of atoms and a full match
    pairs characters and atoms one to one. *)
Inductive atom : Type :=
| Digit                   (* \d *)
| Lit (c : ascii)         (* a literal character *)
| Range (lo hi : ascii).  (* [lo-hi] *)

Definition atom_matches (a : atom) (c : ascii) : bool :=
  match a with
  | Digit => isdigit c
  | Lit l => Ascii.eqb l c
  | Range lo hi => (code lo <=? code c) && (code c <=? code hi)
  end.

Fixpoint fullmatch (p : list atom) (s : string) : bool :=
  match p, s with
  | [], EmptyString => true
  | a :: p', String c s' => atom_matches a c && fullmatch p' s'
  | _, _ => false
  end.

(** [pattern.match]: the prefix of [s] matched by a sequence of atoms,
    with what follows it. *)
Fixpoint match_prefix (p : list atom) (s : string) : option (string * string) :=
  match p with
  | [] => Some (EmptyString, s)
  | a :: p' =>
      match s with
      | String c s' =>
          if atom_matches a c then
            match match_prefix p' s' with
            | Some (m, rest) => Some (String c m, rest)
            | None => None
            end
          else None
      | EmptyString => None
      end
  end.

(** ** int(str) in base 10

    White space is trimmed (for int() the separators 28-31 do not count
    as white space), one sign is allowed, and single underscores may
    separate digits. *)
Definition int_space (c : ascii) : bool :=
  let n := code c in
  ((9 <=? n) && (n <=? 13)) || (n =? 32) || (n =? 133) || (n =? 160).

Fixpoint int_digits (acc : Z) (after_digit : bool) (s : string) : option Z :=
  match s with
  | EmptyString => if after_digit then Some acc else None
  | String c s' =>
      if isdigit c then int_digits (10 * acc + digit_value c) true s'
      else if Ascii.eqb c "_" && after_digit then int_digits acc false s'
      else None
  end.

Definition py_int (s : string) : result Z :=
  let body (t : string) :=
    match int_digits 0 false t with
    | Some n => Ok n
    | None => Raise ValueError
    end in
  match rstrip_by int_space (lstrip_by int_space s) with
  | String "-" t => n ← body t; Ok (- n)
  | String "+" t => body t
  | t => body t
  end.

(** [map(int, s.split(sep))] *)
Definition map_int_split (sep : ascii) (s : string) : result (list Z) :=
  mapM py_int (split sep s).

(** ** Formatting integers *)

(** [str(n)] *)
Definition str_Z (n : Z) : string := NilZero.string_of_int (Z.to_int n).

Fixpoint zeros (k : nat) : string :=
  match k with O => EmptyString | S k' => String "0" (zeros k') end.

(** ["%0wd" % n] for [n >= 0] *)
Definition zfill (w : nat) (n : Z) : string :=
  let s := str_Z n in zeros (w - String.length s) +:+ s.

(* ===================================================================== *)
(** * Python float primitives (binary64)                                  *)
(* ===================================================================== *)

(** The conversion of an [int] operand in mixed arithmetic; exact for
    magnitudes below 2^53, the only ones the source produces. *)
Definition float_of_int (n : Z) : float :=
  if n <? 0 then PrimFloat.opp (of_uint63 (Uint63.of_Z (- n)))
  else of_uint63 (Uint63.of_Z n).

(** Truth value of a float: [x != 0.0] (so NaN is true). *)
Definition float_bool (x : float) : bool := negb (PrimFloat.eqb x 0%float).

(** C [copysign(0.0, y)]. *)
Definition copysign_zero (y : float) : float :=
  if get_sign y then neg_zero else zero.

(** C [fmod]: the exact remainder of the truncated quotient, with the sign
    of [x].  Both operands are scaled to integers over a common power of
    two; the remainder is below both mantissas' bound, hence a float. *)
Definition fmod (x y : float) : float :=
  match Prim2SF x, Prim2SF y with
  | S754_nan, _ => nan
  | _, S754_nan => nan
  | S754_infinity _, _ => nan
  | _, S754_zero _ => nan
  | _, S754_infinity _ => x
  | S754_zero _, _ => x
  | S754_finite sx mx ex, S754_finite _ my ey =>
      let e := Z.min ex ey in
      let X := Z.pos mx * 2 ^ (ex - e) in
      let Y := Z.pos my * 2 ^ (ey - e) in
      match X mod Y with
      | Z.pos r => SF2Prim (S754_finite sx r e)
      | _ => if sx then neg_zero else zero
      end
  end.

(** C [floor]. *)
Definition floor (x : float) : float :=
  match Prim2SF x with
  | S754_finite s m e =>
      if 0 <=? e then x
      else
        let q := Z.shiftr (Z.pos m) (- e) in
        let exact := Z.shiftl q (- e) =? Z.pos m in
        if s then PrimFloat.opp (float_of_int (if exact then q else q + 1))
        else float_of_int q
  | _ => x
  end.

(** [int(x)]: truncation toward zero; NaN and the infinities raise. *)
Definition float_to_int (x : float) : result Z :=
  match Prim2SF x with
  | S754_nan => Raise ValueError
  | S754_infinity _ => Raise OverflowError
  | S754_zero _ => Ok 0
  | S754_finite s m e =>
      let a := if 0 <=? e then Z.shiftl (Z.pos m) e
               else Z.shiftr (Z.pos m) (- e) in
      Ok (if s then - a else a)
  end.

(** [vx % wx] (CPython float_rem). *)
Definition float_rem (vx wx : float) : result float :=
  if PrimFloat.eqb wx 0%float then Raise ZeroDivisionError
  else
    let mod_ := fmod vx wx in
    Ok (if float_bool mod_ then
          (* the remainder takes the sign of the denominator *)
          if xorb (PrimFloat.ltb wx 0%float) (PrimFloat.ltb mod_ 0%float)
          then (mod_ + wx)%float else mod_
        else copysign_zero wx).

(** [vx // wx] (CPython _float_div_mod, the quotient). *)
Definition float_floor_div (vx wx : float) : result float :=
  if PrimFloat.eqb wx 0%float then Raise ZeroDivisionError
  else
    let mod_ := fmod vx wx in
    let div := ((vx - mod_) / wx)%float in
    let div :=
      if float_bool mod_
         && xorb (PrimFloat.ltb wx 0%float) (PrimFloat.ltb mod_ 0%float)
      then (div - 1)%float else div in
    Ok (if float_bool div then
          (* snap the quotient to the nearest integral value *)
          let floordiv := floor div in
          if PrimFloat.ltb 0.5%float (div - floordiv)%float
          then (floordiv + 1)%float else floordiv
        else copysign_zero (vx / wx)%float).

(** Nearest integer to [num * 2^e], ties to even. *)
Definition round_half_even (num e : Z) : Z :=
  if 0 <=? e then num * 2 ^ e
  else
    let den := 2 ^ (- e) in
    let q := num / den in
    let r := num mod den in
    if (den <? 2 * r) || ((2 * r =? den) && Z.odd q) then q + 1 else q.

(** [f"{x:.1f}"]: the exact binary value rounded to one decimal, ties to
    even. *)
Definition format_1f (x : float) : string :=
  match Prim2SF x with
  | S754_nan => "nan"
  | S754_infinity s => if s then "-inf" else "inf"
  | S754_zero s => (if s then "-" else "") +:+ "0.0"
  | S754_finite s m e =>
      let t := round_half_even (10 * Z.pos m) e in
      (if s then "-" else "") +:+ str_Z (t / 10) +:+ "." +:+ str_Z (t mod 10)
  end.

(** [seq[i]] for a non-negative index. *)
Definition list_get {A} (l : list A) (i : Z) : result A :=
  if i <? 0 then Raise IndexError
  else match l !! Z.to_nat i with
       | Some a => Ok a
       | None => Raise IndexError
       end.

(* ===================================================================== *)
(** * Sign placement (deg_to_sign, main.py 160-164)                       *)
(* ===================================================================== *)

Definition signs : list string :=
  ["Aries"; "Taurus"; "Gemini"; "Cancer"; "Leo"; "Virgo"; "Libra";
   "Scorpio"; "Sagittarius"; "Capricorn"; "Aquarius"; "Pisces"].

Definition deg_to_sign (deg : float) : result (string * float) :=
  q ← float_floor_div deg 30%float;
  n ← float_to_int q;
  let idx := n mod 12 in
  within ← float_rem deg 30%float;
  s ← list_get signs idx;
  Ok (s, within).

(* ===================================================================== *)
(** * datetime: dates, times and strptime                                 *)
(* ===================================================================== *)

Record Date : Type := mkDate { year : Z; month : Z; day : Z }.

Record DateTime : Type := mkDateTime {
  dt_date : Date; hour : Z; minute : Z; second : Z
}.

Definition is_leap (y : Z) : bool :=
  (y mod 4 =? 0) && (negb (y mod 100 =? 0) || (y mod 400 =? 0)).

Definition days_in_month (y m : Z) : Z :=
  if m =? 2 then (if is_leap y then 29 else 28)
  else if (m =? 4) || (m =? 6) || (m =? 9) || (m =? 11) then 30
  else 31.

(** A calendar date in the range of [datetime.date] (MINYEAR = 1,
    MAXYEAR = 9999). *)
Definition valid_date (y m d : Z) : bool :=
  (1 <=? y) && (y <=? 9999) && (1 <=? m) && (m <=? 12)
  && (1 <=? d) && (d <=? days_in_month y m).

(** [date(y, m, d)] *)
Definition date_new (y m d : Z) : result Date :=
  if valid_date y m d then Ok (mkDate y m d) else Raise ValueError.

(** [datetime(y, m, d, hh, mm, ss)] *)
Definition datetime_new (y m d hh mm ss : Z) : result DateTime :=
  dd ← date_new y m d;
  if (0 <=? hh) && (hh <=? 23) && (0 <=? mm) && (mm <=? 59)
     && (0 <=? ss) && (ss <=? 59)
  then Ok (mkDateTime dd hh mm ss) else Raise ValueError.

(** [date.isoformat()] *)
Definition date_isoformat (d : Date) : string :=
  zfill 4 (year d) +:+ "-" +:+ zfill 2 (month d) +:+ "-" +:+ zfill 2 (day d).

(** [datetime.isoformat()] of an aware datetime in UTC without
    microseconds. *)
Definition datetime_isoformat_utc (t : DateTime) : string :=
  date_isoformat (dt_date t) +:+ "T" +:+ zfill 2 (hour t) +:+ ":"
  +:+ zfill 2 (minute t) +:+ ":" +:+ zfill 2 (second t) +:+ "+00:00".

(** ** strptime

    The format directives the source uses.  [_strptime] turns a format
    into a regular expression, one group of ordered alternatives per
    directive, matches it against a prefix of the input and rejects
    unconverted trailing data; then it builds the date. *)
Inductive directive : Type :=
| dir_Y                (* %Y *)
| dir_m                (* %m *)
| dir_d                (* %d *)
| dir_lit (c : ascii).

Definition directive_alternatives (d : directive) : list (list atom) :=
  match d with
  | dir_Y => [[Digit; Digit; Digit; Digit]]
  | dir_m => [[Lit "1"; Range "0" "2"]; [Lit "0"; Range "1" "9"];
              [Range "1" "9"]]
  | dir_d => [[Lit "3"; Range "0" "1"]; [Range "1" "2"; Digit];
              [Lit "0"; Range "1" "9"]; [Range "1" "9"];
              [Lit " "; Range "1" "9"]]
  | dir_lit c => [[Lit c]]
  end.

(** Backtracking match of the format's regular expression: the first
    alternative of each directive that lets the rest of the format match. *)
Fixpoint format_match (fmt : list directive) (s : string)
  : option (list (directive * string) * string) :=
  match fmt with
  | [] => Some ([], s)
  | d :: fmt' =>
      (fix try (alts : list (list atom)) :=
         match alts with
         | [] => None
         | a :: alts' =>
             match match_prefix a s with
             | Some (m, rest) =>
                 match format_match fmt' rest with
                 | Some (fields, r) => Some ((d, m) :: fields, r)
                 | None => try alts'
                 end
             | None => try alts'
             end
         end) (directive_alternatives d)
  end.

Fixpoint field (which : directive -> bool) (default : Z)
    (fields : list (directive * string)) : result Z :=
  match fields with
  | [] => Ok default
  | (d, m) :: fields' => if which d then py_int m else field which default fields'
  end.

(** [datetime.strptime(s, fmt).date()] *)
Definition strptime_date (s : string) (fmt : list directive) : result Date :=
  match format_match fmt s with
  | None => Raise ValueError                 (* does not match format *)
  | Some (fields, String _ _) => Raise ValueError  (* unconverted data *)
  | Some (fields, EmptyString) =>
      y ← field (fun d => match d with dir_Y => true | _ => false end) 1900 fields;
      m ← field (fun d => match d with dir_m => true | _ => false end) 1 fields;
      d ← field (fun d => match d with dir_d => true | _ => false end) 1 fields;
      date_new y m d
  end.

(* ===================================================================== *)
(** * Input validators (main.py 69-86)                                    *)
(* ===================================================================== *)

Definition re_date_iso : list atom :=
  [Digit; Digit; Digit; Digit; Lit "-"; Digit; Digit; Lit "-"; Digit; Digit].

Definition re_date_dmy : list atom :=
  [Digit; Digit; Lit "."; Digit; Digit; Lit "."; Digit; Digit; Digit; Digit].

Definition re_time : list atom := [Digit; Digit; Lit ":"; Digit; Digit].

Definition fmt_Ymd : list directive :=
  [dir_Y; dir_lit "-"; dir_m; dir_lit "-"; dir_d].

Definition fmt_dmY : list directive :=
  [dir_d; dir_lit "."; dir_m; dir_lit "."; dir_Y].

(** [None] is the "invalid" sentinel. *)
Definition parse_date (s : string) : result (option Date) :=
  let s := strip s in
  if fullmatch re_date_iso s then
    d ← strptime_date s fmt_Ymd; Ok (Some d)
  else if fullmatch re_date_dmy s then
    d ← strptime_date s fmt_dmY; Ok (Some d)
  else Ok None.

Definition parse_time (s : string) : result (option (Z * Z)) :=
  let s := strip s in
  if fullmatch re_time s then
    l ← map_int_split ":" s;
    match l with
    | [h; m] =>
        if (0 <=? h) && (h <=? 23) && (0 <=? m) && (m <=? 59)
        then Ok (Some (h, m)) else Ok None
    | _ => Raise ValueError    (* unpacking h, m *)
    end
  else Ok None.

(* ===================================================================== *)
(** * Sessions (main.py 17, 33-46)                                        *)
(* ===================================================================== *)

Inductive State : Type :=
| ASK_DATE | ASK_TIME | ASK_CITY | ASK_COUNTRY | ASK_TZ | ASK_TOPIC
| ASK_FREEFORM.

(** The "data" dictionary: its keys are fixed, [None] is the value of a
    field that has not been collected. *)
Record Data : Type := mkData {
  date : option string;
  time : option string;
  city : option string;
  country : option string;
  tz : option string;
  lat : option float;
  lon : option float;
  topic : option string
}.

Record Session : Type := mkSession { state : State; data : Data }.

Definition new_session : Session :=
  {| state := ASK_DATE;
     data := {| date := None; time := None; city := None; country := None;
                tz := None; lat := None; lon := None; topic := None |} |}.

(** Assignments [d[key] = v]. *)
Definition set_date (v : option string) (d : Data) : Data :=
  mkData v (time d) (city d) (country d) (tz d) (lat d) (lon d) (topic d).
Definition set_time (v : option string) (d : Data) : Data :=
  mkData (date d) v (city d) (country d) (tz d) (lat d) (lon d) (topic d).
Definition set_city (v : option string) (d : Data) : Data :=
  mkData (date d) (time d) v (country d) (tz d) (lat d) (lon d) (topic d).
Definition set_country (v : option string) (d : Data) : Data :=
  mkData (date d) (time d) (city d) v (tz d) (lat d) (lon d) (topic d).
Definition set_tz (v : option string) (d : Data) : Data :=
  mkData (date d) (time d) (city d) (country d) v (lat d) (lon d) (topic d).
Definition set_lat (v : option float) (d : Data) : Data :=
  mkData (date d) (time d) (city d) (country d) (tz d) v (lon d) (topic d).
Definition set_lon (v : option float) (d : Data) : Data :=
  mkData (date d) (time d) (city d) (country d) (tz d) (lat d) v (topic d).
Definition set_topic (v : option string) (d : Data) : Data :=
  mkData (date d) (time d) (city d) (country d) (tz d) (lat d) (lon d) v.

(* ===================================================================== *)
(** * External collaborators                                              *)
(* ===================================================================== *)

(** The bodies of swisseph that compute_chart asks for. *)
Inductive Body : Type :=
| SUN | MOON | MERCURY | VENUS | MARS | JUPITER | SATURN | URANUS | NEPTUNE
| PLUTO.

(** The fixed labels of topic_label (their text is Cyrillic). *)
Inductive TopicLabel : Type :=
| label_relationships | label_career | label_money | label_self
| label_general | label_other.

(** The system prompt: a fixed template around three interpolated
    values. *)
Record Prompt : Type := mkPrompt {
  prompt_chart : string;
  prompt_topic : TopicLabel;
  prompt_question : string
}.

(** What the process finds outside itself: its configuration and the
    answers of the services it calls.  Each service may raise. *)
Record World : Type := mkWorld {
  OPENAI_API_KEY : string;
  (** [_try(q)] of geocode_city: the first hit of the search, if any *)
  nominatim_search : option string -> result (option (float * float));
  (** [dt_local.replace(tzinfo=ZoneInfo(tz)).astimezone(ZoneInfo("UTC"))] *)
  utc_of_local : DateTime -> option string -> result DateTime;
  swe_julday : Z -> Z -> Z -> float -> result float;
  (** [swe.calc_ut(jd, pid)[0][0]] *)
  swe_calc_ut : float -> Body -> result float;
  (** [swe.houses(jd, lat, lon, b'P')[1][0]] *)
  swe_houses_asc : float -> float -> float -> result float;
  call_openai : Prompt -> string -> result string
}.

(* ===================================================================== *)
(** * Geocoding (main.py 89-111)                                          *)
(* ===================================================================== *)

Definition geocode_city (w : World) (city country : option string)
  : result (option (float * float)) :=
  (* 1) city, country *)
  res ← nominatim_search w (Some (str_opt city +:+ ", " +:+ str_opt country));
  match res with
  | Some c => Ok (Some c)
  | None =>
      (* 2) city only *)
      res ← nominatim_search w city;
      match res with
      | Some c => Ok (Some c)
      | None => Ok None
      end
  end.

(* ===================================================================== *)
(** * Chart computation and rendering (main.py 116-176)                   *)
(* ===================================================================== *)

Record Chart : Type := mkChart {
  utc : string;
  positions : gmap string float;
  asc : float
}.

Definition planets : list (string * Body) :=
  [("Sun", SUN); ("Moon", MOON); ("Mercury", MERCURY); ("Venus", VENUS);
   ("Mars", MARS); ("Jupiter", JUPITER); ("Saturn", SATURN);
   ("Uranus", URANUS); ("Neptune", NEPTUNE); ("Pluto", PLUTO)].

(** The loop over [planets.items()]. *)
Fixpoint calc_positions (w : World) (jd_ut : float)
    (items : list (string * Body)) (acc : gmap string float)
  : result (gmap string float) :=
  match items with
  | [] => Ok acc
  | (name, pid) :: items' =>
      l ← swe_calc_ut w jd_ut pid;
      calc_positions w jd_ut items' (<[name := l]> acc)
  end.

Definition compute_chart (w : World) (lat lon : float) (dt_local : DateTime)
    (tz_str : option string) : result Chart :=
  dt_utc ← utc_of_local w dt_local tz_str;
  let d := dt_date dt_utc in
  jd_ut ← swe_julday w (year d) (month d) (day d)
            (float_of_int (hour dt_utc)
             + float_of_int (minute dt_utc) / 60
             + float_of_int (second dt_utc) / 3600)%float;
  positions ← calc_positions w jd_ut planets ∅;
  asc ← swe_houses_asc w jd_ut lat lon;
  Ok {| utc := datetime_isoformat_utc dt_utc; positions := positions;
        asc := asc |}.

Definition bodies : list string :=
  ["Sun"; "Moon"; "Mercury"; "Venus"; "Mars"; "Jupiter"; "Saturn"; "Uranus";
   "Neptune"; "Pluto"].

(** The degree sign, U+00B0. *)
Definition degree_sign : string := String "176" EmptyString.

Definition newline : string := String "010" EmptyString.

(** [f"{name}: {s} {within:.1f}°"] *)
Definition render_line (name : string) (p : string * float) : string :=
  name +:+ ": " +:+ fst p +:+ " " +:+ format_1f (snd p) +:+ degree_sign.

(** [chart["positions"][k]] *)
Definition positions_get (m : gmap string float) (k : string) : result float :=
  match m !! k with
  | Some v => Ok v
  | None => Raise KeyError
  end.

Fixpoint body_lines (m : gmap string float) (ks : list string)
  : result (list string) :=
  match ks with
  | [] => Ok []
  | k :: ks' =>
      v ← positions_get m k;
      p ← deg_to_sign v;
      rest ← body_lines m ks';
      Ok (render_line k p :: rest)
  end.

Definition chart_to_text (chart : Chart) : result string :=
  p ← deg_to_sign (asc chart);
  rest ← body_lines (positions chart) bodies;
  Ok (String.concat newline (render_line "Ascendant" p :: rest)).

Definition topic_label (topic : option string) : TopicLabel :=
  match topic with
  | Some t =>
      if String.eqb t "relationships" then label_relationships
      else if String.eqb t "career" then label_career
      else if String.eqb t "money" then label_money
      else if String.eqb t "self" then label_self
      else if String.eqb t "general" then label_general
      else label_other
  | None => label_other
  end.

(* ===================================================================== *)
(** * The webhook (main.py 222-404)                                       *)
(* ===================================================================== *)

(** An inbound Telegram update, as far as the handler reads it: a
    callback query with its id, the chat of its message and its data (a
    string, or absent), a message (or edited message) with its chat and
    its text (a string, or absent), or an update with neither.  A callback
    query without a message, or whose data is JSON null, is not among
    them: lines 229 and 236 raise on those. *)
Inductive Update : Type :=
| callback_query (id : string) (chat_id : Z) (cq_data : option string)
| message (chat_id : Z) (text : option string)   (* or edited_message *)
| no_message.

(** The fixed texts the bot sends; the time-dependent ones carry their
    interpolated value. *)
Inductive Message : Type :=
| MsgTopicChosen          (* line 240 *)
| MsgWriteText            (* line 253 *)
| MsgStart                (* line 260 *)
| MsgReset                (* line 269 *)
| MsgBegin                (* line 278 *)
| MsgBadDate              (* line 289 *)
| MsgAskTime              (* line 293 *)
| MsgBadTime              (* line 299 *)
| MsgAskCity              (* line 303 *)
| MsgAskTzAfterCity       (* line 316 *)
| MsgAskCountry           (* line 322 *)
| MsgAskTz                (* line 329 *)
| MsgBadTz                (* line 336 *)
| MsgChooseTopic          (* line 340 *)
| MsgNoKey                (* line 346 *)
| MsgNoCoords             (* line 356 *)
| MsgChartError (e : exn) (* line 373 *)
| MsgAnswer (answer : string)  (* line 395 *)
| MsgAnotherTopic         (* line 399 *)
| MsgLost.                (* line 403 *)

(** What one invocation does to the outside, in order.  The calls to the
    Telegram API are taken to return normally. *)
Inductive Effect : Type :=
| tg_answer_callback (callback_query_id : string)
| tg_send_message (chat_id : Z) (text : Message) (topic_keyboard : bool)
| geocoding (city country : option string)
| chart_computation (lat lon : float) (dt_local : DateTime)
    (tz_str : option string)
| text_generation (system_prompt : Prompt) (user_text : string).

Record Outcome : Type := mkOutcome {
  sessions : gmap Z Session;
  effects : list Effect;
  response : result unit
}.

(** Normal return, [{"ok": True}]. *)
Definition done (S : gmap Z Session) (es : list Effect) : Outcome :=
  mkOutcome S es (Ok tt).

Definition send (chat_id : Z) (m : Message) : Effect :=
  tg_send_message chat_id m false.

(** [x or ""] and [cq.get("data", "")]: a missing text is the empty
    string. *)
Definition or_empty (o : option string) : string :=
  match o with Some s => s | None => EmptyString end.

(** [SESSIONS.get(chat_id) or new_session()] *)
Definition get_or_new (S : gmap Z Session) (chat_id : Z) : Session :=
  match S !! chat_id with Some sess => sess | None => new_session end.

(** [x in (a, b)] on strings. *)
Definition str_in (x : string) (l : list string) : bool :=
  existsb (String.eqb x) l.

(** Lines 365-367: the local birth instant rebuilt from the stored
    strings.  A field that is still [None] has no [split]. *)
Definition dt_local_of (d : Data) : result DateTime :=
  ds ← match date d with Some s => Ok s | None => Raise AttributeError end;
  ymd ← map_int_split "-" ds;
  '(y, m, dd) ← match ymd with
                 | [y; m; dd] => Ok (y, m, dd)
                 | _ => Raise ValueError
                 end;
  ts ← match time d with Some s => Ok s | None => Raise AttributeError end;
  hm ← map_int_split ":" ts;
  '(hh, mm) ← match hm with
               | [hh; mm] => Ok (hh, mm)
               | _ => Raise ValueError
               end;
  datetime_new y m dd hh mm 0.

(** Lines 308-309: the place tokens. *)
Definition place_parts (text : string) : list string :=
  let normalized := replace_char "/" "," text in
  filter (fun p => negb (String.eqb p EmptyString))
         (map strip (split "," normalized)).

(** Line 335: the structural check of the time-zone identifier. *)
Definition tz_rejected (text : string) : bool :=
  negb (contains "/" text) || contains " " text.

(** Lines 344-400: one free-form round. *)
Definition freeform_round (w : World) (S : gmap Z Session) (chat_id : Z)
    (sess : Session) (text : string) : Outcome :=
  let d := data sess in
  if String.eqb (OPENAI_API_KEY w) EmptyString then
    done S [send chat_id MsgNoKey]
  else
    let e_geo := [geocoding (city d) (country d)] in
    let coords :=
      match geocode_city w (city d) (country d) with
      | Ok c => c
      | Raise _ => None
      end in
    match coords with
    | None =>
        done (<[chat_id := mkSession ASK_CITY d]> S)
             (e_geo ++ [send chat_id MsgNoCoords])
    | Some (la, lo) =>
        let d := set_lon (Some lo) (set_lat (Some la) d) in
        let S := <[chat_id := mkSession (state sess) d]> S in
        match dt_local_of d with
        | Raise e => mkOutcome S e_geo (Raise e)
        | Ok dt_local =>
            let e_chart : list Effect :=
              e_geo ++ [chart_computation la lo dt_local (tz d)] in
            match chart ← compute_chart w la lo dt_local (tz d);
                  chart_to_text chart with
            | Raise e => done S (e_chart ++ [send chat_id (MsgChartError e)])
            | Ok chart_text =>
                let system_prompt :=
                  mkPrompt chart_text (topic_label (topic d)) text in
                let e_gen : list Effect :=
                  e_chart ++ [text_generation system_prompt text] in
                match call_openai w system_prompt text with
                | Raise e => mkOutcome S e_gen (Raise e)
                | Ok answer =>
                    done (<[chat_id := mkSession ASK_TOPIC d]> S)
                         (e_gen ++ [send chat_id (MsgAnswer answer);
                                    tg_send_message chat_id MsgAnotherTopic true])
                end
            end
        end
    end.

(** Lines 282-404: the dispatch on the state of an existing session.
    (Line 306 of the source is indented by seven columns; the branch is
    read at the level of its sibling branches.) *)
Definition dispatch (w : World) (S : gmap Z Session) (chat_id : Z)
    (sess : Session) (text : string) : Outcome :=
  let d := data sess in
  match state sess with
  | ASK_DATE =>
      match parse_date text with
      | Raise e => mkOutcome S [] (Raise e)
      | Ok None => done S [send chat_id MsgBadDate]
      | Ok (Some dt) =>
          done (<[chat_id :=
                    mkSession ASK_TIME (set_date (Some (date_isoformat dt)) d)]> S)
               [send chat_id MsgAskTime]
      end
  | ASK_TIME =>
      match parse_time text with
      | Raise e => mkOutcome S [] (Raise e)
      | Ok None => done S [send chat_id MsgBadTime]
      | Ok (Some (h, m)) =>
          done (<[chat_id :=
                    mkSession ASK_CITY
                      (set_time (Some (zfill 2 h +:+ ":" +:+ zfill 2 m)) d)]> S)
               [send chat_id MsgAskCity]
      end
  | ASK_CITY =>
      match place_parts text with
      | p0 :: p1 :: _ =>
          done (<[chat_id :=
                    mkSession ASK_TZ
                      (set_country (Some p1) (set_city (Some p0) d))]> S)
               [send chat_id MsgAskTzAfterCity]
      | _ =>
          done (<[chat_id :=
                    mkSession ASK_COUNTRY (set_city (Some (strip text)) d)]> S)
               [send chat_id MsgAskCountry]
      end
  | ASK_COUNTRY =>
      done (<[chat_id :=
                mkSession ASK_TZ (set_country (Some (strip text)) d)]> S)
           [send chat_id MsgAskTz]
  | ASK_TZ =>
      if tz_rejected text then done S [send chat_id MsgBadTz]
      else
        done (<[chat_id := mkSession ASK_TOPIC (set_tz (Some (strip text)) d)]> S)
             [tg_send_message chat_id MsgChooseTopic true]
  | ASK_FREEFORM => freeform_round w S chat_id sess text
  | ASK_TOPIC =>
      (* fallback *)
      done S [send chat_id MsgLost]
  end.

Definition webhook (w : World) (S : gmap Z Session) (update : Update)
  : Outcome :=
  match update with
  | callback_query id chat_id cq_data =>
      let cq_data := or_empty cq_data in
      let sess := get_or_new S chat_id in
      let S := <[chat_id := sess]> S in
      if String.prefix "topic:" cq_data then
        match split1_snd ":" cq_data with
        | Raise e => mkOutcome S [tg_answer_callback id] (Raise e)
        | Ok t =>
            done (<[chat_id :=
                      mkSession ASK_FREEFORM (set_topic (Some t) (data sess))]> S)
                 [tg_answer_callback id; send chat_id MsgTopicChosen]
        end
      else done S [tg_answer_callback id]
  | no_message => done S []
  | message chat_id text =>
      let text := strip (or_empty text) in
      if String.eqb text EmptyString then done S [send chat_id MsgWriteText]
      else if str_in (lower text) ["/start"; "start"] then
        done (<[chat_id := new_session]> S) [send chat_id MsgStart]
      else if str_in (lower text) ["/reset"; "reset"] then
        done (<[chat_id := new_session]> S) [send chat_id MsgReset]
      else
        match S !! chat_id with
        | None => done (<[chat_id := new_session]> S) [send chat_id MsgBegin]
        | Some sess => dispatch w S chat_id sess text
        end
  end.

(** The process handling a sequence of updates, one at a time; the
    session store survives an invocation that raised. *)
Fixpoint run (w : World) (S : gmap Z Session) (updates : list Update)
  : gmap Z Session :=
  match updates with
  | [] => S
  | u :: updates' => run w (sessions (webhook w S u)) updates'
  end.

(** The state of one chat after each update of a sequence. *)
Fixpoint state_trace (w : World) (S : gmap Z Session) (chat_id : Z)
    (updates : list Update) : list (option State) :=
  match updates with
  | [] => []
  | u :: updates' =>
      let S' := sessions (webhook w S u) in
      (state <$> S' !! chat_id) :: state_trace w S' chat_id updates'
  end.

(* ===================================================================== *)
(** * Predicates used to state the properties                             *)
(* ===================================================================== *)

(** The characters of [\d]. *)
Definition digit_chars : list ascii :=
  ["0"; "1"; "2"; "3"; "4"; "5"; "6"; "7"; "8"; "9"]%char.

(** The shape [HH:MM]: two digits, a colon, two digits, read as the pair
    of numbers [(h, m)]. *)
Definition time_form (s : string) (h m : Z) : Prop :=
  exists a b c d,
    s = String a (String b (String ":" (String c (String d EmptyString))))
    /\ isdigit a = true /\ isdigit b = true
    /\ isdigit c = true /\ isdigit d = true
    /\ h = 10 * digit_value a + digit_value b
    /\ m = 10 * digit_value c + digit_value d.

(** The texts handled before the state dispatch (lines 257-271). *)
Definition is_command (text : string) : bool :=
  str_in (lower text) ["/start"; "start"]
  || str_in (lower text) ["/reset"; "reset"].

(** The text starts with a digit. *)
Definition head_digit (s : string) : bool :=
  match s with
  | String c _ => isdigit c
  | EmptyString => false
  end.

(** A world for the examples: the key is configured, the geocoder knows
    London and Berlin, the zone Europe/London is known (at UTC+0, as in
    winter), the ephemeris answers fixed longitudes. *)
Definition example_world : World := {|
  OPENAI_API_KEY := "sk-example";
  nominatim_search := fun q =>
    match q with
    | Some q =>
        if String.eqb q "London, UK" then Ok (Some (51.5, -0.125)%float)
        else if String.eqb q "Berlin, Germany" then Ok (Some (52.5, 13.375)%float)
        else Ok None
    | None => Raise TypeError
    end;
  utc_of_local := fun t z =>
    match z with
    | Some z =>
        if String.eqb z "Europe/London" then Ok t
        else Raise (ExternalError "ZoneInfoNotFoundError")
    | None => Raise TypeError
    end;
  swe_julday := fun y m d h => Ok ((float_of_int (367 * y + 31 * m + d)) + h / 24)%float;
  swe_calc_ut := fun jd b =>
    Ok (match b with
        | SUN => 280.5 | MOON => 10.25 | MERCURY => 265.75 | VENUS => 300.5
        | MARS => 240 | JUPITER => 95.5 | SATURN => 285.125 | URANUS => 276
        | NEPTUNE => 282.5 | PLUTO => 227.25
        end)%float;
  swe_houses_asc := fun jd la lo => Ok 15.5%float;
  call_openai := fun p t => Ok "reading"
|}.

(** A session that has collected everything up to the topic. *)
Definition example_data : Data := {|
  date := Some "1990-01-01"; time := Some "12:00";
  city := Some "London"; country := Some "UK"; tz := Some "Europe/London";
  lat := None; lon := None; topic := Some "general"
|}.

(** The messages among the effects of a round. *)
Definition is_send (e : Effect) : bool :=
  match e with tg_send_message _ _ _ => true | _ => false end.

(** The names of the rendered lines, in order, and the longitude a chart
    holds for each. *)
Definition line_names : list string := "Ascendant" :: bodies.

Definition chart_longitude (chart : Chart) (name : string) : option float :=
  if String.eqb name "Ascendant" then Some (asc chart)
  else positions chart !! name.


(** The chart of the examples. *)
Definition example_chart : Chart := {|
  utc := "1990-01-01T12:00:00+00:00";
  positions :=
    list_to_map
      [("Sun", 280.5); ("Moon", 10.25); ("Mercury", 265.75); ("Venus", 300.5);
       ("Mars", 240); ("Jupiter", 95.5); ("Saturn", 285.125); ("Uranus", 276);
       ("Neptune", 282.5); ("Pluto", 227.25)]%float;
  asc := 15.5%float
|}.

(** The placement of a whole number of degrees, in exact arithmetic. *)
Definition whole_degree_placement (n : Z) : result (string * float) :=
  s ← list_get signs ((n / 30) mod 12); Ok (s, float_of_int (n mod 30)).

(** The integers [lo, lo + 1, ..., lo + len - 1]. *)
Definition Z_range (lo len : Z) : list Z :=
  map (fun i => lo + Z.of_nat i) (seq 0 (Z.to_nat len)).

(** [0 <= x < 30] on floats. *)
Definition within_sign (x : float) : bool :=
  PrimFloat.leb 0%float x && PrimFloat.ltb x 30%float.

(** The longitude just below 30: 30 - 2^-48, printed 29.999999999999996. *)
Definition below_30 : float := 0x1.dffffffffffffp+4%float.

(* ===================================================================== *)
(** * Exact values of floats                                              *)
(* ===================================================================== *)

(** Every finite float is a whole number of units of 2^-1074; [ticks] is
    that number, and [tick_den] the 2^1074 units of one. *)
Definition tick_den : positive := (2 ^ 1074)%positive.

Definition ticks (x : float) : Z :=
  match Prim2SF x with
  | S754_finite s m e =>
      let t := Z.pos m * 2 ^ (e + 1074) in if s then - t else t
  | _ => 0
  end.

(** The exact value of a finite float, as a rational: the mantissa times
    two to the exponent, with its sign. *)
Definition float_value (x : float) : option Q :=
  match Prim2SF x with
  | S754_zero _ => Some 0%Q
  | S754_finite s m e =>
      let a := (inject_Z (Z.pos m) * 2 ^ e)%Q in
      Some (if s then (- a)%Q else a)
  | _ => None
  end.

(** The float is [+0.0] or positive and finite. *)
Definition nonneg_float (w : float) : Prop :=
  w = zero \/ exists m e, Prim2SF w = S754_finite false m e.



(* ===================================================================== *)
(** * Further predicates: shapes of texts, well-formed stores             *)
(* ===================================================================== *)

(** The number written by two and by four digits. *)
Definition num2 (a b : ascii) : Z := 10 * digit_value a + digit_value b.

Definition num4 (a b c d : ascii) : Z :=
  1000 * digit_value a + 100 * digit_value b + 10 * digit_value c
  + digit_value d.

Definition str2 (a b : ascii) : string := String a (String b EmptyString).

Definition str4 (a b c d : ascii) : string :=
  String a (String b (String c (String d EmptyString))).

(** The text [YYYY-MM-DD] and the text [DD.MM.YYYY] of given characters. *)
Definition iso_text (y1 y2 y3 y4 m1 m2 d1 d2 : ascii) : string :=
  str4 y1 y2 y3 y4 +:+ "-" +:+ str2 m1 m2 +:+ "-" +:+ str2 d1 d2.

Definition dmy_text (y1 y2 y3 y4 m1 m2 d1 d2 : ascii) : string :=
  str2 d1 d2 +:+ "." +:+ str2 m1 m2 +:+ "." +:+ str4 y1 y2 y3 y4.

(** What the parser owes for a text of one of the two shapes. *)
Definition date_or_ValueError (y m d : Z) : result (option Date) :=
  if valid_date y m d then Ok (Some (mkDate y m d)) else Raise ValueError.

Definition month_ok (m1 m2 : ascii) : bool :=
  (1 <=? num2 m1 m2) && (num2 m1 m2 <=? 12).

Definition day_ok (d1 d2 : ascii) : bool :=
  (1 <=? num2 d1 d2) && (num2 d1 d2 <=? 31).

(** The rest of the format matched with a field in front of it. *)
Definition prepend_fields (front : list (directive * string))
    (r : option (list (directive * string) * string))
  : option (list (directive * string) * string) :=
  match r with
  | Some (fields, rest) => Some (front ++ fields, rest)
  | None => None
  end.

Definition all_digits (l : list ascii) : Prop :=
  Forall (fun c => isdigit c = true) l.

(** The decimal digit of a number below ten, and the digits of numbers
    below 100 and below 10000. *)
Definition digit_char (k : Z) : ascii := ascii_of_N (Z.to_N (48 + k)).

Definition digits2 (n : Z) : string :=
  str2 (digit_char (n / 10)) (digit_char (n mod 10)).

Definition digits4 (n : Z) : string :=
  str4 (digit_char (n / 1000)) (digit_char (n / 100 mod 10))
       (digit_char (n / 10 mod 10)) (digit_char (n mod 10)).

Definition check_digits2 (n : Z) : bool :=
  String.eqb (zfill 2 n) (digits2 n)
  && isdigit (digit_char (n / 10)) && isdigit (digit_char (n mod 10))
  && (num2 (digit_char (n / 10)) (digit_char (n mod 10)) =? n).

Definition check_digits4 (n : Z) : bool :=
  String.eqb (zfill 4 n) (digits4 n)
  && isdigit (digit_char (n / 1000)) && isdigit (digit_char (n / 100 mod 10))
  && isdigit (digit_char (n / 10 mod 10)) && isdigit (digit_char (n mod 10))
  && (num4 (digit_char (n / 1000)) (digit_char (n / 100 mod 10))
           (digit_char (n / 10 mod 10)) (digit_char (n mod 10)) =? n).

(** The chat an update belongs to. *)
Definition update_chat (u : Update) : option Z :=
  match u with
  | callback_query _ c _ => Some c
  | message c _ => Some c
  | no_message => None
  end.

(** What the handler keeps true of the stored fields: a stored date is
    the ISO text of a calendar date, a stored time is [HH:MM] of a time of
    day, stored places are trimmed and not empty, a stored time zone is
    trimmed and passes the check of line 335, and latitude and longitude
    are stored together. *)
Definition date_wf (o : option string) : Prop :=
  forall s, o = Some s ->
    exists y m d, valid_date y m d = true /\ s = date_isoformat (mkDate y m d).

Definition time_wf (o : option string) : Prop :=
  forall s, o = Some s ->
    exists h m, 0 <= h <= 23 /\ 0 <= m <= 59
                /\ s = zfill 2 h +:+ ":" +:+ zfill 2 m.

Definition place_wf (o : option string) : Prop :=
  forall s, o = Some s -> s <> EmptyString /\ strip s = s.

Definition tz_wf (o : option string) : Prop :=
  forall s, o = Some s -> tz_rejected s = false /\ strip s = s.

Definition data_wf (d : Data) : Prop :=
  date_wf (date d) /\ time_wf (time d) /\ place_wf (city d)
  /\ place_wf (country d) /\ tz_wf (tz d)
  /\ (lat d = None <-> lon d = None).

Definition store_wf (S : gmap Z Session) : Prop :=
  forall c sess, S !! c = Some sess -> data_wf (data sess).

(** An effect that is not a message, or is a message to the chat [c]. *)
Definition to_chat (c : Z) (e : Effect) : Prop :=
  match e with
  | tg_send_message c' _ _ => c' = c
  | _ => True
  end.

(** What holds of a session in each state, in every reachable store. *)
Definition session_ok (sess : Session) : Prop :=
  match state sess with
  | ASK_TIME => date (data sess) <> None
  | ASK_COUNTRY => city (data sess) <> None
  | ASK_TZ => city (data sess) <> None /\ country (data sess) <> None
  | ASK_FREEFORM => topic (data sess) <> None
  | _ => True
  end.

Definition store_ok (S : gmap Z Session) : Prop :=
  forall c sess, S !! c = Some sess -> session_ok sess.

(** Chart computation and text generation among the effects. *)
Definition is_chart_or_generation (e : Effect) : bool :=
  match e with
  | chart_computation _ _ _ _ | text_generation _ _ => true
  | _ => false
  end.

(** TOPIC_KEYBOARD (main.py 20-30): the rows of buttons, each button by
    its callback_data (the button texts are not modelled). *)
Definition TOPIC_KEYBOARD : list (list string) :=
  [["topic:relationships"; "topic:career"];
   ["topic:money"; "topic:self"];
   ["topic:general"]].

(** The label the free-form round will use after a button press with the
    given payload. *)
Definition payload_label (payload : string) : TopicLabel :=
  match split1_snd ":" payload with
  | Ok t => topic_label (Some t)
  | Raise _ => label_other
  end.

(** A place token: not empty, trimmed, without comma and slash. *)
Definition place_token (p : string) : Prop :=
  p <> EmptyString /\ strip p = p
  /\ contains "," p = false /\ contains "/" p = false.

(** The text of one of the two date shapes, for given digits. *)
Definition date_shaped (s : string) (y1 y2 y3 y4 m1 m2 d1 d2 : ascii) : Prop :=
  all_digits [y1; y2; y3; y4; m1; m2; d1; d2]
  /\ (strip s = iso_text y1 y2 y3 y4 m1 m2 d1 d2
      \/ strip s = dmy_text y1 y2 y3 y4 m1 m2 d1 d2).

Definition check_zfill4 (a b c d : ascii) : bool :=
  String.eqb (zfill 4 (num4 a b c d)) (str4 a b c d).

Definition check_zfill2 (a b : ascii) : bool :=
  String.eqb (zfill 2 (num2 a b)) (str2 a b).

(** Two more worlds for the examples: one without the API key, and one
    whose house computation answers a NaN ascendant. *)
Definition keyless_world : World := {|
  OPENAI_API_KEY := EmptyString;
  nominatim_search := nominatim_search example_world;
  utc_of_local := utc_of_local example_world;
  swe_julday := swe_julday example_world;
  swe_calc_ut := swe_calc_ut example_world;
  swe_houses_asc := swe_houses_asc example_world;
  call_openai := call_openai example_world
|}.

Definition nan_asc_world : World := {|
  OPENAI_API_KEY := OPENAI_API_KEY example_world;
  nominatim_search := nominatim_search example_world;
  utc_of_local := utc_of_local example_world;
  swe_julday := swe_julday example_world;
  swe_calc_ut := swe_calc_ut example_world;
  swe_houses_asc := fun jd la lo => Ok nan;
  call_openai := call_openai example_world
|}.

(** The local birth instant of [example_data], and the chart text of the
    example world for it. *)
Definition example_instant : DateTime := mkDateTime (mkDate 1990 1 1) 12 0 0.

Definition example_text : string :=
  match chart ← compute_chart example_world 51.5 (-0.125) example_instant
                  (Some "Europe/London");
        chart_to_text chart with
  | Ok t => t
  | Raise _ => EmptyString
  end.

(* ===================================================================== *)
(** * The time parser on arbitrary text                                   *)
(* ===================================================================== *)

(** The model above keeps a [str] as a [string] of code points below 256.
    The time parser is also modelled on every [str]: a text is the list of
    its code points, white space is the class of Py_UNICODE_ISSPACE, and
    the decimal digits (the regex class [\d] of a str pattern and the
    digits [int] accepts, both Py_UNICODE_TODECIMAL) are given by a table
    [decimal] from code points to digit values, since the Unicode version
    of the interpreter decides which characters they are. *)
Module Unicode.

Definition text : Type := list Z.

Definition of_string (s : string) : text := map code (list_ascii_of_string s).

(** Py_UNICODE_ISSPACE *)
Definition isspace (c : Z) : bool :=
  ((9 <=? c) && (c <=? 13)) || ((28 <=? c) && (c <=? 32))
  || (c =? 133) || (c =? 160) || (c =? 5760)
  || ((8192 <=? c) && (c <=? 8202)) || (c =? 8232) || (c =? 8233)
  || (c =? 8239) || (c =? 8287) || (c =? 12288).

(** What every decimal-digit table satisfies: the values are 0..9, below
    U+0080 the digits are "0".."9", and no digit is white space. *)
Definition wf_decimal (decimal : Z -> option Z) : Prop :=
  (forall c v, decimal c = Some v -> 0 <= v <= 9)
  /\ (forall c, c < 128 ->
        decimal c = if (48 <=? c) && (c <=? 57) then Some (c - 48) else None)
  /\ (forall c, isspace c = true -> decimal c = None).

Fixpoint lstrip (s : text) : text :=
  match s with
  | [] => []
  | c :: s' => if isspace c then lstrip s' else s
  end.

Fixpoint rstrip (s : text) : text :=
  match s with
  | [] => []
  | c :: s' =>
      match rstrip s' with
      | [] => if isspace c then [] else [c]
      | r => c :: r
      end
  end.

(** [s.strip()] *)
Definition strip (s : text) : text := rstrip (lstrip s).

(** Py_UNICODE_ISDECIMAL *)
Definition isdecimal (decimal : Z -> option Z) (c : Z) : bool :=
  match decimal c with Some _ => true | None => false end.

(** [re.fullmatch(r"\d{2}:\d{2}", s)] *)
Definition fullmatch_time (decimal : Z -> option Z) (s : text) : bool :=
  match s with
  | [a; b; k; c; d] =>
      isdecimal decimal a && isdecimal decimal b && (k =? 58)
      && isdecimal decimal c && isdecimal decimal d
  | _ => false
  end.

(** [s.split(":")] *)
Fixpoint split (sep : Z) (s : text) : list text :=
  match s with
  | [] => [[]]
  | c :: s' =>
      if c =? sep then [] :: split sep s'
      else match split sep s' with
           | h :: t => (c :: h) :: t
           | [] => [[c]]
           end
  end.

Definition chr (c : Z) : ascii := ascii_of_N (Z.to_N c).

(** _PyUnicode_TransformDecimalAndSpaceToASCII, the first step of
    [int(s)]: characters below U+007F are kept, other white space becomes
    a space, other decimal digits become "0".."9", and the text is cut
    after the first character that is none of these, replaced by "?". *)
Fixpoint to_ascii (decimal : Z -> option Z) (s : text) : string :=
  match s with
  | [] => EmptyString
  | c :: s' =>
      if c <? 127 then String (chr c) (to_ascii decimal s')
      else if isspace c then String " " (to_ascii decimal s')
      else match decimal c with
           | Some v => String (chr (48 + v)) (to_ascii decimal s')
           | None => "?"
           end
  end.

(** [int(s)] *)
Definition py_int (decimal : Z -> option Z) (s : text) : result Z :=
  py_int (to_ascii decimal s).

Definition parse_time (decimal : Z -> option Z) (s : text)
  : result (option (Z * Z)) :=
  let s := strip s in
  if fullmatch_time decimal s then
    l ← mapM (py_int decimal) (split 58 s);
    match l with
    | [h; m] =>
        if (0 <=? h) && (h <=? 23) && (0 <=? m) && (m <=? 59)
        then Ok (Some (h, m)) else Ok None
    | _ => Raise ValueError    (* unpacking h, m *)
    end
  else Ok None.

(** The shape [HH:MM] in the digits of [decimal], read as [(h, m)]. *)
Definition time_form (decimal : Z -> option Z) (s : text) (h m : Z) : Prop :=
  exists a b c d va vb vc vd,
    s = [a; b; 58; c; d]
    /\ decimal a = Some va /\ decimal b = Some vb
    /\ decimal c = Some vc /\ decimal d = Some vd
    /\ h = 10 * va + vb /\ m = 10 * vc + vd.

(** A table for the examples: "0".."9" and the Arabic-Indic digits
    U+0660..U+0669. *)
Definition decimal_example (c : Z) : option Z :=
  if (48 <=? c) && (c <=? 57) then Some (c - 48)
  else if (1632 <=? c) && (c <=? 1641) then Some (c - 1632)
  else None.

End Unicode.
(* ===================================================================== *)
(** * Facts about the str primitives                                      *)
(* ===================================================================== *)

Section StripFacts.
Variable sp : ascii -> bool.

Lemma rstrip_by_idem (s : string) :
  rstrip_by sp (rstrip_by sp s) = rstrip_by sp s.
Proof.
  induction s as [|c s IH]; simpl; [reflexivity|].
  destruct (rstrip_by sp s) as [|c' r] eqn:E.
  - destruct (sp c) eqn:Ec; simpl; [reflexivity|]. now rewrite Ec.
  - simpl in *. now rewrite IH.
Qed.

Lemma lstrip_by_head (s : string) :
  match lstrip_by sp s with
  | EmptyString => True
  | String c _ => sp c = false
  end.
Proof.
  induction s as [|c s IH]; simpl; [exact I|].
  destruct (sp c) eqn:Ec; [exact IH | exact Ec].
Qed.

Lemma rstrip_by_keeps_head (c : ascii) (s : string) :
  sp c = false -> exists r, rstrip_by sp (String c s) = String c r.
Proof.
  intros Hc. simpl. destruct (rstrip_by sp s) as [|c' r].
  - rewrite Hc. now exists EmptyString.
  - now exists (String c' r).
Qed.

Lemma lstrip_by_fixed (c : ascii) (s : string) :
  sp c = false -> lstrip_by sp (String c s) = String c s.
Proof. intros Hc. simpl. now rewrite Hc. Qed.
End StripFacts.

Lemma strip_idem (s : string) : strip (strip s) = strip s.
Proof.
  unfold strip.
  pose proof (lstrip_by_head isspace s) as Hh.
  destruct (lstrip_by isspace s) as [|c t] eqn:E; [reflexivity|].
  destruct (rstrip_by_keeps_head isspace c t Hh) as [r Hr].
  rewrite Hr, (lstrip_by_fixed isspace c r Hh), <- Hr.
  apply rstrip_by_idem.
Qed.

Lemma isdigit_inv (c : ascii) : isdigit c = true -> In c digit_chars.
Proof.
  destruct c as [[] [] [] [] [] [] [] []]; vm_compute; intros H;
    try discriminate H; tauto.
Qed.

Lemma isdigit_value (c : ascii) :
  isdigit c = true -> 0 <= digit_value c <= 9.
Proof.
  unfold isdigit, digit_value. intros H.
  apply andb_prop in H as [H1 H2]. lia.
Qed.

(** Splitting a digit into its ten cases. *)
Ltac digit_cases H :=
  apply isdigit_inv in H; unfold digit_chars in H; simpl in H;
  repeat (destruct H as [H|H]; [subst|]); [..|contradiction].

Lemma py_int_two_digits (a b : ascii) :
  isdigit a = true -> isdigit b = true ->
  py_int (String a (String b EmptyString))
  = Ok (10 * digit_value a + digit_value b).
Proof.
  intros Ha Hb. digit_cases Ha; digit_cases Hb; reflexivity.
Qed.

Lemma isdigit_not_colon (c : ascii) : isdigit c = true -> Ascii.eqb c ":" = false.
Proof. intros H. digit_cases H; reflexivity. Qed.

Lemma fullmatch_re_time (s : string) :
  fullmatch re_time s = true ->
  exists a b c d,
    s = String a (String b (String ":" (String c (String d EmptyString))))
    /\ isdigit a = true /\ isdigit b = true
    /\ isdigit c = true /\ isdigit d = true.
Proof.
  unfold re_time.
  destruct s as [|a [|b [|k [|c [|d [|? ?]]]]]];
    cbn [fullmatch atom_matches]; intros H;
    repeat (apply andb_prop in H as [? H]); try discriminate H.
  match goal with Hk : Ascii.eqb _ k = true |- _ =>
    apply Ascii.eqb_eq in Hk; subst k end.
  exists a, b, c, d. tauto.
Qed.

Lemma map_int_split_time (a b c d : ascii) :
  isdigit a = true -> isdigit b = true ->
  isdigit c = true -> isdigit d = true ->
  map_int_split ":"
    (String a (String b (String ":" (String c (String d EmptyString)))))
  = Ok [10 * digit_value a + digit_value b;
        10 * digit_value c + digit_value d].
Proof.
  intros Ha Hb Hc Hd. unfold map_int_split. cbn [split].
  rewrite (isdigit_not_colon a Ha), (isdigit_not_colon b Hb),
    (isdigit_not_colon c Hc), (isdigit_not_colon d Hd).
  rewrite Ascii.eqb_refl. cbn [mapM].
  rewrite (py_int_two_digits a b Ha Hb), (py_int_two_digits c d Hc Hd).
  reflexivity.
Qed.

(* ===================================================================== *)
(** * The time parser                                                     *)
(* ===================================================================== *)

Lemma parse_time_on_form (s : string) (h m : Z) :
  time_form (strip s) h m ->
  parse_time s =
    if (0 <=? h) && (h <=? 23) && (0 <=? m) && (m <=? 59)
    then Ok (Some (h, m)) else Ok None.
Proof.
  intros (a & b & c & d & Hs & Ha & Hb & Hc & Hd & -> & ->).
  unfold parse_time. rewrite Hs.
  assert (fullmatch re_time
            (String a (String b (String ":" (String c (String d EmptyString)))))
          = true) as ->.
  { unfold re_time. cbn [fullmatch atom_matches].
    rewrite Ha, Hb, Hc, Hd, Ascii.eqb_refl. reflexivity. }
  rewrite (map_int_split_time a b c d Ha Hb Hc Hd). reflexivity.
Qed.

Lemma parse_time_off_form (s : string) :
  (forall h m, ~ time_form (strip s) h m) -> parse_time s = Ok None.
Proof.
  intros Hn. unfold parse_time.
  destruct (fullmatch re_time (strip s)) eqn:E; [|reflexivity].
  apply fullmatch_re_time in E as (a & b & c & d & Hs & Ha & Hb & Hc & Hd).
  exfalso. eapply Hn. exists a, b, c, d. repeat split; eauto.
Qed.

(** On strings of code points below 256: the parser never raises, and it
    accepts a string exactly when the trimmed string is two digits
    "0".."9", a colon and two digits, with the hours in 0..23 and the
    minutes in 0..59. *)
Lemma parse_time_string_iff (s : string) :
  (forall h m,
     parse_time s = Ok (Some (h, m))
     <-> time_form (strip s) h m /\ 0 <= h <= 23 /\ 0 <= m <= 59)
  /\ (parse_time s = Ok None \/ exists hm, parse_time s = Ok (Some hm)).
Proof.
  unfold parse_time at 2 3.
  destruct (fullmatch re_time (strip s)) eqn:E.
  - pose proof E as (a & b & c & d & Hs & Ha & Hb & Hc & Hd)%fullmatch_re_time.
    set (h0 := 10 * digit_value a + digit_value b).
    set (m0 := 10 * digit_value c + digit_value d).
    assert (time_form (strip s) h0 m0) as Hf
      by (exists a, b, c, d; repeat split; assumption).
    pose proof (parse_time_on_form s h0 m0 Hf) as Hp.
    split.
    + intros h m. rewrite Hp. split.
      * destruct ((0 <=? h0) && (h0 <=? 23) && (0 <=? m0) && (m0 <=? 59)) eqn:R;
          intros [= <- <-].
        repeat (apply andb_prop in R as [R ?]). split; [exact Hf|lia].
      * intros [(a' & b' & c' & d' & Hs' & _ & _ & _ & _ & -> & ->) Hr].
        rewrite Hs in Hs'. injection Hs' as <- <- <- <-.
        fold h0 m0 in Hr |- *.
        replace ((0 <=? h0) && (h0 <=? 23) && (0 <=? m0) && (m0 <=? 59))
          with true; [reflexivity|].
        symmetry. repeat (apply andb_true_intro; split); lia.
    + rewrite Hs, (map_int_split_time a b c d Ha Hb Hc Hd). cbn.
      fold h0 m0.
      destruct ((0 <=? h0) && (h0 <=? 23) && (0 <=? m0) && (m0 <=? 59));
        [right; eexists; reflexivity | left; reflexivity].
  - split; [|left; reflexivity].
    intros h m. split.
    + unfold parse_time. rewrite E. discriminate.
    + intros [(a & b & c & d & Hs & Ha & Hb & Hc & Hd & _) _].
      exfalso. rewrite Hs in E. unfold re_time in E.
      cbn [fullmatch atom_matches] in E.
      rewrite Ha, Hb, Hc, Hd, Ascii.eqb_refl in E. discriminate.
Qed.

Lemma parse_time_rejects_24_60 (s : string) (h m : Z) :
  time_form (strip s) h m -> h = 24 \/ m = 60 -> parse_time s = Ok None.
Proof.
  intros Hf Hr. rewrite (parse_time_on_form s h m Hf).
  destruct Hr as [-> | ->]; cbn.
  - reflexivity.
  - now rewrite !andb_false_r.
Qed.

(* ===================================================================== *)
(** * The time parser on arbitrary text                                   *)
(* ===================================================================== *)

Lemma chr_digit (v : Z) :
  0 <= v <= 9 ->
  isdigit (Unicode.chr (48 + v)) = true
  /\ digit_value (Unicode.chr (48 + v)) = v.
Proof.
  intros H.
  assert (In v [0; 1; 2; 3; 4; 5; 6; 7; 8; 9]) as Hv by (cbn; lia).
  cbn in Hv. repeat (destruct Hv as [<-|Hv]; [split; reflexivity|]).
  contradiction.
Qed.

Lemma to_ascii_digit (decimal : Z -> option Z) (a va : Z) :
  Unicode.wf_decimal decimal -> decimal a = Some va ->
  exists da,
    isdigit da = true /\ digit_value da = va
    /\ forall rest,
         Unicode.to_ascii decimal (a :: rest)
         = String da (Unicode.to_ascii decimal rest).
Proof.
  intros (W1 & W2 & W3) Ha. pose proof (W1 a va Ha) as Hv.
  destruct (chr_digit va Hv) as [D1 D2].
  exists (Unicode.chr (48 + va)). split; [exact D1|]. split; [exact D2|].
  intros rest. cbn [Unicode.to_ascii].
  destruct (Z.ltb_spec a 127) as [Hlt|Hge].
  - rewrite W2 in Ha by lia.
    destruct ((48 <=? a) && (a <=? 57)); [|discriminate].
    injection Ha as <-. now replace (48 + (a - 48)) with a by lia.
  - destruct (Unicode.isspace a) eqn:Hs.
    + rewrite (W3 a Hs) in Ha. discriminate.
    + now rewrite Ha.
Qed.

Lemma unicode_py_int_two (decimal : Z -> option Z) (a b va vb : Z) :
  Unicode.wf_decimal decimal ->
  decimal a = Some va -> decimal b = Some vb ->
  Unicode.py_int decimal [a; b] = Ok (10 * va + vb).
Proof.
  intros W Ha Hb.
  destruct (to_ascii_digit decimal a va W Ha) as (da & A1 & A2 & A3).
  destruct (to_ascii_digit decimal b vb W Hb) as (db & B1 & B2 & B3).
  unfold Unicode.py_int. rewrite A3, B3. cbn [Unicode.to_ascii].
  rewrite (py_int_two_digits da db A1 B1). now rewrite A2, B2.
Qed.

Lemma decimal_not_colon (decimal : Z -> option Z) (a va : Z) :
  Unicode.wf_decimal decimal -> decimal a = Some va -> (a =? 58) = false.
Proof.
  intros (_ & W2 & _) Ha. destruct (Z.eqb_spec a 58) as [->|]; [|reflexivity].
  rewrite W2 in Ha by lia. discriminate.
Qed.

Lemma fullmatch_time_inv (decimal : Z -> option Z) (s : Unicode.text) :
  Unicode.fullmatch_time decimal s = true ->
  exists a b c d va vb vc vd,
    s = [a; b; 58; c; d]
    /\ decimal a = Some va /\ decimal b = Some vb
    /\ decimal c = Some vc /\ decimal d = Some vd.
Proof.
  unfold Unicode.fullmatch_time, Unicode.isdecimal.
  destruct s as [|a [|b [|k [|c [|d [|? ?]]]]]]; cbv beta iota;
    try (intros H; discriminate H).
  destruct (decimal a) as [va|] eqn:Ha; [|discriminate].
  destruct (decimal b) as [vb|] eqn:Hb; [|discriminate].
  destruct (Z.eqb_spec k 58) as [->|]; [|discriminate].
  destruct (decimal c) as [vc|] eqn:Hc; [|discriminate].
  destruct (decimal d) as [vd|] eqn:Hd; [|discriminate].
  intros _. exists a, b, c, d, va, vb, vc, vd. repeat split; assumption.
Qed.

Lemma unicode_parse_time_on_form (decimal : Z -> option Z)
    (s : Unicode.text) (h m : Z) :
  Unicode.wf_decimal decimal ->
  Unicode.time_form decimal (Unicode.strip s) h m ->
  Unicode.parse_time decimal s =
    if (0 <=? h) && (h <=? 23) && (0 <=? m) && (m <=? 59)
    then Ok (Some (h, m)) else Ok None.
Proof.
  intros W (a & b & c & d & va & vb & vc & vd & Hs & Ha & Hb & Hc & Hd & -> & ->).
  unfold Unicode.parse_time. rewrite Hs.
  unfold Unicode.fullmatch_time, Unicode.isdecimal.
  rewrite Ha, Hb, Hc, Hd. cbn [andb Z.eqb Pos.eqb].
  cbn [Unicode.split].
  rewrite (decimal_not_colon decimal a va W Ha),
    (decimal_not_colon decimal b vb W Hb),
    (decimal_not_colon decimal c vc W Hc),
    (decimal_not_colon decimal d vd W Hd).
  cbn [Z.eqb Pos.eqb mapM].
  rewrite (unicode_py_int_two decimal a b va vb W Ha Hb),
    (unicode_py_int_two decimal c d vc vd W Hc Hd).
  reflexivity.
Qed.

Lemma unicode_parse_time_iff (decimal : Z -> option Z) (s : Unicode.text) :
  Unicode.wf_decimal decimal ->
  (forall h m,
     Unicode.parse_time decimal s = Ok (Some (h, m))
     <-> Unicode.time_form decimal (Unicode.strip s) h m
         /\ 0 <= h <= 23 /\ 0 <= m <= 59)
  /\ (Unicode.parse_time decimal s = Ok None
      \/ exists hm, Unicode.parse_time decimal s = Ok (Some hm)).
Proof.
  intros W.
  destruct (Unicode.fullmatch_time decimal (Unicode.strip s)) eqn:E.
  - pose proof (fullmatch_time_inv decimal _ E)
      as (a & b & c & d & va & vb & vc & vd & Hs & Ha & Hb & Hc & Hd).
    set (h0 := 10 * va + vb). set (m0 := 10 * vc + vd).
    assert (Hf : Unicode.time_form decimal (Unicode.strip s) h0 m0)
      by (exists a, b, c, d, va, vb, vc, vd; repeat split; assumption).
    rewrite (unicode_parse_time_on_form decimal s h0 m0 W Hf).
    split.
    + intros h m. split.
      * destruct ((0 <=? h0) && (h0 <=? 23) && (0 <=? m0) && (m0 <=? 59)) eqn:R;
          intros [= <- <-].
        repeat (apply andb_prop in R as [R ?]). split; [exact Hf|lia].
      * intros [(a' & b' & c' & d' & va' & vb' & vc' & vd' & Hs' & Ha' & Hb'
                   & Hc' & Hd' & -> & ->) Hr].
        rewrite Hs in Hs'. injection Hs' as <- <- <- <-.
        rewrite Ha in Ha'. rewrite Hb in Hb'. rewrite Hc in Hc'.
        rewrite Hd in Hd'.
        injection Ha' as <-. injection Hb' as <-.
        injection Hc' as <-. injection Hd' as <-.
        fold h0 m0 in Hr |- *.
        replace ((0 <=? h0) && (h0 <=? 23) && (0 <=? m0) && (m0 <=? 59))
          with true; [reflexivity|].
        symmetry. repeat (apply andb_true_intro; split); lia.
    + destruct ((0 <=? h0) && (h0 <=? 23) && (0 <=? m0) && (m0 <=? 59));
        [right; eexists; reflexivity | left; reflexivity].
  - unfold Unicode.parse_time. rewrite E.
    split; [|left; reflexivity].
    intros h m. split; [discriminate|].
    intros [(a & b & c & d & va & vb & vc & vd & Hs & Ha & Hb & Hc & Hd & _) _].
    exfalso. rewrite Hs in E.
    unfold Unicode.fullmatch_time, Unicode.isdecimal in E.
    rewrite Ha, Hb, Hc, Hd in E. discriminate.
Qed.

(** ** Texts of code points below 256 *)

Lemma code_bound (c : ascii) : 0 <= code c < 256.
Proof.
  unfold code. pose proof (N_ascii_bounded c). lia.
Qed.

Lemma code_inj (a b : ascii) : code a = code b -> a = b.
Proof.
  unfold code. intros H. apply N2Z.inj in H.
  rewrite <- (ascii_N_embedding a), <- (ascii_N_embedding b). now rewrite H.
Qed.

Lemma unicode_isspace_code (c : ascii) : Unicode.isspace (code c) = isspace c.
Proof.
  pose proof (code_bound c) as Hc. unfold Unicode.isspace, isspace.
  cbv zeta.
  replace (code c =? 5760) with false by (symmetry; apply Z.eqb_neq; lia).
  replace (8192 <=? code c) with false by (symmetry; apply Z.leb_gt; lia).
  replace (code c =? 8232) with false by (symmetry; apply Z.eqb_neq; lia).
  replace (code c =? 8233) with false by (symmetry; apply Z.eqb_neq; lia).
  replace (code c =? 8239) with false by (symmetry; apply Z.eqb_neq; lia).
  replace (code c =? 8287) with false by (symmetry; apply Z.eqb_neq; lia).
  replace (code c =? 12288) with false by (symmetry; apply Z.eqb_neq; lia).
  cbn [andb]. now rewrite !orb_false_r.
Qed.

Lemma of_string_cons (c : ascii) (s : string) :
  Unicode.of_string (String c s) = code c :: Unicode.of_string s.
Proof. reflexivity. Qed.

Lemma of_string_inj (s t : string) :
  Unicode.of_string s = Unicode.of_string t -> s = t.
Proof.
  revert t. induction s as [|a s IH]; intros [|b t]; try discriminate.
  - reflexivity.
  - rewrite !of_string_cons. intros [= H1 H2].
    now rewrite (code_inj a b H1), (IH t H2).
Qed.

Lemma unicode_lstrip_of_string (s : string) :
  Unicode.lstrip (Unicode.of_string s)
  = Unicode.of_string (lstrip_by isspace s).
Proof.
  induction s as [|c s IH]; [reflexivity|].
  rewrite of_string_cons. cbn [Unicode.lstrip lstrip_by].
  rewrite unicode_isspace_code. destruct (isspace c); [exact IH|reflexivity].
Qed.

Lemma unicode_rstrip_of_string (s : string) :
  Unicode.rstrip (Unicode.of_string s)
  = Unicode.of_string (rstrip_by isspace s).
Proof.
  induction s as [|c s IH]; [reflexivity|].
  rewrite of_string_cons. cbn [Unicode.rstrip rstrip_by]. rewrite IH.
  destruct (rstrip_by isspace s) as [|c' r].
  - cbn. rewrite unicode_isspace_code. now destruct (isspace c).
  - reflexivity.
Qed.

Lemma unicode_strip_of_string (s : string) :
  Unicode.strip (Unicode.of_string s) = Unicode.of_string (strip s).
Proof.
  unfold Unicode.strip, strip.
  now rewrite unicode_lstrip_of_string, unicode_rstrip_of_string.
Qed.

Lemma decimal_code (decimal : Z -> option Z) (c : ascii) :
  Unicode.wf_decimal decimal ->
  (forall x, 128 <= x < 256 -> decimal x = None) ->
  decimal (code c) = if isdigit c then Some (digit_value c) else None.
Proof.
  intros (_ & W2 & _) HL. pose proof (code_bound c) as Hc.
  unfold isdigit, digit_value. cbv zeta.
  destruct (Z.lt_ge_cases (code c) 128) as [Hlt|Hge].
  - now rewrite W2 by lia.
  - rewrite HL by lia.
    replace (code c <=? 57) with false by (symmetry; apply Z.leb_gt; lia).
    now rewrite andb_false_r.
Qed.

Lemma time_form_of_string (decimal : Z -> option Z) (s : string) (h m : Z) :
  Unicode.wf_decimal decimal ->
  (forall x, 128 <= x < 256 -> decimal x = None) ->
  Unicode.time_form decimal (Unicode.of_string s) h m <-> time_form s h m.
Proof.
  intros W HL. split.
  - intros (a & b & c & d & va & vb & vc & vd & Hs & Ha & Hb & Hc & Hd & -> & ->).
    destruct s as [|a' [|b' [|k' [|c' [|d' [|? ?]]]]]]; try discriminate Hs.
    rewrite !of_string_cons in Hs. injection Hs as <- <- Hk <- <-.
    rewrite (decimal_code decimal _ W HL) in Ha.
    rewrite (decimal_code decimal _ W HL) in Hb.
    rewrite (decimal_code decimal _ W HL) in Hc.
    rewrite (decimal_code decimal _ W HL) in Hd.
    destruct (isdigit a') eqn:Da; [|discriminate].
    destruct (isdigit b') eqn:Db; [|discriminate].
    destruct (isdigit c') eqn:Dc; [|discriminate].
    destruct (isdigit d') eqn:Dd; [|discriminate].
    injection Ha as <-. injection Hb as <-.
    injection Hc as <-. injection Hd as <-.
    assert (k' = ":"%char) as -> by (apply code_inj; exact Hk).
    exists a', b', c', d'. repeat split; assumption.
  - intros (a & b & c & d & -> & Ha & Hb & Hc & Hd & -> & ->).
    exists (code a), (code b), (code c), (code d),
      (digit_value a), (digit_value b), (digit_value c), (digit_value d).
    rewrite !(decimal_code decimal _ W HL), Ha, Hb, Hc, Hd.
    repeat split.
Qed.

(** On a text of code points below 256 the parser on arbitrary text is the
    parser of the model, whatever the digits beyond U+00FF are. *)
Lemma unicode_parse_time_of_string (decimal : Z -> option Z) (s : string) :
  Unicode.wf_decimal decimal ->
  (forall x, 128 <= x < 256 -> decimal x = None) ->
  Unicode.parse_time decimal (Unicode.of_string s) = parse_time s.
Proof.
  intros W HL.
  destruct (unicode_parse_time_iff decimal (Unicode.of_string s) W) as [U1 U2].
  destruct (parse_time_string_iff s) as [L1 L2].
  assert (Hf : forall h m,
             Unicode.time_form decimal
               (Unicode.strip (Unicode.of_string s)) h m
             <-> time_form (strip s) h m).
  { intros h m. rewrite unicode_strip_of_string.
    apply time_form_of_string; assumption. }
  destruct L2 as [L|[[h m] L]].
  - rewrite L. destruct U2 as [U|[[h m] U]]; [exact U|exfalso].
    apply U1 in U as [F R]. apply Hf in F.
    assert (parse_time s = Ok (Some (h, m))) as E by (apply L1; now split).
    rewrite L in E. discriminate.
  - rewrite L. apply U1. apply L1 in L as [F R]. split; [|exact R].
    now apply Hf.
Qed.

Lemma wf_decimal_example : Unicode.wf_decimal Unicode.decimal_example.
Proof.
  unfold Unicode.wf_decimal, Unicode.decimal_example. repeat split.
  - destruct ((48 <=? c) && (c <=? 57)) eqn:E1.
    + apply andb_prop in E1 as [? ?]. injection H as <-. lia.
    + destruct ((1632 <=? c) && (c <=? 1641)) eqn:E2; [|discriminate].
      apply andb_prop in E2 as [? ?]. injection H as <-. lia.
  - destruct ((48 <=? c) && (c <=? 57)) eqn:E1.
    + apply andb_prop in E1 as [? ?]. injection H as <-. lia.
    + destruct ((1632 <=? c) && (c <=? 1641)) eqn:E2; [|discriminate].
      apply andb_prop in E2 as [? ?]. injection H as <-. lia.
  - intros c Hc. destruct ((48 <=? c) && (c <=? 57)); [reflexivity|].
    replace (c <=? 1641) with true by (symmetry; apply Z.leb_le; lia).
    replace (1632 <=? c) with false by (symmetry; apply Z.leb_gt; lia).
    reflexivity.
  - intros c Hs.
    assert (Hc : ~ (48 <= c <= 57) /\ ~ (1632 <= c <= 1641)).
    { unfold Unicode.isspace in Hs.
      repeat match type of Hs with
             | (_ || _) = true => apply orb_prop in Hs as [Hs|Hs]
             end;
        repeat match goal with
               | H : (_ && _) = true |- _ => apply andb_prop in H as [? ?]
               end; lia. }
    destruct (Z.leb_spec 48 c), (Z.leb_spec c 57); cbn [andb]; try lia;
      destruct (Z.leb_spec 1632 c), (Z.leb_spec c 1641); cbn [andb];
      try lia; reflexivity.
Qed.

(** C4 (amended): on every text (a list of code points) and for every
    table of decimal digits, the time parser never raises, and it accepts
    the text exactly when the text, with surrounding white space trimmed,
    is two decimal digits, a colon and two decimal digits [HH:MM] with
    [HH] in 0..23 and [MM] in 0..59, the digits read by their decimal
    value; the value returned is the pair [(HH, MM)].  Hence every text
    with HH = 24 or MM = 60 is rejected. *)
Theorem parse_time_accepts_iff (decimal : Z -> option Z) (s : Unicode.text) :
  Unicode.wf_decimal decimal ->
  (forall h m,
     Unicode.parse_time decimal s = Ok (Some (h, m))
     <-> Unicode.time_form decimal (Unicode.strip s) h m
         /\ 0 <= h <= 23 /\ 0 <= m <= 59)
  /\ (Unicode.parse_time decimal s = Ok None
      \/ exists hm, Unicode.parse_time decimal s = Ok (Some hm)).
Proof. exact (unicode_parse_time_iff decimal s). Qed.

Lemma parse_time_accepts_iff_witness :
  let s := [32; 1633; 1634; 58; 51; 48] in
  Unicode.wf_decimal Unicode.decimal_example
  /\ (forall h m,
        Unicode.parse_time Unicode.decimal_example s = Ok (Some (h, m))
        <-> Unicode.time_form Unicode.decimal_example (Unicode.strip s) h m
            /\ 0 <= h <= 23 /\ 0 <= m <= 59)
  /\ (Unicode.parse_time Unicode.decimal_example s = Ok None
      \/ exists hm,
           Unicode.parse_time Unicode.decimal_example s = Ok (Some hm)).
Proof.
  intros s. split; [exact wf_decimal_example|].
  exact (parse_time_accepts_iff Unicode.decimal_example s wf_decimal_example).
Defined.

(** C4 (as stated): a text with surrounding white space is accepted
    although it is not of the form [HH:MM], and so is a text whose digits
    are decimal digits other than "0".."9" (here U+0661 U+0662 for the
    hours). *)
Lemma parse_time_accepts_padded :
  (parse_time " 07:30" = Ok (Some (7, 30))
   /\ ~ (exists h m, time_form " 07:30" h m))
  /\ (Unicode.parse_time Unicode.decimal_example
        (Unicode.of_string " 07:30") = Ok (Some (7, 30))
      /\ ~ (exists h m, Unicode.time_form Unicode.decimal_example
                          (Unicode.of_string " 07:30") h m))
  /\ Unicode.parse_time Unicode.decimal_example [1633; 1634; 58; 51; 48]
     = Ok (Some (12, 30)).
Proof.
  split; [|split].
  - split; [reflexivity|].
    intros (h & m & a & b & c & d & Hs & _). discriminate Hs.
  - split; [reflexivity|].
    intros (h & m & a & b & c & d & va & vb & vc & vd & Hs & _).
    discriminate Hs.
  - reflexivity.
Qed.

(* ===================================================================== *)
(** * The webhook: reaching the state dispatch                            *)
(* ===================================================================== *)

Lemma webhook_message_dispatch (w : World) (S : gmap Z Session) (chat_id : Z)
    (sess : Session) (raw : string) :
  S !! chat_id = Some sess ->
  strip raw <> EmptyString ->
  is_command (strip raw) = false ->
  webhook w S (message chat_id (Some raw))
  = dispatch w S chat_id sess (strip raw).
Proof.
  intros HS Hne Hc. unfold webhook. cbn [or_empty].
  destruct (String.eqb_spec (strip raw) EmptyString) as [E|_]; [contradiction|].
  unfold is_command in Hc. apply orb_false_elim in Hc as [-> ->].
  now rewrite HS.
Qed.

Lemma head_digit_not_command (s : string) :
  head_digit s = true -> s <> EmptyString /\ is_command s = false.
Proof.
  destruct s as [|c s]; [discriminate|]. cbn [head_digit]. intros H.
  split; [discriminate|].
  digit_cases H; reflexivity.
Qed.

Lemma fullmatch_digit_head (p : list atom) (s : string) :
  fullmatch (Digit :: p) s = true -> head_digit s = true.
Proof.
  destruct s as [|c s]; cbn [fullmatch atom_matches head_digit];
    [discriminate|].
  intros H. now apply andb_prop in H as [H _].
Qed.

Lemma parse_date_strip (s : string) : parse_date (strip s) = parse_date s.
Proof. unfold parse_date. now rewrite strip_idem. Qed.

Lemma parse_time_strip (s : string) : parse_time (strip s) = parse_time s.
Proof. unfold parse_time. now rewrite strip_idem. Qed.

Lemma parse_date_some_head (s : string) (d : Date) :
  parse_date s = Ok (Some d) -> head_digit (strip s) = true.
Proof.
  unfold parse_date.
  destruct (fullmatch re_date_iso (strip s)) eqn:E1.
  - intros _. exact (fullmatch_digit_head _ _ E1).
  - destruct (fullmatch re_date_dmy (strip s)) eqn:E2; [|discriminate].
    intros _. exact (fullmatch_digit_head _ _ E2).
Qed.

Lemma parse_time_some_head (s : string) (hm : Z * Z) :
  parse_time s = Ok (Some hm) -> head_digit (strip s) = true.
Proof.
  unfold parse_time.
  destruct (fullmatch re_time (strip s)) eqn:E; [|discriminate].
  intros _. exact (fullmatch_digit_head _ _ E).
Qed.

(* ===================================================================== *)
(** * Global commands and topic buttons                                   *)
(* ===================================================================== *)

(** C6: in every state, and whether or not a session exists, a message
    whose text is [/start] or [/reset] replaces the session of the chat by
    a fresh one: state [ASK_DATE], every data field [None]. *)
Theorem start_reset_replace_session (w : World) (S : gmap Z Session)
    (chat_id : Z) (raw : string) :
  lower (strip raw) = "/start" \/ lower (strip raw) = "/reset" ->
  let out := webhook w S (message chat_id (Some raw)) in
  sessions out = <[chat_id := new_session]> S
  /\ sessions out !! chat_id = Some new_session
  /\ response out = Ok tt
  /\ state new_session = ASK_DATE
  /\ data new_session = mkData None None None None None None None None.
Proof.
  intros H out.
  assert (sessions out = <[chat_id := new_session]> S /\ response out = Ok tt)
    as [HS HR].
  { subst out. unfold webhook. cbn [or_empty].
    destruct (String.eqb_spec (strip raw) EmptyString) as [E|_].
    { rewrite E in H. destruct H; discriminate. }
    destruct H as [-> | ->]; cbn; split; reflexivity. }
  repeat split; try assumption.
  rewrite HS. apply lookup_insert_eq.
Qed.

Lemma start_reset_replace_session_witness :
  (lower (strip " /Reset ") = "/start" \/ lower (strip " /Reset ") = "/reset")
  /\ sessions (webhook example_world {[ 7 := mkSession ASK_TZ example_data ]}
                (message 7 (Some " /Reset "))) !! 7
     = Some new_session.
Proof.
  assert (H : lower (strip " /Reset ") = "/start"
              \/ lower (strip " /Reset ") = "/reset") by (right; reflexivity).
  split; [exact H|].
  exact (proj1 (proj2 (start_reset_replace_session example_world
                         {[ 7 := mkSession ASK_TZ example_data ]} 7 " /Reset " H))).
Defined.

Lemma step_topic (w : World) (S : gmap Z Session) (id : string)
    (chat_id : Z) (name : string) :
  webhook w S (callback_query id chat_id (Some ("topic:" +:+ name)))
  = done (<[chat_id := mkSession ASK_FREEFORM
                         (set_topic (Some name) (data (get_or_new S chat_id)))]> S)
         [tg_answer_callback id; send chat_id MsgTopicChosen].
Proof.
  unfold webhook. cbn [or_empty].
  change (String.prefix "topic:" ("topic:" +:+ name)) with (String.prefix "" name).
  assert (String.prefix "" name = true) as -> by (destruct name; reflexivity).
  change (split1_snd ":" ("topic:" +:+ name)) with (Ok (A:=string) name).
  cbv beta iota. now rewrite insert_insert_eq.
Qed.

(** C10: a button press whose payload starts with [topic:] is honoured
    whatever the state of the chat is, and also when the chat has no
    session yet: the topic is stored, the state becomes [ASK_FREEFORM],
    and the other data fields stay as they were (all [None] for a fresh
    session). *)
Theorem topic_callback_any_state (w : World) (S : gmap Z Session)
    (id : string) (chat_id : Z) (name : string) :
  let out := webhook w S (callback_query id chat_id (Some ("topic:" +:+ name))) in
  let before := get_or_new S chat_id in
  sessions out
  = <[chat_id := mkSession ASK_FREEFORM (set_topic (Some name) (data before))]> S
  /\ (state <$> sessions out !! chat_id) = Some ASK_FREEFORM
  /\ (topic ∘ data <$> sessions out !! chat_id) = Some (Some name)
  /\ response out = Ok tt
  /\ effects out = [tg_answer_callback id; send chat_id MsgTopicChosen].
Proof.
  intros out before. subst out before. rewrite step_topic.
  cbn [done sessions response effects].
  rewrite lookup_insert_eq. repeat split; reflexivity.
Qed.

(* ===================================================================== *)
(** * The collection steps                                                *)
(* ===================================================================== *)

Lemma contains_count (c : ascii) (s : string) :
  contains c s = true <-> (1 <= count_char c s)%nat.
Proof.
  induction s as [|c' s IH]; cbn [contains count_char].
  - split; [discriminate | lia].
  - destruct (Ascii.eqb c c'); cbn [orb]; [split; [lia | reflexivity]|].
    rewrite IH. reflexivity.
Qed.

Lemma tz_rejected_iff (text : string) :
  tz_rejected text = false
  <-> (1 <= count_char "/" text)%nat /\ count_char " " text = 0%nat.
Proof.
  unfold tz_rejected. rewrite orb_false_iff, negb_false_iff, contains_count.
  assert (contains " " text = false <-> count_char " " text = 0%nat) as ->.
  { pose proof (contains_count " " text) as H.
    destruct (contains " " text); split; intros; try easy.
    - destruct H as [H _]. specialize (H eq_refl). lia.
    - destruct (count_char " " text); [reflexivity|].
      destruct H as [_ H]. discriminate H. lia. }
  reflexivity.
Qed.

Lemma step_date (w : World) (S : gmap Z Session) (chat_id : Z)
    (sess : Session) (raw : string) (d : Date) :
  S !! chat_id = Some sess -> state sess = ASK_DATE ->
  parse_date raw = Ok (Some d) ->
  webhook w S (message chat_id (Some raw))
  = done (<[chat_id := mkSession ASK_TIME
                         (set_date (Some (date_isoformat d)) (data sess))]> S)
         [send chat_id MsgAskTime].
Proof.
  intros HS Hst Hp.
  destruct (head_digit_not_command _ (parse_date_some_head _ _ Hp)) as [Hne Hc].
  rewrite (webhook_message_dispatch w S chat_id sess raw HS Hne Hc).
  unfold dispatch. now rewrite Hst, parse_date_strip, Hp.
Qed.

Lemma step_time (w : World) (S : gmap Z Session) (chat_id : Z)
    (sess : Session) (raw : string) (h m : Z) :
  S !! chat_id = Some sess -> state sess = ASK_TIME ->
  parse_time raw = Ok (Some (h, m)) ->
  webhook w S (message chat_id (Some raw))
  = done (<[chat_id := mkSession ASK_CITY
                         (set_time (Some (zfill 2 h +:+ ":" +:+ zfill 2 m))
                                   (data sess))]> S)
         [send chat_id MsgAskCity].
Proof.
  intros HS Hst Hp.
  destruct (head_digit_not_command _ (parse_time_some_head _ _ Hp)) as [Hne Hc].
  rewrite (webhook_message_dispatch w S chat_id sess raw HS Hne Hc).
  unfold dispatch. now rewrite Hst, parse_time_strip, Hp.
Qed.

Lemma step_city_country (w : World) (S : gmap Z Session) (chat_id : Z)
    (sess : Session) (raw p0 p1 : string) (rest : list string) :
  S !! chat_id = Some sess -> state sess = ASK_CITY ->
  strip raw <> EmptyString -> is_command (strip raw) = false ->
  place_parts (strip raw) = p0 :: p1 :: rest ->
  webhook w S (message chat_id (Some raw))
  = done (<[chat_id := mkSession ASK_TZ
                         (set_country (Some p1) (set_city (Some p0) (data sess)))]> S)
         [send chat_id MsgAskTzAfterCity].
Proof.
  intros HS Hst Hne Hc Hp.
  rewrite (webhook_message_dispatch w S chat_id sess raw HS Hne Hc).
  unfold dispatch. now rewrite Hst, Hp.
Qed.

Lemma step_tz (w : World) (S : gmap Z Session) (chat_id : Z)
    (sess : Session) (raw : string) :
  S !! chat_id = Some sess -> state sess = ASK_TZ ->
  strip raw <> EmptyString -> is_command (strip raw) = false ->
  webhook w S (message chat_id (Some raw))
  = if tz_rejected (strip raw) then done S [send chat_id MsgBadTz]
    else done (<[chat_id := mkSession ASK_TOPIC
                              (set_tz (Some (strip raw)) (data sess))]> S)
              [tg_send_message chat_id MsgChooseTopic true].
Proof.
  intros HS Hst Hne Hc.
  rewrite (webhook_message_dispatch w S chat_id sess raw HS Hne Hc).
  unfold dispatch. now rewrite Hst, strip_idem.
Qed.

(** C2 (amended): in [ASK_TZ] a text (trimmed, not empty, not a global
    command) is accepted exactly when it contains at least one [/] and no
    space character; acceptance stores the trimmed text as the time zone
    and moves the chat to [ASK_TOPIC], rejection leaves the session store
    unchanged. *)
Theorem tz_validator_spec (w : World) (S : gmap Z Session) (chat_id : Z)
    (sess : Session) (raw : string) :
  S !! chat_id = Some sess -> state sess = ASK_TZ ->
  strip raw <> EmptyString -> is_command (strip raw) = false ->
  let text := strip raw in
  let out := webhook w S (message chat_id (Some raw)) in
  ((state <$> sessions out !! chat_id) = Some ASK_TOPIC
   <-> (1 <= count_char "/" text)%nat /\ count_char " " text = 0%nat)
  /\ ((1 <= count_char "/" text)%nat /\ count_char " " text = 0%nat ->
      sessions out
      = <[chat_id := mkSession ASK_TOPIC (set_tz (Some text) (data sess))]> S)
  /\ (~ ((1 <= count_char "/" text)%nat /\ count_char " " text = 0%nat) ->
      sessions out = S).
Proof.
  intros HS Hst Hne Hc text out. subst out text.
  rewrite (step_tz w S chat_id sess raw HS Hst Hne Hc).
  rewrite <- tz_rejected_iff.
  destruct (tz_rejected (strip raw)); cbn [done sessions].
  - rewrite HS. cbn. rewrite Hst.
    repeat split; intros; try discriminate; try reflexivity; try contradiction.
  - rewrite lookup_insert_eq. cbn.
    repeat split; intros; try reflexivity; contradiction.
Qed.

Lemma tz_validator_spec_witness :
  let S : gmap Z Session := {[ 7 := mkSession ASK_TZ example_data ]} in
  let out := webhook example_world S (message 7 (Some " Europe/Berlin ")) in
  (S !! 7 = Some (mkSession ASK_TZ example_data)
   /\ state (mkSession ASK_TZ example_data) = ASK_TZ
   /\ strip " Europe/Berlin " <> EmptyString
   /\ is_command (strip " Europe/Berlin ") = false)
  /\ ((state <$> sessions out !! 7) = Some ASK_TOPIC
      <-> (1 <= count_char "/" (strip " Europe/Berlin "))%nat
          /\ count_char " " (strip " Europe/Berlin ") = 0%nat).
Proof.
  intros S out.
  assert (H1 : S !! 7 = Some (mkSession ASK_TZ example_data)) by reflexivity.
  assert (H2 : state (mkSession ASK_TZ example_data) = ASK_TZ) by reflexivity.
  assert (H3 : strip " Europe/Berlin " <> EmptyString) by discriminate.
  assert (H4 : is_command (strip " Europe/Berlin ") = false) by reflexivity.
  split; [repeat split; assumption|].
  exact (proj1 (tz_validator_spec example_world S 7 _ " Europe/Berlin "
                  H1 H2 H3 H4)).
Defined.

(** C2 (as stated): a text with two [/] is accepted, and so is a text
    with white space inside it (a line break). *)
Lemma tz_accepts_two_slashes_and_newline :
  let S : gmap Z Session := {[ 7 := mkSession ASK_TZ example_data ]} in
  let two := "America/Argentina/Buenos_Aires" in
  let lines := "Europe/Berlin" +:+ newline +:+ "thanks" in
  count_char "/" two = 2%nat
  /\ sessions (webhook example_world S (message 7 (Some two))) !! 7
     = Some (mkSession ASK_TOPIC (set_tz (Some two) example_data))
  /\ existsb isspace (list_ascii_of_string lines) = true
  /\ sessions (webhook example_world S (message 7 (Some lines))) !! 7
     = Some (mkSession ASK_TOPIC (set_tz (Some lines) example_data)).
Proof. repeat split; reflexivity. Qed.

(** C5: from a fresh session in [ASK_DATE], a valid date, a valid time,
    "Berlin, Germany", "Europe/Berlin" and a topic button are five
    updates, each of which changes the state: [ASK_TIME], [ASK_CITY],
    [ASK_TZ] (the city text has two tokens, so the country is stored at
    once and [ASK_COUNTRY] is never entered), [ASK_TOPIC],
    [ASK_FREEFORM]. *)
Theorem collection_reaches_freeform (w : World) (S : gmap Z Session)
    (chat_id : Z) (date_text time_text id name : string) (d : Date)
    (h m : Z) :
  S !! chat_id = Some new_session ->
  parse_date date_text = Ok (Some d) ->
  parse_time time_text = Ok (Some (h, m)) ->
  let updates :=
    [message chat_id (Some date_text); message chat_id (Some time_text);
     message chat_id (Some "Berlin, Germany");
     message chat_id (Some "Europe/Berlin");
     callback_query id chat_id (Some ("topic:" +:+ name))] in
  state_trace w S chat_id updates
  = [Some ASK_TIME; Some ASK_CITY; Some ASK_TZ; Some ASK_TOPIC;
     Some ASK_FREEFORM]
  /\ run w S updates !! chat_id
     = Some (mkSession ASK_FREEFORM
               {| date := Some (date_isoformat d);
                  time := Some (zfill 2 h +:+ ":" +:+ zfill 2 m);
                  city := Some "Berlin"; country := Some "Germany";
                  tz := Some "Europe/Berlin"; lat := None; lon := None;
                  topic := Some name |}).
Proof.
  intros HS Hd Ht updates. subst updates.
  cbn [state_trace run].
  rewrite (step_date w S chat_id _ date_text d HS eq_refl Hd).
  cbn [done sessions].
  set (s1 := mkSession ASK_TIME _). set (S1 := <[chat_id := s1]> S).
  assert (H1 : S1 !! chat_id = Some s1) by apply lookup_insert_eq.
  rewrite (step_time w S1 chat_id _ time_text h m H1 eq_refl Ht).
  cbn [done sessions].
  set (s2 := mkSession ASK_CITY _). set (S2 := <[chat_id := s2]> S1).
  assert (H2 : S2 !! chat_id = Some s2) by apply lookup_insert_eq.
  rewrite (step_city_country w S2 chat_id _ "Berlin, Germany" "Berlin"
             "Germany" [] H2 eq_refl ltac:(discriminate) eq_refl eq_refl).
  cbn [done sessions].
  set (s3 := mkSession ASK_TZ _). set (S3 := <[chat_id := s3]> S2).
  assert (H3 : S3 !! chat_id = Some s3) by apply lookup_insert_eq.
  rewrite (step_tz w S3 chat_id _ "Europe/Berlin" H3 eq_refl
             ltac:(discriminate) eq_refl).
  change (tz_rejected (strip "Europe/Berlin")) with false. cbv iota.
  cbn [done sessions].
  set (s4 := mkSession ASK_TOPIC _). set (S4 := <[chat_id := s4]> S3).
  assert (H4 : S4 !! chat_id = Some s4) by apply lookup_insert_eq.
  rewrite (step_topic w S4 id chat_id name).
  cbn [done sessions]. unfold get_or_new.
  rewrite H1, H2, H3, H4, lookup_insert_eq.
  split; reflexivity.
Qed.

Lemma collection_reaches_freeform_witness :
  let S : gmap Z Session := {[ 7 := new_session ]} in
  (S !! 7 = Some new_session
   /\ parse_date "14.08.1992" = Ok (Some (mkDate 1992 8 14))
   /\ parse_time "07:30" = Ok (Some (7, 30)))
  /\ state_trace example_world S 7
       [message 7 (Some "14.08.1992"); message 7 (Some "07:30");
        message 7 (Some "Berlin, Germany"); message 7 (Some "Europe/Berlin");
        callback_query "cb" 7 (Some ("topic:" +:+ "career"))]
     = [Some ASK_TIME; Some ASK_CITY; Some ASK_TZ; Some ASK_TOPIC;
        Some ASK_FREEFORM].
Proof.
  intros S.
  assert (H1 : S !! 7 = Some new_session) by reflexivity.
  assert (H2 : parse_date "14.08.1992" = Ok (Some (mkDate 1992 8 14)))
    by reflexivity.
  assert (H3 : parse_time "07:30" = Ok (Some (7, 30))) by reflexivity.
  split; [repeat split; assumption|].
  exact (proj1 (collection_reaches_freeform example_world S 7 "14.08.1992"
                  "07:30" "cb" "career" _ 7 30 H1 H2 H3)).
Defined.

(* ===================================================================== *)
(** * The date parser                                                     *)
(* ===================================================================== *)

(** C1: the claim fails on the code.  ["2024-13-40"] has the shape
    [\d{4}-\d{2}-\d{2}], so it is handed to strptime, which raises
    ValueError; parse_date has no handler and the exception reaches the
    caller instead of the "invalid" sentinel [None]. *)
Theorem parse_date_month13_raises :
  parse_date "2024-13-40" = Raise ValueError.
Proof. reflexivity. Qed.

(** The webhook has no handler either: in [ASK_DATE] the update is not
    answered and the session is left as it was. *)
Lemma webhook_bad_date_raises (w : World) (S : gmap Z Session) (chat_id : Z)
    (sess : Session) :
  S !! chat_id = Some sess -> state sess = ASK_DATE ->
  webhook w S (message chat_id (Some "2024-13-40"))
  = mkOutcome S [] (Raise ValueError).
Proof.
  intros HS Hst.
  rewrite (webhook_message_dispatch w S chat_id sess "2024-13-40" HS
             ltac:(discriminate) eq_refl).
  unfold dispatch. now rewrite Hst.
Qed.

Lemma bind_Ok_inv {A B} (m : result A) (f : A -> result B) (b : B) :
  m ≫= f = Ok b -> exists a, m = Ok a /\ f a = Ok b.
Proof. destruct m as [a|e]; [|discriminate]. intros H. now exists a. Qed.

Lemma date_new_valid (y m d : Z) (x : Date) :
  date_new y m d = Ok x ->
  valid_date (year x) (month x) (day x) = true.
Proof.
  unfold date_new. destruct (valid_date y m d) eqn:E; [|discriminate].
  now intros [= <-].
Qed.

Lemma strptime_date_valid (s : string) (fmt : list directive) (x : Date) :
  strptime_date s fmt = Ok x ->
  valid_date (year x) (month x) (day x) = true.
Proof.
  unfold strptime_date.
  destruct (format_match fmt s) as [[fields [|? ?]]|]; try discriminate.
  intros H.
  apply bind_Ok_inv in H as (y & _ & H).
  apply bind_Ok_inv in H as (m & _ & H).
  apply bind_Ok_inv in H as (d & _ & H).
  exact (date_new_valid _ _ _ _ H).
Qed.

(** What the parser does return is a real calendar date. *)
Lemma parse_date_sound (s : string) (x : Date) :
  parse_date s = Ok (Some x) ->
  valid_date (year x) (month x) (day x) = true.
Proof.
  unfold parse_date.
  destruct (fullmatch re_date_iso (strip s)).
  - intros H. apply bind_Ok_inv in H as (d & E & [= <-]).
    exact (strptime_date_valid _ _ _ E).
  - destruct (fullmatch re_date_dmy (strip s)); [|discriminate].
    intros H. apply bind_Ok_inv in H as (d & E & [= <-]).
    exact (strptime_date_valid _ _ _ E).
Qed.

(** The sentinel is returned exactly for the texts of neither shape. *)
Lemma parse_date_invalid_iff (s : string) :
  parse_date s = Ok None
  <-> fullmatch re_date_iso (strip s) = false
      /\ fullmatch re_date_dmy (strip s) = false.
Proof.
  unfold parse_date.
  destruct (fullmatch re_date_iso (strip s)).
  - destruct (strptime_date (strip s) fmt_Ymd); cbn; split;
      (discriminate || intros [? ?]; discriminate).
  - destruct (fullmatch re_date_dmy (strip s)).
    + destruct (strptime_date (strip s) fmt_dmY); cbn; split;
        (discriminate || intros [? ?]; discriminate).
    + split; [now split | reflexivity].
Qed.

(** It raises only on a text of one of the two shapes. *)
Lemma parse_date_raises_shape (s : string) (e : exn) :
  parse_date s = Raise e ->
  fullmatch re_date_iso (strip s) = true
  \/ fullmatch re_date_dmy (strip s) = true.
Proof.
  unfold parse_date.
  destruct (fullmatch re_date_iso (strip s)); [now left|].
  destruct (fullmatch re_date_dmy (strip s)); [now right | discriminate].
Qed.

(* ===================================================================== *)
(** * The free-form round                                                 *)
(* ===================================================================== *)

Lemma webhook_message_cases (w : World) (S : gmap Z Session) (chat_id : Z)
    (sess : Session) (raw : string) :
  S !! chat_id = Some sess ->
  (exists m, effects (webhook w S (message chat_id (Some raw)))
             = [send chat_id m])
  \/ webhook w S (message chat_id (Some raw))
     = dispatch w S chat_id sess (strip raw).
Proof.
  intros HS. unfold webhook. cbn [or_empty].
  destruct (String.eqb (strip raw) EmptyString); [left; eexists; reflexivity|].
  destruct (str_in (lower (strip raw)) ["/start"; "start"]);
    [left; eexists; reflexivity|].
  destruct (str_in (lower (strip raw)) ["/reset"; "reset"]);
    [left; eexists; reflexivity|].
  rewrite HS. now right.
Qed.

Lemma freeform_round_geocode_miss (w : World) (S : gmap Z Session)
    (chat_id : Z) (sess : Session) (text : string) :
  OPENAI_API_KEY w <> EmptyString ->
  (geocode_city w (city (data sess)) (country (data sess)) = Ok None
   \/ exists e, geocode_city w (city (data sess)) (country (data sess)) = Raise e) ->
  freeform_round w S chat_id sess text
  = done (<[chat_id := mkSession ASK_CITY (data sess)]> S)
         [geocoding (city (data sess)) (country (data sess));
          send chat_id MsgNoCoords].
Proof.
  intros Hk Hg. unfold freeform_round.
  destruct (String.eqb_spec (OPENAI_API_KEY w) EmptyString); [contradiction|].
  destruct Hg as [-> | [e ->]]; reflexivity.
Qed.

(** C7: in [ASK_FREEFORM], when the round runs geocoding and geocoding
    finds nothing or raises, the chat goes back to [ASK_CITY], the whole
    data record (country, date and time with it) is as before, and chart
    computation is not attempted. *)
Theorem geocoding_miss_regresses (w : World) (S : gmap Z Session)
    (chat_id : Z) (sess : Session) (raw : string) :
  S !! chat_id = Some sess -> state sess = ASK_FREEFORM ->
  let d := data sess in
  let out := webhook w S (message chat_id (Some raw)) in
  In (geocoding (city d) (country d)) (effects out) ->
  (geocode_city w (city d) (country d) = Ok None
   \/ exists e, geocode_city w (city d) (country d) = Raise e) ->
  sessions out = <[chat_id := mkSession ASK_CITY d]> S
  /\ sessions out !! chat_id = Some (mkSession ASK_CITY d)
  /\ (forall la lo dt z, ~ In (chart_computation la lo dt z) (effects out))
  /\ response out = Ok tt.
Proof.
  intros HS Hst d out Hin Hg. subst out d.
  destruct (webhook_message_cases w S chat_id sess raw HS) as [[m Hm] | Hw].
  { rewrite Hm in Hin. destruct Hin as [Hin|[]]. discriminate Hin. }
  rewrite Hw in *. unfold dispatch in *. rewrite Hst in *.
  assert (Hk : OPENAI_API_KEY w <> EmptyString).
  { intros Hk. unfold freeform_round in Hin. rewrite Hk in Hin.
    destruct Hin as [Hin|[]]. discriminate Hin. }
  rewrite (freeform_round_geocode_miss w S chat_id sess _ Hk Hg).
  cbn [done sessions effects response]. rewrite lookup_insert_eq.
  repeat split.
  intros la lo dt z [H|[H|[]]]; discriminate H.
Qed.

Lemma geocoding_miss_regresses_witness :
  let d := set_city (Some "Qwxzplonk123") example_data in
  let S : gmap Z Session := {[ 7 := mkSession ASK_FREEFORM d ]} in
  let out := webhook example_world S (message 7 (Some "test")) in
  (S !! 7 = Some (mkSession ASK_FREEFORM d)
   /\ In (geocoding (city d) (country d)) (effects out)
   /\ geocode_city example_world (city d) (country d) = Ok None)
  /\ sessions out !! 7 = Some (mkSession ASK_CITY d).
Proof.
  intros d S out.
  assert (H1 : S !! 7 = Some (mkSession ASK_FREEFORM d)) by reflexivity.
  assert (H2 : In (geocoding (city d) (country d)) (effects out))
    by (left; reflexivity).
  assert (H3 : geocode_city example_world (city d) (country d) = Ok None)
    by reflexivity.
  split; [repeat split; assumption|].
  exact (proj1 (proj2 (geocoding_miss_regresses example_world S 7 _ "test"
                         H1 eq_refl H2 (or_introl H3)))).
Defined.

(** C9: in [ASK_FREEFORM], when the round reaches chart computation and
    computing or rendering the chart raises, the handler returns normally
    after one message, the error notice; nothing is handed to text
    generation; the state is still [ASK_FREEFORM] and the data record
    differs from the one before only in the latitude and longitude just
    stored. *)
Theorem chart_failure_keeps_state (w : World) (S : gmap Z Session)
    (chat_id : Z) (sess : Session) (raw : string)
    (la lo : float) (dt : DateTime) (z : option string) (e : exn) :
  S !! chat_id = Some sess -> state sess = ASK_FREEFORM ->
  let out := webhook w S (message chat_id (Some raw)) in
  In (chart_computation la lo dt z) (effects out) ->
  (chart ← compute_chart w la lo dt z; chart_to_text chart) = Raise e ->
  sessions out
  = <[chat_id := mkSession ASK_FREEFORM
                   (set_lon (Some lo) (set_lat (Some la) (data sess)))]> S
  /\ response out = Ok tt
  /\ filter is_send (effects out) = [send chat_id (MsgChartError e)]
  /\ (forall p t, ~ In (text_generation p t) (effects out)).
Proof.
  intros HS Hst out Hin Hfail. subst out.
  destruct (webhook_message_cases w S chat_id sess raw HS) as [[m Hm] | Hw].
  { rewrite Hm in Hin. destruct Hin as [Hin|[]]. discriminate Hin. }
  rewrite Hw in *. clear Hw. unfold dispatch in *. rewrite Hst in *.
  unfold freeform_round in *.
  destruct (String.eqb (OPENAI_API_KEY w) EmptyString).
  { destruct Hin as [Hin|[]]. discriminate Hin. }
  destruct (match geocode_city w (city (data sess)) (country (data sess)) with
            | Ok c => c | Raise _ => None end) as [[la' lo']|].
  2:{ destruct Hin as [Hin|[Hin|[]]]; discriminate Hin. }
  destruct (dt_local_of _) as [dt'|e'].
  2:{ destruct Hin as [Hin|[]]. discriminate Hin. }
  assert (Heq : chart_computation la lo dt z
                = chart_computation la' lo' dt'
                    (tz (set_lon (Some lo') (set_lat (Some la') (data sess))))).
  { destruct (chart ← compute_chart w la' lo' dt' _; chart_to_text chart)
      as [txt|e''].
    - match type of Hin with context [call_openai ?a ?b ?c] =>
        destruct (call_openai a b c) end;
        cbn [done effects app] in Hin;
        repeat (destruct Hin as [Hin|Hin]; try discriminate Hin;
                try (symmetry; exact Hin)); contradiction.
    - cbn [done effects app] in Hin.
      repeat (destruct Hin as [Hin|Hin]; try discriminate Hin;
              try (symmetry; exact Hin)); contradiction. }
  cbn [tz set_lon set_lat] in *.
  injection Heq as <- <- <- <-. rewrite Hfail.
  cbn [done sessions response effects app filter is_send send].
  rewrite Hst. repeat split.
  intros p t H. repeat (destruct H as [H|H]; try discriminate H). contradiction.
Qed.

Lemma chart_failure_keeps_state_witness :
  let d := set_tz (Some "Mars/Phobos") example_data in
  let S : gmap Z Session := {[ 7 := mkSession ASK_FREEFORM d ]} in
  let out := webhook example_world S (message 7 (Some "test")) in
  let dt := mkDateTime (mkDate 1990 1 1) 12 0 0 in
  let e := ExternalError "ZoneInfoNotFoundError" in
  (S !! 7 = Some (mkSession ASK_FREEFORM d)
   /\ In (chart_computation 51.5 (-0.125) dt (Some "Mars/Phobos")) (effects out)
   /\ (chart ← compute_chart example_world 51.5 (-0.125) dt (Some "Mars/Phobos");
       chart_to_text chart) = Raise e)
  /\ filter is_send (effects out) = [send 7 (MsgChartError e)].
Proof.
  intros d S out dt e.
  assert (H1 : S !! 7 = Some (mkSession ASK_FREEFORM d)) by reflexivity.
  assert (H2 : In (chart_computation 51.5 (-0.125) dt (Some "Mars/Phobos"))
                  (effects out)) by (right; left; reflexivity).
  assert (H3 : (chart ← compute_chart example_world 51.5 (-0.125) dt
                          (Some "Mars/Phobos");
                chart_to_text chart) = Raise e) by reflexivity.
  split; [repeat split; assumption|].
  exact (proj1 (proj2 (proj2 (chart_failure_keeps_state example_world S 7 _
                                "test" _ _ _ _ _ H1 eq_refl H2 H3)))).
Defined.

(* ===================================================================== *)
(** * Rendering the chart                                                 *)
(* ===================================================================== *)




Lemma bind_Ok {A B} (a : A) (f : A -> result B) : Ok a ≫= f = f a.
Proof. reflexivity. Qed.









Lemma calc_positions_keys (w : World) (jd : float)
    (items : list (string * Body)) (acc m : gmap string float) (k : string) :
  calc_positions w jd items acc = Ok m ->
  In k (map fst items) \/ is_Some (acc !! k) -> is_Some (m !! k).
Proof.
  revert acc. induction items as [|[name pid] items IH]; intros acc Hc Hk.
  - injection Hc as <-. destruct Hk as [[]|Hk]. exact Hk.
  - cbn [calc_positions] in Hc.
    apply bind_Ok_inv in Hc as (l & _ & Hc).
    apply (IH _ Hc). destruct Hk as [[<-|Hk]|Hk].
    + right. rewrite lookup_insert_eq. eauto.
    + now left.
    + right. destruct (decide (name = k)) as [->|Hne].
      * rewrite lookup_insert_eq. eauto.
      * now rewrite lookup_insert_ne.
Qed.

(** A chart that compute_chart returns holds all ten bodies. *)
Lemma compute_chart_positions (w : World) (la lo : float) (dt : DateTime)
    (z : option string) (chart : Chart) (k : string) :
  compute_chart w la lo dt z = Ok chart ->
  In k bodies -> is_Some (positions chart !! k).
Proof.
  unfold compute_chart. intros H Hk.
  apply bind_Ok_inv in H as (dt_utc & _ & H).
  apply bind_Ok_inv in H as (jd & _ & H).
  apply bind_Ok_inv in H as (pos & Hp & H).
  apply bind_Ok_inv in H as (a & _ & [= <-]).
  cbn [positions]. apply (calc_positions_keys _ _ _ _ _ _ Hp). left. exact Hk.
Qed.

(** The end-to-end scenario: London, 1990-01-01 12:00, topic general. *)
Example end_to_end_london :
  let S : gmap Z Session := {[ 7 := new_session ]} in
  let updates :=
    [message 7 (Some "1990-01-01"); message 7 (Some "12:00");
     message 7 (Some "London, UK"); message 7 (Some "Europe/London");
     callback_query "cb" 7 (Some "topic:general")] in
  let S5 := run example_world S updates in
  let dt := mkDateTime (mkDate 1990 1 1) 12 0 0 in
  (state <$> S5 !! 7) = Some ASK_FREEFORM
  /\ (chart ← compute_chart example_world 51.5 (-0.125) dt (Some "Europe/London");
      Ok (utc chart))
     = Ok "1990-01-01T12:00:00+00:00"
  /\ (state <$> sessions (webhook example_world S5 (message 7 (Some "test"))) !! 7)
     = Some ASK_TOPIC.
Proof. vm_compute. repeat split; reflexivity. Qed.

(* ===================================================================== *)
(** * Sign placement                                                      *)
(* ===================================================================== *)

Lemma map_ext_pointwise {A B} (f g : A -> B) (l : list A) :
  map f l = map g l -> forall x, In x l -> f x = g x.
Proof.
  induction l as [|a l IH]; cbn [map In]; [contradiction|].
  intros [= Ha Hl] x [<-|Hx]; [exact Ha | exact (IH Hl x Hx)].
Qed.

Lemma In_Z_range (lo len n : Z) :
  lo <= n < lo + len -> In n (Z_range lo len).
Proof.
  intros Hn. apply in_map_iff. exists (Z.to_nat (n - lo)). split; [lia|].
  apply in_seq. lia.
Qed.

Lemma list_get_signs_total (i : Z) :
  0 <= i < 12 -> exists s, list_get signs i = Ok s /\ In s signs.
Proof.
  intros Hi.
  assert (In i (Z_range 0 12)) as H by (apply In_Z_range; lia).
  cbv in H.
  repeat (destruct H as [<-|H]; [eexists; split; [reflexivity|cbn; tauto]|]).
  contradiction.
Qed.

Lemma float_rem_30_total (deg : float) :
  exists w, float_rem deg 30%float = Ok w.
Proof. unfold float_rem. cbn. eauto. Qed.

Lemma float_floor_div_30_total (deg : float) :
  exists q, float_floor_div deg 30%float = Ok q.
Proof. unfold float_floor_div. cbn. eauto. Qed.

Lemma float_to_int_raises (q : float) (e : exn) :
  float_to_int q = Raise e ->
  Prim2SF q = S754_nan \/ exists b, Prim2SF q = S754_infinity b.
Proof.
  unfold float_to_int. destruct (Prim2SF q) as [| b | |]; try discriminate.
  - intros _. right. now exists b.
  - intros _. now left.
Qed.

(** deg_to_sign returns unless the conversion [int(deg // 30)] raises,
    which it does for a quotient that is NaN or infinite only. *)
Lemma deg_to_sign_total (deg : float) :
  (exists s within,
     deg_to_sign deg = Ok (s, within) /\ In s signs
     /\ float_rem deg 30%float = Ok within)
  \/ (exists q e,
        float_floor_div deg 30%float = Ok q /\ float_to_int q = Raise e
        /\ deg_to_sign deg = Raise e
        /\ (Prim2SF q = S754_nan \/ exists b, Prim2SF q = S754_infinity b)).
Proof.
  destruct (float_floor_div_30_total deg) as [q Hq].
  destruct (float_rem_30_total deg) as [w Hw].
  unfold deg_to_sign. rewrite Hq, bind_Ok.
  destruct (float_to_int q) as [n|e] eqn:Hn.
  - left. rewrite bind_Ok, Hw, bind_Ok.
    destruct (list_get_signs_total (n mod 12)) as (s & Hs & Hin).
    { apply Z.mod_pos_bound. lia. }
    exists s, w. rewrite Hs, bind_Ok. repeat split; assumption.
  - right. exists q, e. split; [reflexivity|]. split; [exact Hn|].
    split; [reflexivity|]. exact (float_to_int_raises q e Hn).
Qed.

Lemma whole_degrees_computed :
  map (fun n => deg_to_sign (float_of_int n)) (Z_range (-720) 1441)
  = map whole_degree_placement (Z_range (-720) 1441).
Proof. vm_compute. reflexivity. Qed.

Lemma whole_degrees_shifted :
  map (fun n => deg_to_sign (float_of_int n + 360)%float) (Z_range (-720) 1441)
  = map (fun n => deg_to_sign (float_of_int n)) (Z_range (-720) 1441).
Proof. vm_compute. reflexivity. Qed.

Lemma whole_within_sign :
  map (fun r => within_sign (float_of_int r)) (Z_range 0 30)
  = map (fun _ => true) (Z_range 0 30).
Proof. vm_compute. reflexivity. Qed.

(* ===================================================================== *)
(** * Binary64: exact operations                                          *)
(* ===================================================================== *)

Lemma digits2_pos_bounds (p : positive) :
  2 ^ (Z.pos (digits2_pos p) - 1) <= Z.pos p < 2 ^ Z.pos (digits2_pos p).
Proof.
  induction p as [p IH|p IH|]; cbn [digits2_pos].
  - rewrite Pos2Z.inj_succ.
    replace (Z.succ (Z.pos (digits2_pos p)) - 1)
      with (Z.succ (Z.pos (digits2_pos p) - 1)) by lia.
    rewrite !Z.pow_succ_r by lia. change (Z.pos p~1) with (2 * Z.pos p + 1).
    revert IH. generalize (2 ^ (Z.pos (digits2_pos p) - 1))
      (2 ^ Z.pos (digits2_pos p)) (Z.pos p). lia.
  - rewrite Pos2Z.inj_succ.
    replace (Z.succ (Z.pos (digits2_pos p)) - 1)
      with (Z.succ (Z.pos (digits2_pos p) - 1)) by lia.
    rewrite !Z.pow_succ_r by lia. change (Z.pos p~0) with (2 * Z.pos p).
    revert IH. generalize (2 ^ (Z.pos (digits2_pos p) - 1))
      (2 ^ Z.pos (digits2_pos p)) (Z.pos p). lia.
  - cbn. lia.
Qed.

Lemma digits2_pos_unique (p : positive) (k : Z) :
  2 ^ (k - 1) <= Z.pos p < 2 ^ k -> Z.pos (digits2_pos p) = k.
Proof.
  intros [Hl Hu]. pose proof (digits2_pos_bounds p) as [Dl Du].
  set (d := Z.pos (digits2_pos p)) in *.
  assert (0 < d) by (subst d; lia). clearbody d.
  destruct (Z.lt_trichotomy d k) as [Hlt|[Heq|Hgt]]; [|exact Heq|].
  - assert (2 ^ d <= 2 ^ (k - 1)) by (apply Z.pow_le_mono_r; lia). lia.
  - assert (0 < k).
    { destruct (Z.le_gt_cases k 0) as [Hk|Hk]; [|exact Hk].
      assert (2 ^ k <= 2 ^ 0) by (apply Z.pow_le_mono_r; lia).
      change (2 ^ 0) with 1 in *. lia. }
    assert (2 ^ k <= 2 ^ (d - 1)) by (apply Z.pow_le_mono_r; lia). lia.
Qed.

Lemma digits2_pos_shift (p q : positive) (n : Z) :
  0 <= n -> Z.pos q = Z.pos p * 2 ^ n ->
  Z.pos (digits2_pos q) = Z.pos (digits2_pos p) + n.
Proof.
  intros Hn Hq. apply digits2_pos_unique.
  pose proof (digits2_pos_bounds p) as [Dl Du].
  assert (0 < 2 ^ n) by (apply Z.pow_pos_nonneg; lia).
  set (d := Z.pos (digits2_pos p)) in *.
  assert (0 < d) by (subst d; lia). clearbody d.
  replace (d + n - 1) with ((d - 1) + n) by lia.
  rewrite !Z.pow_add_r by lia. rewrite Hq.
  revert Dl Du H. generalize (2 ^ (d - 1)) (2 ^ d) (2 ^ n) (Z.pos p). nia.
Qed.

Lemma iter_xO (m p : positive) :
  Z.pos (Pos.iter xO m p) = Z.pos m * 2 ^ Z.pos p.
Proof.
  induction p as [|p IH] using Pos.peano_ind.
  - cbn. lia.
  - rewrite Pos.iter_succ, Pos2Z.inj_xO, IH, Pos2Z.inj_succ, Z.pow_succ_r by lia.
    lia.
Qed.

Lemma pos_shift_Z (m p : positive) :
  Z.pos (m * 2 ^ p) = Z.pos m * 2 ^ Z.pos p.
Proof. now rewrite Pos2Z.inj_mul, Pos2Z.inj_pow. Qed.

Lemma pow2_xO (p : positive) : 2 ^ Z.pos p~0 = 2 ^ Z.pos p * 2 ^ Z.pos p.
Proof.
  rewrite (Pos2Z.inj_xO p).
  replace (2 * Z.pos p) with (Z.pos p + Z.pos p) by lia.
  now rewrite Z.pow_add_r by lia.
Qed.

Lemma pow2_xI (p : positive) : 2 ^ Z.pos p~1 = 2 * (2 ^ Z.pos p * 2 ^ Z.pos p).
Proof.
  rewrite (Pos2Z.inj_xI p).
  replace (2 * Z.pos p + 1) with (1 + Z.pos p + Z.pos p) by lia.
  rewrite !Z.pow_add_r by lia. change (2 ^ 1) with 2. ring.
Qed.

Lemma shr_1_exact (p : positive) (m : positive) :
  SpecFloat.iter_pos shr_1 p
    {| shr_m := Z.pos m * 2 ^ Z.pos p; shr_r := false; shr_s := false |}
  = {| shr_m := Z.pos m; shr_r := false; shr_s := false |}.
Proof.
  revert m. induction p as [p IH|p IH|]; intros m; cbn [SpecFloat.iter_pos].
  - replace (Z.pos m * 2 ^ Z.pos p~1)
      with (Z.pos ((m * 2 ^ p * 2 ^ p)~0)%positive).
    2:{ rewrite (Pos2Z.inj_xO (m * 2 ^ p * 2 ^ p)), !pos_shift_Z, pow2_xI.
        ring. }
    cbn [shr_1 orb]. rewrite pos_shift_Z, IH, pos_shift_Z. apply IH.
  - replace (Z.pos m * 2 ^ Z.pos p~0)
      with (Z.pos (m * 2 ^ p) * 2 ^ Z.pos p)
      by (rewrite pos_shift_Z, pow2_xO; ring).
    rewrite IH, pos_shift_Z. apply IH.
  - replace (Z.pos m * 2 ^ 1) with (Z.pos m~0) by lia. reflexivity.
Qed.

Lemma binary_round_aux_exact (m' : positive) (e' n : Z) :
  0 <= n -> bounded prec emax m' e' = true ->
  binary_round_aux prec emax false (Z.pos m' * 2 ^ n) (e' - n) loc_Exact
  = S754_finite false m' e'.
Proof.
  intros Hn Hb. unfold bounded, canonical_mantissa in Hb.
  apply andb_prop in Hb as [Hc He]. apply Z.eqb_eq in Hc.
  assert (Hs : shr_fexp prec emax (Z.pos m' * 2 ^ n) (e' - n) loc_Exact
               = ({| shr_m := Z.pos m'; shr_r := false; shr_s := false |}, e')).
  { unfold shr_fexp. cbn [shr_record_of_loc].
    assert (0 < 2 ^ n) by (apply Z.pow_pos_nonneg; lia).
    destruct (Z.pos m' * 2 ^ n) as [|M|M] eqn:EM; [lia| |lia].
    cbn [Zdigits2]. rewrite (digits2_pos_shift m' M n Hn (eq_sym EM)).
    replace (Z.pos (digits2_pos m') + n + (e' - n))
      with (Z.pos (digits2_pos m') + e') by lia.
    rewrite Hc. replace (e' - (e' - n)) with n by lia.
    unfold shr. destruct n as [|pn|pn]; [| |lia].
    - f_equal; [f_equal; lia|lia].
    - rewrite <- EM, shr_1_exact. f_equal. lia. }
  assert (Hs2 : shr_fexp prec emax (Z.pos m') e' loc_Exact
               = ({| shr_m := Z.pos m'; shr_r := false; shr_s := false |}, e')).
  { unfold shr_fexp. cbn [shr_record_of_loc Zdigits2].
    rewrite Hc, Z.sub_diag. reflexivity. }
  unfold binary_round_aux. rewrite Hs.
  cbn [shr_m loc_of_shr_record round_nearest_even]. rewrite Hs2.
  cbn [shr_m]. now rewrite He.
Qed.

Lemma binary_round_canonical (mx m' : positive) (ex e' : Z) :
  bounded prec emax m' e' = true ->
  Z.pos mx * 2 ^ (ex - Z.min ex e') = Z.pos m' * 2 ^ (e' - Z.min ex e') ->
  binary_round prec emax false mx ex = S754_finite false m' e'.
Proof.
  intros Hb Hv. pose proof Hb as Hb'. unfold bounded, canonical_mantissa in Hb'.
  apply andb_prop in Hb' as [Hc _]. apply Z.eqb_eq in Hc.
  unfold binary_round. destruct (Z.le_gt_cases ex e') as [Hle|Hgt].
  - rewrite Z.min_l, Z.sub_diag, Z.mul_1_r in Hv by lia.
    rewrite (digits2_pos_shift m' mx (e' - ex)) by (lia || exact Hv).
    replace (Z.pos (digits2_pos m') + (e' - ex) + ex)
      with (Z.pos (digits2_pos m') + e') by lia.
    rewrite Hc. unfold shl_align.
    destruct (e' - ex) as [|d|d] eqn:Ed; [| |lia].
    + rewrite Hv. replace ex with (e' - 0) by lia.
      now apply binary_round_aux_exact.
    + rewrite Hv. replace ex with (e' - Z.pos d) by lia.
      now apply binary_round_aux_exact.
  - rewrite Z.min_r, Z.sub_diag, Z.mul_1_r in Hv by lia.
    assert (Hd : Z.pos (digits2_pos m') = Z.pos (digits2_pos mx) + (ex - e'))
      by (apply digits2_pos_shift; [lia|now symmetry]).
    replace (Z.pos (digits2_pos mx) + ex)
      with (Z.pos (digits2_pos m') + e') by lia.
    rewrite Hc. unfold shl_align.
    destruct (e' - ex) as [|d|d] eqn:Ed; [lia|lia|].
    assert (Pos.iter xO mx d = m') as ->.
    { apply Pos2Z.inj. rewrite iter_xO, <- Hv. f_equal. f_equal. lia. }
    replace (Z.pos m') with (Z.pos m' * 2 ^ 0) by lia.
    replace e' with (e' - 0) at 1 by lia.
    now apply binary_round_aux_exact.
Qed.

Lemma bounded_53 (m : positive) (e : Z) :
  Z.pos (digits2_pos m) = 53 -> -1074 <= e <= 971 ->
  bounded prec emax m e = true.
Proof.
  intros Hd He. unfold bounded, canonical_mantissa, fexp, SpecFloat.emin.
  rewrite Hd. change prec with 53. change emax with 1024.
  apply andb_true_intro. split; [apply Z.eqb_eq|apply Z.leb_le]; lia.
Qed.

Lemma bounded_inv (m : positive) (e : Z) :
  bounded prec emax m e = true ->
  -1074 <= e <= 971
  /\ Z.pos m < 2 ^ 53
  /\ (-1074 < e -> Z.pos (digits2_pos m) = 53).
Proof.
  unfold bounded, canonical_mantissa, fexp, SpecFloat.emin.
  change prec with 53. change emax with 1024. intros H.
  apply andb_prop in H as [Hc He]. apply Z.eqb_eq in Hc. apply Z.leb_le in He.
  pose proof (digits2_pos_bounds m) as [_ Du].
  set (d := Z.pos (digits2_pos m)) in *.
  assert (0 < d) by (subst d; lia). clearbody d.
  assert (d <= 53) by lia.
  assert (2 ^ d <= 2 ^ 53) by (apply Z.pow_le_mono_r; lia).
  repeat split; lia.
Qed.

Lemma canonical_pos (r : positive) :
  Z.pos r < 2 ^ 53 ->
  exists r0 : positive,
    Z.pos r0 = Z.pos r * 2 ^ (53 - Z.pos (digits2_pos r))
    /\ Z.pos (digits2_pos r0) = 53
    /\ 0 <= 53 - Z.pos (digits2_pos r) <= 52.
Proof.
  intros Hr. pose proof (digits2_pos_bounds r) as [Dl _].
  assert (Hd : Z.pos (digits2_pos r) <= 53).
  { set (d := Z.pos (digits2_pos r)) in *.
    assert (0 < d) by (subst d; lia). clearbody d.
    destruct (Z.le_gt_cases d 53) as [|Hgt]; [assumption|].
    assert (2 ^ 53 <= 2 ^ (d - 1)) by (apply Z.pow_le_mono_r; lia). lia. }
  set (k := 53 - Z.pos (digits2_pos r)).
  assert (Hk : 0 <= k <= 52) by (subst k; lia).
  assert (Hp : 0 < Z.pos r * 2 ^ k).
  { assert (0 < 2 ^ k) by (apply Z.pow_pos_nonneg; lia). lia. }
  exists (Z.to_pos (Z.pos r * 2 ^ k)).
  assert (E : Z.pos (Z.to_pos (Z.pos r * 2 ^ k)) = Z.pos r * 2 ^ k)
    by (apply Z2Pos.id; exact Hp).
  split; [exact E|]. split; [|exact Hk].
  rewrite (digits2_pos_shift r _ k (proj1 Hk) E). subst k. lia.
Qed.

Lemma to_Z_of_pos (r : positive) :
  Z.pos r < 2 ^ 63 -> Uint63.to_Z (Uint63.of_Z (Z.pos r)) = Z.pos r.
Proof.
  intros Hr. rewrite Uint63.of_Z_spec. apply Z.mod_small.
  change wB with (2 ^ 63). lia.
Qed.

(** The float of a positive integer, given its canonical form. *)
Lemma float_of_int_canonical (n m : positive) (e : Z) :
  Z.pos n < 2 ^ 63 -> bounded prec emax m e = true ->
  Z.pos n * 2 ^ (0 - Z.min 0 e) = Z.pos m * 2 ^ (e - Z.min 0 e) ->
  Prim2SF (float_of_int (Z.pos n)) = S754_finite false m e.
Proof.
  intros Hn Hb Hv. unfold float_of_int. cbn [Z.ltb Z.compare].
  rewrite of_uint63_spec, to_Z_of_pos by exact Hn.
  cbn [binary_normalize]. now apply binary_round_canonical.
Qed.

Lemma Prim2SF_float_of_pos (n : positive) :
  Z.pos n < 2 ^ 53 ->
  exists n0 : positive,
    Z.pos n0 = Z.pos n * 2 ^ (53 - Z.pos (digits2_pos n))
    /\ Z.pos (digits2_pos n0) = 53
    /\ 0 <= 53 - Z.pos (digits2_pos n) <= 52
    /\ Prim2SF (float_of_int (Z.pos n))
       = S754_finite false n0 (- (53 - Z.pos (digits2_pos n))).
Proof.
  intros Hn. destruct (canonical_pos n Hn) as (n0 & H0 & Hd & Hk).
  exists n0. repeat split; try assumption; try lia.
  apply float_of_int_canonical.
  - assert (2 ^ 53 < 2 ^ 63) by (apply Z.pow_lt_mono_r; lia). lia.
  - apply bounded_53; [exact Hd|lia].
  - rewrite Z.min_r by lia.
    replace (0 - - (53 - Z.pos (digits2_pos n)))
      with (53 - Z.pos (digits2_pos n)) by lia.
    rewrite Z.sub_diag, Z.mul_1_r. now symmetry.
Qed.

(** [SF2Prim] on a mantissa that is not normalised. *)
Lemma Prim2SF_SF2Prim_pos (r : positive) (E : Z) :
  Z.pos r < 2 ^ 53 ->
  -1074 <= E - (53 - Z.pos (digits2_pos r)) -> E <= 971 ->
  exists r0 : positive,
    Z.pos r0 = Z.pos r * 2 ^ (53 - Z.pos (digits2_pos r))
    /\ Z.pos (digits2_pos r0) = 53
    /\ 0 <= 53 - Z.pos (digits2_pos r) <= 52
    /\ Prim2SF (SF2Prim (S754_finite false r E))
       = S754_finite false r0 (E - (53 - Z.pos (digits2_pos r))).
Proof.
  intros Hr Hlo Hhi.
  destruct (Prim2SF_float_of_pos r Hr) as (r0 & H0 & Hd & Hk & Hf).
  exists r0. repeat split; try assumption; try lia.
  unfold SF2Prim. rewrite Z_ldexp_spec.
  unfold float_of_int in Hf. cbn [Z.ltb Z.compare] in Hf. rewrite Hf.
  cbn [SFldexp]. apply binary_round_canonical.
  - apply bounded_53; [exact Hd|lia].
  - f_equal. f_equal. lia.
Qed.

Lemma shl_align_value (mx : positive) (ex ex' : Z) :
  ex' <= ex ->
  Z.pos (fst (shl_align mx ex ex')) = Z.pos mx * 2 ^ (ex - ex').
Proof.
  intros H. unfold shl_align. destruct (ex' - ex) as [|d|d] eqn:E; [|lia|].
  - replace (ex - ex') with 0 by lia. cbn [fst]. lia.
  - cbn [fst]. rewrite iter_xO. f_equal. f_equal. lia.
Qed.

(* ===================================================================== *)
(** * Sign placement of a finite longitude                                *)
(* ===================================================================== *)

Lemma Prim2SF_30 : Prim2SF 30%float = S754_finite false 8444249301319680 (-48).
Proof. vm_compute. reflexivity. Qed.

Lemma Prim2SF_0 : Prim2SF 0%float = S754_zero false.
Proof. vm_compute. reflexivity. Qed.

Lemma pos_float_bool (f : float) (m : positive) (e : Z) :
  Prim2SF f = S754_finite false m e ->
  float_bool f = true /\ (f <? 0)%float = false.
Proof.
  intros Hf. unfold float_bool.
  rewrite FloatAxioms.eqb_spec, FloatAxioms.ltb_spec, Hf, Prim2SF_0. split; reflexivity.
Qed.

Lemma float_rem_30_of_mod (x : float) :
  fmod x 30 = zero \/ (exists m e, Prim2SF (fmod x 30) = S754_finite false m e) ->
  float_rem x 30 = Ok (fmod x 30).
Proof.
  intros H. unfold float_rem.
  change (PrimFloat.eqb 30 0) with false. cbv iota.
  change (30 <? 0)%float with false.
  destruct H as [->|(m & e & H)].
  - reflexivity.
  - destruct (pos_float_bool _ m e H) as [-> ->]. reflexivity.
Qed.

Lemma float_floor_div_30_of_mod (x : float) :
  fmod x 30 = zero \/ (exists m e, Prim2SF (fmod x 30) = S754_finite false m e) ->
  float_floor_div x 30
  = Ok (let div := ((x - fmod x 30) / 30)%float in
        if float_bool div then
          let floordiv := floor div in
          if (0.5 <? div - floordiv)%float then (floordiv + 1)%float
          else floordiv
        else copysign_zero (x / 30)%float).
Proof.
  intros H. unfold float_floor_div.
  change (PrimFloat.eqb 30 0) with false. cbv iota.
  change (30 <? 0)%float with false.
  destruct H as [->|(m & e & H)].
  - reflexivity.
  - destruct (pos_float_bool _ m e H) as [-> ->]. reflexivity.
Qed.

Lemma sub_self (x : float) (m : positive) (e : Z) :
  Prim2SF x = S754_finite false m e -> (x - x)%float = zero.
Proof.
  intros Hx. apply Prim2SF_inj. rewrite FloatAxioms.sub_spec, Hx.
  unfold SF64sub, SFsub. cbv zeta. rewrite Z.min_id.
  unfold shl_align. rewrite Z.sub_diag. cbn [fst cond_Zopp].
  rewrite ?Z.sub_diag. reflexivity.
Qed.

Lemma sub_zero (x : float) (m : positive) (e : Z) :
  Prim2SF x = S754_finite false m e -> (x - zero)%float = x.
Proof.
  intros Hx. apply Prim2SF_inj. rewrite FloatAxioms.sub_spec, Hx.
  change (Prim2SF zero) with (S754_zero false). reflexivity.
Qed.

Lemma float_to_int_copysign_zero (y : float) :
  float_to_int (copysign_zero y) = Ok 0.
Proof. unfold copysign_zero. destruct (get_sign y); reflexivity. Qed.

(** A longitude below 16: the remainder is the longitude itself. *)
Lemma fmod_30_small (x : float) (m : positive) (e : Z) :
  Prim2SF x = S754_finite false m e -> bounded prec emax m e = true ->
  e < -48 -> fmod x 30 = x.
Proof.
  intros Hx Hb He. destruct (bounded_inv m e Hb) as (Hr & Hm & _).
  unfold fmod. rewrite Hx, Prim2SF_30. cbv zeta.
  rewrite Z.min_l, Z.sub_diag, Z.mul_1_r by lia.
  rewrite Z.mod_small.
  - rewrite <- Hx. apply SF2Prim_Prim2SF.
  - assert (2 ^ 1 <= 2 ^ (-48 - e)) by (apply Z.pow_le_mono_r; lia).
    change (2 ^ 1) with 2 in *. change (2 ^ 53) with 9007199254740992 in Hm.
    nia.
Qed.

Lemma fmod_30_large (x : float) (m : positive) (e : Z) :
  Prim2SF x = S754_finite false m e -> -48 <= e ->
  fmod x 30
  = match (Z.pos m * 2 ^ (e + 48)) mod 8444249301319680 with
    | Z.pos r => SF2Prim (S754_finite false r (-48))
    | _ => zero
    end.
Proof.
  intros Hx He. unfold fmod. rewrite Hx, Prim2SF_30. cbv zeta.
  rewrite Z.min_r by lia.
  replace (e - -48) with (e + 48) by lia.
  replace (-48 - -48) with 0 by lia. rewrite Z.mul_1_r. reflexivity.
Qed.

Lemma pow2_split (a b : Z) : 0 <= a -> 0 <= b -> 2 ^ (a + b) = 2 ^ a * 2 ^ b.
Proof. intros. now apply Z.pow_add_r. Qed.

Lemma pow2_pos (a : Z) : 0 <= a -> 0 < 2 ^ a.
Proof. intros. now apply Z.pow_pos_nonneg. Qed.

Lemma digits2_pos_ge (n : positive) (k : Z) :
  0 <= k -> 2 ^ k <= Z.pos n -> k < Z.pos (digits2_pos n).
Proof.
  intros Hk Hn. pose proof (digits2_pos_bounds n) as [_ Du].
  set (d := Z.pos (digits2_pos n)) in *.
  assert (0 < d) by (subst d; lia). clearbody d.
  destruct (Z.lt_ge_cases k d) as [|Hge]; [assumption|].
  assert (2 ^ d <= 2 ^ k) by (apply Z.pow_le_mono_r; lia). lia.
Qed.

Lemma sub_fmod_30_large (x : float) (m : positive) (e : Z) :
  Prim2SF x = S754_finite false m e -> bounded prec emax m e = true ->
  -48 <= e <= 0 ->
  let X := Z.pos m * 2 ^ (e + 48) in
  (fmod x 30 = zero /\ X mod 8444249301319680 = 0
   \/ exists r0 e2, Prim2SF (fmod x 30) = S754_finite false r0 e2
        /\ bounded prec emax r0 e2 = true
        /\ Z.pos r0 * 2 ^ (e2 + 1074) = (X mod 8444249301319680) * 2 ^ 1026)
  /\ (x - fmod x 30)%float
     = (if X / 8444249301319680 =? 0 then zero
        else float_of_int (30 * (X / 8444249301319680))).
Proof.
  intros Hx Hb He X.
  destruct (bounded_inv m e Hb) as (_ & Hm & _).
  assert (H48 : 2 ^ 48 = 281474976710656) by reflexivity.
  assert (H53 : 2 ^ 53 = 9007199254740992) by reflexivity.
  assert (Hp : 0 < 2 ^ (e + 48)) by (apply pow2_pos; lia).
  assert (Hpe : 2 ^ (e + 48) * 2 ^ (- e) = 2 ^ 48)
    by (rewrite <- pow2_split by lia; f_equal; lia).
  assert (Hpn : 0 < 2 ^ (- e)) by (apply pow2_pos; lia).
  assert (HX : 0 < X) by (subst X; lia).
  assert (HXu : X * 2 ^ (- e) = Z.pos m * 2 ^ 48)
    by (subst X; rewrite <- Hpe; ring).
  pose proof (Z.div_mod X 8444249301319680 ltac:(lia)) as Hdm.
  pose proof (Z.mod_pos_bound X 8444249301319680 ltac:(lia)) as Hr.
  assert (Hq : 0 <= X / 8444249301319680) by (apply Z.div_pos; lia).
  rewrite (fmod_30_large x m e Hx) by lia. fold X.
  set (q := X / 8444249301319680) in *.
  set (r := X mod 8444249301319680) in *.
  assert (Hq53 : 30 * q < 2 ^ 53).
  { rewrite H53. clearbody q r X. nia. }
  destruct r as [|rp|rp] eqn:Er; [| |lia].
  - split; [left; split; reflexivity|].
    rewrite (sub_zero x m e Hx).
    destruct (Z.eqb_spec q 0) as [Hq0|Hq0]; [lia|].
    apply Prim2SF_inj. rewrite Hx. symmetry.
    destruct (30 * q) as [|n|n] eqn:En; try lia.
    apply float_of_int_canonical; [|exact Hb|].
    + assert (2 ^ 53 < 2 ^ 63) by (apply Z.pow_lt_mono_r; lia). lia.
    + rewrite Z.min_r, Z.sub_diag, Z.mul_1_r by lia.
      replace (0 - e) with (- e) by lia.
      clearbody q X. nia.
  - destruct (Prim2SF_SF2Prim_pos rp (-48)) as (r0 & H0 & Hd0 & Hk & Hmd);
      [lia| |lia|].
    { pose proof (digits2_pos_bounds rp). lia. }
    set (k := 53 - Z.pos (digits2_pos rp)) in *.
    assert (Hpk : 0 < 2 ^ k) by (apply pow2_pos; lia).
    split.
    { right. exists r0, (-48 - k). split; [exact Hmd|].
      split; [apply bounded_53; [exact Hd0|lia]|].
      rewrite H0.
      replace (-48 - k + 1074) with (1026 - k) by lia.
      replace (2 ^ 1026) with (2 ^ k * 2 ^ (1026 - k))
        by (rewrite <- pow2_split by lia; f_equal; lia).
      ring. }
    apply Prim2SF_inj. rewrite FloatAxioms.sub_spec, Hx, Hmd.
    unfold SF64sub, SFsub. cbv zeta. rewrite Z.min_r by lia.
    rewrite !shl_align_value by lia. cbn [cond_Zopp].
    rewrite Z.sub_diag, Z.mul_1_r, H0.
    replace (e - (-48 - k)) with ((e + 48) + k) by lia.
    rewrite pow2_split by lia.
    replace (Z.pos m * (2 ^ (e + 48) * 2 ^ k) - Z.pos rp * 2 ^ k)
      with (8444249301319680 * q * 2 ^ k) by (subst X; clearbody q; nia).
    destruct (Z.eqb_spec q 0) as [Hq0|Hq0].
    { rewrite Hq0. reflexivity. }
    destruct (30 * q) as [|n|n] eqn:En; try lia.
    destruct (Prim2SF_float_of_pos n) as (n0 & Hn0 & Hdn & Ha & Hfn); [lia|].
    rewrite Hfn. set (a := 53 - Z.pos (digits2_pos n)) in *.
    assert (Ha48 : a <= 48).
    { assert (4 < Z.pos (digits2_pos n)); [|subst a; lia].
      apply digits2_pos_ge; [lia|]. change (2 ^ 4) with 16. lia. }
    assert (HD : 0 < 8444249301319680 * q * 2 ^ k) by nia.
    destruct (8444249301319680 * q * 2 ^ k) as [|D|D] eqn:ED; try lia.
    cbn [binary_normalize]. apply binary_round_canonical.
    + apply bounded_53; [exact Hdn|lia].
    + rewrite Z.min_l, Z.sub_diag, Z.mul_1_r by lia.
      rewrite <- ED, Hn0.
      replace (- a - (-48 - k)) with ((48 - a) + k) by lia.
      rewrite pow2_split by lia.
      assert (Hpa : 2 ^ a * 2 ^ (48 - a) = 2 ^ 48)
        by (rewrite <- pow2_split by lia; f_equal; lia).
      rewrite H48 in Hpa.
      replace (Z.pos n * 2 ^ a * (2 ^ (48 - a) * 2 ^ k))
        with (Z.pos n * (2 ^ a * 2 ^ (48 - a)) * 2 ^ k) by ring.
      rewrite Hpa. lia.
Qed.

Lemma div_eucl_div_mod (a b : Z) : Z.div_eucl a b = (a / b, a mod b).
Proof. unfold Z.div, Z.modulo. now destruct (Z.div_eucl a b). Qed.

Lemma digits2_pos_30 (q n : positive) :
  Z.pos n = 30 * Z.pos q ->
  Z.pos (digits2_pos n) <= Z.pos (digits2_pos q) + 5.
Proof.
  intros Hn. pose proof (digits2_pos_bounds q) as [_ Qu].
  pose proof (digits2_pos_bounds n) as [Nl _].
  set (dq := Z.pos (digits2_pos q)) in *.
  set (dn := Z.pos (digits2_pos n)) in *.
  assert (0 < dq) by (subst dq; lia). assert (0 < dn) by (subst dn; lia).
  clearbody dq dn.
  destruct (Z.le_gt_cases dn (dq + 5)) as [|Hgt]; [assumption|].
  assert (2 ^ (dq + 5) <= 2 ^ (dn - 1)) by (apply Z.pow_le_mono_r; lia).
  rewrite pow2_split in * by lia. change (2 ^ 5) with 32 in *. lia.
Qed.

(** The quotient of [30 * q] by 30 is exact. *)
Lemma div_30_exact (q : positive) :
  30 * Z.pos q < 2 ^ 53 ->
  (float_of_int (30 * Z.pos q) / 30)%float = float_of_int (Z.pos q).
Proof.
  intros Hq.
  assert (H53 : 2 ^ 53 = 9007199254740992) by reflexivity.
  destruct (30 * Z.pos q) as [|n|n] eqn:En; try lia.
  destruct (Prim2SF_float_of_pos n) as (n0 & Hn0 & Hdn & Ha & Hfn); [lia|].
  destruct (Prim2SF_float_of_pos q) as (q0 & Hq0 & Hdq & Hb & Hfq); [lia|].
  pose proof (digits2_pos_30 q n (eq_sym En)) as Hdd.
  set (a := 53 - Z.pos (digits2_pos n)) in *.
  set (b := 53 - Z.pos (digits2_pos q)) in *.
  assert (Hab : 0 <= a + 5 - b) by (subst a b; lia).
  assert (Hpa : 0 < 2 ^ a) by (apply pow2_pos; lia).
  apply Prim2SF_inj. rewrite FloatAxioms.div_spec, Hfn, Hfq, Prim2SF_30.
  unfold SF64div, SFdiv, SFdiv_core_binary. cbn [Zdigits2 xorb].
  rewrite Hdn. change (Z.pos (digits2_pos 8444249301319680)) with 53.
  unfold fexp, SpecFloat.emin. change prec with 53. change emax with 1024.
  replace (Z.min (Z.max (53 + - a - (53 + -48) - 53) (3 - 1024 - 53))
             (- a - -48)) with (- 5 - a) by lia.
  replace (- a - -48 - (- 5 - a)) with 53 by lia.
  rewrite Z.shiftl_mul_pow2 by lia. rewrite div_eucl_div_mod.
  assert (HA : Z.pos n0 * 2 ^ 53
               = Z.pos q * 2 ^ (a + 5) * 8444249301319680).
  { rewrite Hn0, <- En, pow2_split by lia. change (2 ^ 5) with 32.
    rewrite H53. ring. }
  rewrite HA, Z.div_mul, Z.mod_mul by lia.
  change (new_location 8444249301319680 0) with loc_Exact.
  replace (Z.pos q * 2 ^ (a + 5)) with (Z.pos q0 * 2 ^ (a + 5 - b)).
  2:{ rewrite Hq0.
      replace (a + 5) with (b + (a + 5 - b)) at 2 by lia.
      rewrite (pow2_split b) by lia. ring. }
  replace (- 5 - a) with (- b - (a + 5 - b)) by lia.
  apply binary_round_aux_exact; [exact Hab|].
  apply bounded_53; [exact Hdq|lia].
Qed.

Lemma shiftr_float_of_pos (q q0 : positive) (b : Z) :
  0 <= b -> Z.pos q0 = Z.pos q * 2 ^ b ->
  (if 0 <=? - b then Z.shiftl (Z.pos q0) (- b) else Z.shiftr (Z.pos q0) (- - b))
  = Z.pos q.
Proof.
  intros Hb H0. destruct (Z.leb_spec 0 (- b)) as [H|H].
  - assert (b = 0) by lia. subst b. cbn [Z.opp]. rewrite Z.shiftl_0_r, H0.
    change (2 ^ 0) with 1. lia.
  - rewrite Z.shiftr_div_pow2, Z.opp_involutive, H0 by lia.
    apply Z.div_mul. assert (0 < 2 ^ b) by (apply pow2_pos; lia). lia.
Qed.

Lemma floor_float_of_pos (q : positive) :
  Z.pos q < 2 ^ 53 ->
  floor (float_of_int (Z.pos q)) = float_of_int (Z.pos q).
Proof.
  intros Hq.
  destruct (Prim2SF_float_of_pos q Hq) as (q0 & Hq0 & Hdq & Hb & Hfq).
  unfold floor. rewrite Hfq.
  pose proof (shiftr_float_of_pos q q0 _ (proj1 Hb) Hq0) as Hs.
  destruct (0 <=? - (53 - Z.pos (digits2_pos q))); [reflexivity|].
  cbv zeta. now rewrite Hs.
Qed.

Lemma float_to_int_float_of_pos (q : positive) :
  Z.pos q < 2 ^ 53 -> float_to_int (float_of_int (Z.pos q)) = Ok (Z.pos q).
Proof.
  intros Hq.
  destruct (Prim2SF_float_of_pos q Hq) as (q0 & Hq0 & Hdq & Hb & Hfq).
  unfold float_to_int. rewrite Hfq. cbv zeta.
  pose proof (shiftr_float_of_pos q q0 _ (proj1 Hb) Hq0) as Hs.
  now rewrite Hs.
Qed.

(** The quotient part of [//] once the difference is [30 * q]. *)
Lemma floor_div_tail_pos (q : positive) (alt : float) :
  30 * Z.pos q < 2 ^ 53 ->
  (let div := (float_of_int (30 * Z.pos q) / 30)%float in
   if float_bool div then
     let floordiv := floor div in
     if (0.5 <? div - floordiv)%float then (floordiv + 1)%float else floordiv
   else alt)
  = float_of_int (Z.pos q).
Proof.
  intros Hq. assert (Hq' : Z.pos q < 2 ^ 53) by lia.
  cbv zeta. rewrite (div_30_exact q Hq), (floor_float_of_pos q Hq').
  destruct (Prim2SF_float_of_pos q Hq') as (q0 & _ & _ & _ & Hfq).
  destruct (pos_float_bool _ _ _ Hfq) as [-> _].
  rewrite (sub_self _ _ _ Hfq). reflexivity.
Qed.

Lemma float_to_int_nonneg (k : Z) :
  0 <= k < 2 ^ 53 ->
  forall f, f = (if k =? 0 then zero else float_of_int k) ->
  float_to_int f = Ok k.
Proof.
  intros Hk f ->. destruct (Z.eqb_spec k 0) as [->|Hk0]; [reflexivity|].
  destruct k as [|q|q]; try lia. now apply float_to_int_float_of_pos.
Qed.

(** [deg // 30] and [deg % 30] of a positive longitude below 2^53, on the
    mantissa and exponent: with [t] the longitude in units of 2^-1074, the
    quotient converts to [t / (30 * 2^1074)] and the remainder is the float
    of [t mod (30 * 2^1074)] units. *)
Lemma floor_div_rem_30_pos (x : float) (m : positive) (e : Z) :
  Prim2SF x = S754_finite false m e -> bounded prec emax m e = true ->
  e <= 0 ->
  let t := Z.pos m * 2 ^ (e + 1074) in
  let T := 30 * 2 ^ 1074 in
  (exists fq, float_floor_div x 30 = Ok fq /\ float_to_int fq = Ok (t / T))
  /\ exists w, float_rem x 30 = Ok w
       /\ (w = zero /\ t mod T = 0
           \/ exists r0 e2, Prim2SF w = S754_finite false r0 e2
                /\ bounded prec emax r0 e2 = true
                /\ Z.pos r0 * 2 ^ (e2 + 1074) = t mod T).
Proof.
  intros Hx Hb He t T.
  destruct (bounded_inv m e Hb) as (Hr & Hm & _).
  assert (H53 : 2 ^ 53 = 9007199254740992) by reflexivity.
  assert (HP : 0 < 2 ^ 1026) by (apply pow2_pos; lia).
  assert (HT : T = 8444249301319680 * 2 ^ 1026).
  { subst T. replace 1074 with (48 + 1026) by lia.
    rewrite pow2_split by lia. change (2 ^ 48) with 281474976710656. ring. }
  destruct (Z.lt_ge_cases e (-48)) as [Hs|Hl].
  - (* below 16 *)
    pose proof (fmod_30_small x m e Hx Hb Hs) as Hmod.
    assert (Ht : 0 < t < T).
    { subst t. rewrite HT.
      assert (0 < 2 ^ (e + 1074)) by (apply pow2_pos; lia).
      assert (2 ^ (e + 1074) <= 2 ^ 1025) by (apply Z.pow_le_mono_r; lia).
      replace 1026 with (1025 + 1) by lia. rewrite (pow2_split 1025 1) by lia.
      change (2 ^ 1) with 2. rewrite H53 in Hm.
      assert (0 < 2 ^ 1025) by (apply pow2_pos; lia).
      revert H H0 H1. generalize (2 ^ (e + 1074)) (2 ^ 1025). intros p1 p2 ? ? ?.
      assert (Z.pos m * p1 <= 9007199254740991 * p1) by nia.
      assert (9007199254740991 * p1 <= 9007199254740991 * p2) by nia.
      nia. }
    assert (Hcond : fmod x 30 = zero
                    \/ exists m e, Prim2SF (fmod x 30) = S754_finite false m e).
    { right. exists m, e. now rewrite Hmod. }
    split.
    + eexists. split; [apply (float_floor_div_30_of_mod x Hcond)|].
      rewrite Hmod, (sub_self x m e Hx). cbv zeta.
      change (zero / 30)%float with zero.
      change (float_bool zero) with false. cbv iota.
      rewrite Z.div_small by lia. apply float_to_int_copysign_zero.
    + exists x. split.
      * rewrite (float_rem_30_of_mod x Hcond). now rewrite Hmod.
      * right. exists m, e. repeat split; try assumption.
        rewrite Z.mod_small by lia. reflexivity.
  - (* from 16 on *)
    pose proof (sub_fmod_30_large x m e Hx Hb (conj Hl He)) as [Hmod Hsub].
    cbv zeta in Hmod, Hsub.
    set (X := Z.pos m * 2 ^ (e + 48)) in *.
    assert (Ht : t = X * 2 ^ 1026).
    { subst t X. replace (e + 1074) with ((e + 48) + 1026) by lia.
      rewrite pow2_split by lia. ring. }
    assert (HX : 0 < X).
    { subst X. assert (0 < 2 ^ (e + 48)) by (apply pow2_pos; lia). lia. }
    assert (Hq : t / T = X / 8444249301319680)
      by (rewrite Ht, HT; apply Z.div_mul_cancel_r; lia).
    assert (Hrm : t mod T = (X mod 8444249301319680) * 2 ^ 1026)
      by (rewrite Ht, HT; apply Z.mul_mod_distr_r; lia).
    assert (Hq0 : 0 <= X / 8444249301319680) by (apply Z.div_pos; lia).
    assert (Hq53 : 30 * (X / 8444249301319680) < 2 ^ 53).
    { pose proof (Z.div_mod X 8444249301319680 ltac:(lia)) as Hdm.
      pose proof (Z.mod_pos_bound X 8444249301319680 ltac:(lia)) as Hrb.
      assert (X <= Z.pos m * 2 ^ 48).
      { subst X. assert (2 ^ (e + 48) <= 2 ^ 48)
          by (apply Z.pow_le_mono_r; lia). nia. }
      change (2 ^ 48) with 281474976710656 in *. rewrite H53. lia. }
    assert (Hcond : fmod x 30 = zero
                    \/ exists m e, Prim2SF (fmod x 30) = S754_finite false m e).
    { destruct Hmod as [[H0 _]|(r0 & e2 & H0 & _)]; [now left|].
      right. now exists r0, e2. }
    split.
    + eexists. split; [apply (float_floor_div_30_of_mod x Hcond)|].
      rewrite Hsub, Hq.
      destruct (X / 8444249301319680) as [|q|q] eqn:Eq; try lia.
      * cbv zeta. cbn [Z.eqb].
        change (zero / 30)%float with zero.
        change (float_bool zero) with false. cbv iota.
        apply float_to_int_copysign_zero.
      * cbn [Z.eqb].
        rewrite (floor_div_tail_pos q _ Hq53).
        apply float_to_int_float_of_pos. lia.
    + exists (fmod x 30). split; [apply (float_rem_30_of_mod x Hcond)|].
      rewrite Hrm.
      destruct Hmod as [[H0 H1]|(r0 & e2 & H0 & H1 & H2)].
      * left. split; [exact H0|]. rewrite H1. reflexivity.
      * right. exists r0, e2. repeat split; assumption.
Qed.

Lemma tick_den_Z : Z.pos tick_den = 2 ^ 1074.
Proof. reflexivity. Qed.

Lemma dyadic_ticks (m : positive) (e : Z) :
  -1074 <= e ->
  (inject_Z (Z.pos m) * 2 ^ e == (Z.pos m * 2 ^ (e + 1074))%Z # tick_den)%Q.
Proof.
  intros He.
  rewrite (Qmake_Qdiv (Z.pos m * 2 ^ (e + 1074)) tick_den).
  rewrite inject_Z_mult, tick_den_Z.
  rewrite !Zpower_Qpower by lia.
  change (inject_Z 2) with 2%Q.
  rewrite Qpower_plus by discriminate.
  field; try (apply Qpower_not_0; discriminate).
Qed.

Lemma nonneg_float_cases (x : float) :
  nonneg_float x ->
  x = zero \/ exists m e, Prim2SF x = S754_finite false m e
                          /\ bounded prec emax m e = true.
Proof.
  intros [->|(m & e & H)]; [now left|]. right. exists m, e. split; [exact H|].
  pose proof (Prim2SF_valid x) as Hv. now rewrite H in Hv.
Qed.

Lemma float_value_ticks (x : float) (v : Q) :
  float_value x = Some v -> (v == ticks x # tick_den)%Q.
Proof.
  unfold float_value, ticks. pose proof (Prim2SF_valid x) as Hv.
  destruct (Prim2SF x) as [s|s| |s m e]; try discriminate.
  - intros [= <-]. reflexivity.
  - destruct (bounded_inv m e Hv) as (He & _).
    cbv zeta. intros [= <-]. destruct s.
    + rewrite (dyadic_ticks m e) by lia. reflexivity.
    + apply dyadic_ticks. lia.
Qed.

Lemma Qticks_le (a b : Z) : (a # tick_den <= b # tick_den)%Q <-> a <= b.
Proof.
  unfold Qle. cbn [Qnum Qden]. split; intros H; [|nia].
  assert (0 < Z.pos tick_den) by lia. nia.
Qed.

Lemma Qticks_lt (a b : Z) : (a # tick_den < b # tick_den)%Q <-> a < b.
Proof.
  unfold Qlt. cbn [Qnum Qden]. split; intros H; [|nia].
  assert (0 < Z.pos tick_den) by lia. nia.
Qed.

Lemma Qticks_int (k : Z) : (inject_Z k == (k * 2 ^ 1074)%Z # tick_den)%Q.
Proof.
  unfold Qeq, inject_Z. cbn [Qnum Qden]. rewrite tick_den_Z. ring.
Qed.

Lemma Qfloor_ticks (t : Z) :
  Qfloor ((t # tick_den) / 30) = t / (30 * 2 ^ 1074).
Proof.
  unfold Qdiv, Qmult, Qinv, Qfloor. cbn [Qnum Qden].
  rewrite Pos2Z.inj_mul, tick_den_Z, Z.mul_1_r. f_equal; try ring.
Qed.

Lemma Qticks_within (t : Z) :
  ((t mod (30 * 2 ^ 1074))%Z # tick_den
   == (t # tick_den) - 30 * inject_Z (t / (30 * 2 ^ 1074)))%Q.
Proof.
  assert (HP : 0 < 2 ^ 1074) by (apply pow2_pos; lia).
  rewrite Z.mod_eq by lia.
  unfold Qeq, Qminus, Qplus, Qopp, Qmult, inject_Z. cbn [Qnum Qden].
  rewrite !Pos2Z.inj_mul, tick_den_Z. ring.
Qed.

(** The floats the placement works on: zero, or positive and below 2^53. *)
Lemma float_value_domain (x : float) (v : Q) :
  float_value x = Some v -> (0 <= v)%Q -> (v < 9007199254740992)%Q ->
  (exists s, Prim2SF x = S754_zero s)
  \/ exists m e, Prim2SF x = S754_finite false m e
                 /\ bounded prec emax m e = true /\ e <= 0.
Proof.
  intros Hv H0 H1. pose proof (float_value_ticks x v Hv) as Ht.
  rewrite Ht in H0, H1. unfold Qle in H0. unfold Qlt in H1.
  cbn [Qnum Qden] in H0, H1. rewrite tick_den_Z in H1.
  unfold ticks in H0, H1. unfold float_value in Hv.
  pose proof (Prim2SF_valid x) as Hb.
  destruct (Prim2SF x) as [s|s| |s m e]; try discriminate.
  - left. now exists s.
  - right. destruct (bounded_inv m e Hb) as (He & Hm & Hd). cbv zeta in *.
    assert (Hp : 0 < 2 ^ (e + 1074)) by (apply pow2_pos; lia).
    destruct s; [nia|].
    exists m, e. split; [reflexivity|]. split; [exact Hb|].
    destruct (Z.le_gt_cases e 0) as [|Hgt]; [assumption|exfalso].
    pose proof (digits2_pos_bounds m) as [Dl _].
    rewrite Hd in Dl by lia. change (2 ^ (53 - 1)) with 4503599627370496 in Dl.
    assert (2 ^ 1075 <= 2 ^ (e + 1074)) by (apply Z.pow_le_mono_r; lia).
    replace 1075 with (1 + 1074) in H by lia.
    rewrite (pow2_split 1 1074) in H by lia. change (2 ^ 1) with 2 in H.
    assert (0 < 2 ^ 1074) by (apply pow2_pos; lia).
    revert H1 H H2 Hp. generalize (2 ^ (e + 1074)) (2 ^ 1074). nia.
Qed.

Lemma deg_to_sign_zero (x : float) (s : bool) :
  Prim2SF x = S754_zero s -> deg_to_sign x = Ok ("Aries", zero).
Proof.
  intros H. rewrite <- (SF2Prim_Prim2SF x), H. destruct s; reflexivity.
Qed.

Lemma ticks_zero (x : float) (s : bool) : Prim2SF x = S754_zero s -> ticks x = 0.
Proof. intros H. unfold ticks. now rewrite H. Qed.

(** Sign placement on the units of 2^-1074: for a longitude that is zero
    or positive and below 2^53, the sign index is the exact quotient by 30
    (mod 12) and within is the float of the exact remainder. *)
Lemma deg_to_sign_ticks (x : float) :
  (exists s, Prim2SF x = S754_zero s)
  \/ (exists m e, Prim2SF x = S754_finite false m e
                  /\ bounded prec emax m e = true /\ e <= 0) ->
  exists s w,
    deg_to_sign x = Ok (s, w)
    /\ list_get signs ((ticks x / (30 * 2 ^ 1074)) mod 12) = Ok s
    /\ nonneg_float w
    /\ ticks w = ticks x mod (30 * 2 ^ 1074).
Proof.
  intros [(s & H)|(m & e & Hx & Hb & He)].
  - exists "Aries", zero. rewrite (deg_to_sign_zero x s H), (ticks_zero x s H).
    repeat split. now left.
  - destruct (floor_div_rem_30_pos x m e Hx Hb He)
      as ((fq & Hq & Hn) & (w & Hw & Hwv)).
    cbv zeta in Hn, Hwv.
    assert (Ht : ticks x = Z.pos m * 2 ^ (e + 1074))
      by (unfold ticks; now rewrite Hx).
    rewrite <- Ht in Hn, Hwv.
    destruct (list_get_signs_total ((ticks x / (30 * 2 ^ 1074)) mod 12))
      as (s & Hs & _).
    { apply Z.mod_pos_bound. lia. }
    exists s, w. unfold deg_to_sign.
    rewrite Hq, bind_Ok, Hn, bind_Ok, Hw, bind_Ok, Hs, bind_Ok.
    split; [reflexivity|]. split; [reflexivity|].
    destruct Hwv as [[-> H0]|(r0 & e2 & H1 & H2 & H3)].
    + split; [now left|]. now rewrite H0.
    + split; [right; now exists r0, e2|].
      unfold ticks at 1. now rewrite H1.
Qed.

Lemma nonneg_ticks_inj (w w' : float) :
  nonneg_float w -> nonneg_float w' -> ticks w = ticks w' -> w = w'.
Proof.
  intros Hw Hw' Ht.
  destruct (nonneg_float_cases w Hw) as [->|(m & e & H & Hb)];
    destruct (nonneg_float_cases w' Hw') as [->|(m' & e' & H' & Hb')].
  - reflexivity.
  - exfalso. unfold ticks in Ht. rewrite H' in Ht.
    change (Prim2SF zero) with (S754_zero false) in Ht. cbv iota zeta in Ht.
    destruct (bounded_inv m' e' Hb') as (He & _).
    assert (0 < 2 ^ (e' + 1074)) by (apply pow2_pos; lia). lia.
  - exfalso. unfold ticks in Ht. rewrite H in Ht.
    change (Prim2SF zero) with (S754_zero false) in Ht. cbv iota zeta in Ht.
    destruct (bounded_inv m e Hb) as (He & _).
    assert (0 < 2 ^ (e + 1074)) by (apply pow2_pos; lia). lia.
  - apply Prim2SF_inj. rewrite H, H'.
    unfold ticks in Ht. rewrite H, H' in Ht. cbv iota zeta in Ht.
    destruct (bounded_inv m e Hb) as (He & _).
    destruct (bounded_inv m' e' Hb') as (He' & _).
    assert (E1 : binary_round prec emax false m e = S754_finite false m e).
    { apply binary_round_canonical; [exact Hb|].
      now rewrite Z.min_id. }
    rewrite <- E1. apply binary_round_canonical; [exact Hb'|].
    set (mn := Z.min e e').
    assert (Hmn : -1074 <= mn /\ mn <= e /\ mn <= e') by (subst mn; lia).
    clearbody mn.
    replace (e + 1074) with ((e - mn) + (mn + 1074)) in Ht by lia.
    replace (e' + 1074) with ((e' - mn) + (mn + 1074)) in Ht by lia.
    rewrite (pow2_split (e - mn) (mn + 1074)) in Ht by lia.
    rewrite (pow2_split (e' - mn) (mn + 1074)) in Ht by lia.
    assert (0 < 2 ^ (mn + 1074)) by (apply pow2_pos; lia).
    apply Z.mul_reg_r with (2 ^ (mn + 1074)); [lia|].
    rewrite <- !Z.mul_assoc. exact Ht.
Qed.

Lemma float_value_nonneg (w : float) :
  nonneg_float w -> exists u, float_value w = Some u.
Proof.
  intros [->|(m & e & H)]; unfold float_value.
  - now exists 0%Q.
  - rewrite H. eexists. reflexivity.
Qed.

(** Sign placement of a longitude of value [0 <= v < 2^53], in exact
    arithmetic: the sign index is [floor(v / 30) mod 12], and within is
    the float whose value is [v - 30 * floor(v / 30)], in [0, 30). *)
Lemma deg_to_sign_exact (deg : float) (v : Q) :
  float_value deg = Some v -> (0 <= v)%Q -> (v < 9007199254740992)%Q ->
  exists s w u,
    deg_to_sign deg = Ok (s, w)
    /\ list_get signs (Qfloor (v / 30) mod 12) = Ok s
    /\ float_value w = Some u
    /\ (u == v - 30 * inject_Z (Qfloor (v / 30)))%Q
    /\ (0 <= u)%Q /\ (u < 30)%Q /\ nonneg_float w.
Proof.
  intros Hv H0 H1.
  destruct (deg_to_sign_ticks deg (float_value_domain deg v Hv H0 H1))
    as (s & w & Hd & Hs & Hw & Ht).
  destruct (float_value_nonneg w Hw) as (u & Hu).
  pose proof (float_value_ticks deg v Hv) as Ev.
  pose proof (float_value_ticks w u Hu) as Eu.
  assert (Eq : Qfloor (v / 30) = ticks deg / (30 * 2 ^ 1074))
    by (rewrite Ev; apply Qfloor_ticks).
  assert (HP : 0 < 2 ^ 1074) by (apply pow2_pos; lia).
  pose proof (Z.mod_pos_bound (ticks deg) (30 * 2 ^ 1074) ltac:(lia)) as Hb.
  exists s, w, u. rewrite Eq. repeat split; try assumption.
  - rewrite Eu, Ht, Ev. apply Qticks_within.
  - rewrite Eu, Ht. unfold Qle. cbn [Qnum Qden]. lia.
  - rewrite Eu, Ht. unfold Qlt. cbn [Qnum Qden]. rewrite tick_den_Z. lia.
Qed.

(** Periodicity where the sum is exact. *)
Lemma deg_to_sign_shift (deg : float) (v v' : Q) :
  float_value deg = Some v -> (0 <= v)%Q ->
  float_value (deg + 360)%float = Some v' -> (v' == v + 360)%Q ->
  (v' < 9007199254740992)%Q ->
  deg_to_sign (deg + 360)%float = deg_to_sign deg.
Proof.
  intros Hv H0 Hv' He H1.
  assert (H0' : (0 <= v')%Q) by (rewrite He; apply Qle_trans with v;
    [exact H0|rewrite <- (Qplus_0_r v) at 1; apply Qplus_le_r; discriminate]).
  assert (H1' : (v < 9007199254740992)%Q).
  { apply Qle_lt_trans with v'; [|exact H1]. rewrite He.
    rewrite <- (Qplus_0_r v) at 1. apply Qplus_le_r. discriminate. }
  destruct (deg_to_sign_ticks deg (float_value_domain deg v Hv H0 H1'))
    as (s & w & Hd & Hs & Hw & Ht).
  destruct (deg_to_sign_ticks _ (float_value_domain _ v' Hv' H0' H1))
    as (s' & w' & Hd' & Hs' & Hw' & Ht').
  pose proof (float_value_ticks deg v Hv) as Ev.
  pose proof (float_value_ticks _ v' Hv') as Ev'.
  assert (HP : 0 < 2 ^ 1074) by (apply pow2_pos; lia).
  assert (Et : ticks (deg + 360)%float
               = ticks deg + 12 * (30 * 2 ^ 1074)).
  { rewrite Ev, Ev' in He. unfold Qeq, Qplus in He. cbn [Qnum Qden] in He.
    rewrite Pos2Z.inj_mul, tick_den_Z in He.
    revert He HP. generalize (2 ^ 1074) (ticks (deg + 360)%float) (ticks deg).
    intros. nia. }
  rewrite Et in Hs', Ht'.
  rewrite Z.div_add in Hs' by lia.
  replace (ticks deg / (30 * 2 ^ 1074) + 12)
    with (ticks deg / (30 * 2 ^ 1074) + 1 * 12) in Hs' by lia.
  rewrite Z.mod_add in Hs' by lia.
  rewrite Z.mod_add in Ht' by lia.
  rewrite Hd, Hd'. f_equal. f_equal.
  - rewrite Hs in Hs'. now injection Hs'.
  - apply nonneg_ticks_inj; try assumption. now rewrite Ht, Ht'.
Qed.









(* ===================================================================== *)
(** * Sign placement: the claim                                           *)
(* ===================================================================== *)

(** C3 (amended): sign placement is computed in binary64 as
    [int(deg // 30) mod 12] and [deg % 30]; it returns a sign of the
    twelve unless the quotient is NaN or infinite.  For every finite
    longitude of exact value [v] with 0 <= v < 2^53 the sign is the one of
    index [floor(v/30) mod 12] and within is exactly
    [v - 30 * floor(v/30)], a float in [0,30).  If moreover the float sum
    [deg + 360] is exact (its value is [v + 360]) and below 2^53, the
    placement of [deg + 360] is the placement of [deg].  All of this holds
    for every whole number of degrees from -720 to 720. *)
Theorem sign_placement_exact :
  (forall deg,
     (exists s within,
        deg_to_sign deg = Ok (s, within) /\ In s signs
        /\ float_rem deg 30%float = Ok within)
     \/ (exists q e,
           float_floor_div deg 30%float = Ok q /\ float_to_int q = Raise e
           /\ deg_to_sign deg = Raise e
           /\ (Prim2SF q = S754_nan \/ exists b, Prim2SF q = S754_infinity b)))
  /\ (forall deg v,
        float_value deg = Some v -> (0 <= v)%Q -> (v < 9007199254740992)%Q ->
        exists s within u,
          deg_to_sign deg = Ok (s, within)
          /\ list_get signs (Qfloor (v / 30) mod 12) = Ok s
          /\ float_value within = Some u
          /\ (u == v - 30 * inject_Z (Qfloor (v / 30)))%Q
          /\ (0 <= u)%Q /\ (u < 30)%Q)
  /\ (forall deg v v',
        float_value deg = Some v -> (0 <= v)%Q ->
        float_value (deg + 360)%float = Some v' -> (v' == v + 360)%Q ->
        (v' < 9007199254740992)%Q ->
        deg_to_sign (deg + 360)%float = deg_to_sign deg)
  /\ (forall n, -720 <= n <= 720 ->
      exists s,
        list_get signs ((n / 30) mod 12) = Ok s
        /\ deg_to_sign (float_of_int n) = Ok (s, float_of_int (n mod 30))
        /\ 0 <= n mod 30 < 30
        /\ within_sign (float_of_int (n mod 30)) = true
        /\ deg_to_sign (float_of_int n + 360)%float
           = deg_to_sign (float_of_int n)).
Proof.
  split; [exact deg_to_sign_total|]. split.
  { intros deg v Hv H0 H1.
    destruct (deg_to_sign_exact deg v Hv H0 H1)
      as (s & w & u & Hd & Hs & Hu & Eu & Hu0 & Hu30 & _).
    exists s, w, u. repeat split; assumption. }
  split; [exact deg_to_sign_shift|].
  intros n Hn.
  assert (Hin : In n (Z_range (-720) 1441)) by (apply In_Z_range; lia).
  assert (Hr : 0 <= n mod 30 < 30) by (apply Z.mod_pos_bound; lia).
  destruct (list_get_signs_total ((n / 30) mod 12)) as (s & Hs & _).
  { apply Z.mod_pos_bound. lia. }
  exists s. split; [exact Hs|]. split.
  { rewrite (map_ext_pointwise _ _ _ whole_degrees_computed n Hin).
    unfold whole_degree_placement. now rewrite Hs. }
  split; [exact Hr|]. split.
  { apply (map_ext_pointwise _ _ _ whole_within_sign (n mod 30)).
    apply In_Z_range. lia. }
  exact (map_ext_pointwise _ _ _ whole_degrees_shifted n Hin).
Qed.

Lemma sign_placement_exact_witness :
  let deg := 95.4375%float in
  let v := (inject_Z 6715817022455808 * 2 ^ (-46))%Q in
  let v' := (inject_Z 8012141231603712 * 2 ^ (-44))%Q in
  (float_value deg = Some v /\ (0 <= v)%Q
   /\ float_value (deg + 360)%float = Some v' /\ (v' == v + 360)%Q
   /\ (v' < 9007199254740992)%Q)
  /\ deg_to_sign (deg + 360)%float = deg_to_sign deg.
Proof.
  intros deg v v'.
  assert (H1 : float_value deg = Some v) by reflexivity.
  assert (H2 : (0 <= v)%Q) by (vm_compute; discriminate).
  assert (H3 : float_value (deg + 360)%float = Some v') by reflexivity.
  assert (H4 : (v' == v + 360)%Q) by (vm_compute; reflexivity).
  assert (H5 : (v' < 9007199254740992)%Q) by (vm_compute; reflexivity).
  split; [repeat split; assumption|].
  exact (proj1 (proj2 (proj2 sign_placement_exact)) deg v v' H1 H2 H3 H4 H5).
Defined.

(** C3 (as stated): the longitude just below 30 is placed in Aries, the
    same longitude plus 360 rounds to 390 and is placed in Taurus; a tiny
    negative longitude gets within = 30; NaN has no placement; and the
    longitude 0x1.1af5afeffd366p+56 (about 8 * 10^16) is placed in Pisces
    with within = 24 although [floor(v/30) mod 12] is 0. *)
Lemma sign_placement_not_periodic :
  deg_to_sign below_30 = Ok ("Aries", below_30)
  /\ deg_to_sign (below_30 + 360)%float = Ok ("Taurus", 0%float)
  /\ deg_to_sign (below_30 + 360)%float <> deg_to_sign below_30
  /\ deg_to_sign (-0x1p-70)%float = Ok ("Pisces", 30%float)
  /\ deg_to_sign nan = Raise ValueError
  /\ (let big := 0x1.1af5afeffd366p+56%float in
      exists v, float_value big = Some v
        /\ deg_to_sign big = Ok ("Pisces", 24%float)
        /\ Qfloor (v / 30) mod 12 = 0).
Proof.
  repeat split; try (vm_compute; reflexivity).
  - vm_compute. discriminate.
  - eexists. repeat split; vm_compute; reflexivity.
Qed.

(* ===================================================================== *)
(** * Rendering: the claim                                                *)
(* ===================================================================== *)




(* ===================================================================== *)
(** * Further properties of the code                                      *)
(* ===================================================================== *)

(* ===================================================================== *)
(** ** strptime on the two shapes                                          *)
(* ===================================================================== *)

Lemma isdigit_not_space (c : ascii) : isdigit c = true -> isspace c = false.
Proof. intros H. digit_cases H; reflexivity. Qed.

Lemma isdigit_not_int_space (c : ascii) :
  isdigit c = true -> int_space c = false.
Proof. intros H. digit_cases H; reflexivity. Qed.

Lemma isdigit_not_underscore (c : ascii) :
  isdigit c = true -> Ascii.eqb c "_" = false.
Proof. intros H. digit_cases H; reflexivity. Qed.

Lemma py_int_four_digits (a b c d : ascii) :
  isdigit a = true -> isdigit b = true -> isdigit c = true ->
  isdigit d = true ->
  py_int (str4 a b c d) = Ok (num4 a b c d).
Proof.
  intros Ha Hb Hc Hd. unfold py_int, str4, num4.
  cbn [lstrip_by]. rewrite (isdigit_not_int_space a Ha).
  cbn [rstrip_by]. rewrite (isdigit_not_int_space d Hd).
  assert (E : int_digits 0 false (String a (String b (String c (String d EmptyString))))
              = Some (1000 * digit_value a + 100 * digit_value b
                      + 10 * digit_value c + digit_value d)).
  { cbn [int_digits]. rewrite Ha, Hb, Hc, Hd. f_equal. lia. }
  digit_cases Ha; rewrite E; reflexivity.
Qed.

Lemma format_match_Y (y1 y2 y3 y4 : ascii) (rest : string)
    (fmt : list directive) :
  isdigit y1 = true -> isdigit y2 = true -> isdigit y3 = true ->
  isdigit y4 = true ->
  format_match (dir_Y :: fmt)
    (String y1 (String y2 (String y3 (String y4 rest))))
  = prepend_fields [(dir_Y, str4 y1 y2 y3 y4)] (format_match fmt rest).
Proof.
  intros H1 H2 H3 H4.
  cbn [format_match directive_alternatives match_prefix atom_matches].
  rewrite H1, H2, H3, H4.
  destruct (format_match fmt rest) as [[fields r]|]; reflexivity.
Qed.

(** Months and days in front of a separator: only the two-digit
    alternatives let the separator match. *)
Ltac two_digit_field H1 H2 fmt rest :=
  digit_cases H1; digit_cases H2;
  cbn [format_match]; set (F := format_match fmt); clearbody F;
  vm_compute; destruct (F rest) as [[? ?]|]; reflexivity.

Lemma format_match_m_dash (m1 m2 : ascii) (rest : string)
    (fmt : list directive) :
  isdigit m1 = true -> isdigit m2 = true ->
  format_match (dir_m :: dir_lit "-" :: fmt)
    (String m1 (String m2 (String "-" rest)))
  = if month_ok m1 m2
    then prepend_fields [(dir_m, str2 m1 m2); (dir_lit "-", "-")]
           (format_match fmt rest)
    else None.
Proof. intros H1 H2. two_digit_field H1 H2 fmt rest. Qed.

Lemma format_match_m_dot (m1 m2 : ascii) (rest : string)
    (fmt : list directive) :
  isdigit m1 = true -> isdigit m2 = true ->
  format_match (dir_m :: dir_lit "." :: fmt)
    (String m1 (String m2 (String "." rest)))
  = if month_ok m1 m2
    then prepend_fields [(dir_m, str2 m1 m2); (dir_lit ".", ".")]
           (format_match fmt rest)
    else None.
Proof. intros H1 H2. two_digit_field H1 H2 fmt rest. Qed.

Lemma format_match_d_dot (d1 d2 : ascii) (rest : string)
    (fmt : list directive) :
  isdigit d1 = true -> isdigit d2 = true ->
  format_match (dir_d :: dir_lit "." :: fmt)
    (String d1 (String d2 (String "." rest)))
  = if day_ok d1 d2
    then prepend_fields [(dir_d, str2 d1 d2); (dir_lit ".", ".")]
           (format_match fmt rest)
    else None.
Proof. intros H1 H2. two_digit_field H1 H2 fmt rest. Qed.

(** A day at the end of the text: a one-digit alternative may match and
    leave the second digit unconverted. *)
Lemma format_match_d_end (d1 d2 : ascii) :
  isdigit d1 = true -> isdigit d2 = true ->
  if day_ok d1 d2
  then format_match [dir_d] (str2 d1 d2) = Some ([(dir_d, str2 d1 d2)], EmptyString)
  else match format_match [dir_d] (str2 d1 d2) with
       | Some (_, String _ _) | None => True
       | Some (_, EmptyString) => False
       end.
Proof.
  intros H1 H2. digit_cases H1; digit_cases H2; vm_compute;
    try reflexivity; exact I.
Qed.

Lemma format_match_lit (c : ascii) (rest : string) (fmt : list directive) :
  format_match (dir_lit c :: fmt) (String c rest)
  = prepend_fields [(dir_lit c, String c EmptyString)] (format_match fmt rest).
Proof.
  cbn [format_match directive_alternatives match_prefix atom_matches].
  rewrite Ascii.eqb_refl.
  destruct (format_match fmt rest) as [[fields r]|]; reflexivity.
Qed.

Lemma days_in_month_le_31 (y m : Z) : days_in_month y m <= 31.
Proof.
  unfold days_in_month.
  destruct (m =? 2); [destruct (is_leap y); lia|].
  destruct ((m =? 4) || (m =? 6) || (m =? 9) || (m =? 11)); lia.
Qed.

Lemma valid_date_fields (y m d : Z) :
  valid_date y m d = true -> 1 <= m <= 12 /\ 1 <= d <= 31.
Proof.
  unfold valid_date. intros H.
  repeat (apply andb_prop in H as [H ?]).
  pose proof (days_in_month_le_31 y m). lia.
Qed.

Lemma date_new_or_ValueError (y m d : Z) (fields_ok : bool) :
  (valid_date y m d = true -> fields_ok = true) ->
  (x ← (if fields_ok then date_new y m d else Raise ValueError); Ok (Some x))
  = date_or_ValueError y m d.
Proof.
  unfold date_or_ValueError, date_new. intros H.
  destruct (valid_date y m d).
  - now rewrite H.
  - now destruct fields_ok.
Qed.

Lemma fields_ok_of_valid (y : Z) (m1 m2 d1 d2 : ascii) :
  valid_date y (num2 m1 m2) (num2 d1 d2) = true ->
  month_ok m1 m2 && day_ok d1 d2 = true.
Proof.
  intros H. apply valid_date_fields in H. unfold month_ok, day_ok.
  repeat (apply andb_true_intro; split); lia.
Qed.

Lemma strptime_date_iso (y1 y2 y3 y4 m1 m2 d1 d2 : ascii) :
  all_digits [y1; y2; y3; y4; m1; m2; d1; d2] ->
  strptime_date (iso_text y1 y2 y3 y4 m1 m2 d1 d2) fmt_Ymd
  = if month_ok m1 m2 && day_ok d1 d2
    then date_new (num4 y1 y2 y3 y4) (num2 m1 m2) (num2 d1 d2)
    else Raise ValueError.
Proof.
  intros H. repeat (apply Forall_cons_1 in H as [? H]).
  unfold strptime_date, fmt_Ymd, iso_text.
  change (str4 y1 y2 y3 y4 +:+ "-" +:+ str2 m1 m2 +:+ "-" +:+ str2 d1 d2)
    with (String y1 (String y2 (String y3 (String y4
            (String "-" (String m1 (String m2 (String "-" (str2 d1 d2))))))))).
  rewrite format_match_Y, format_match_lit, format_match_m_dash by assumption.
  destruct (month_ok m1 m2); [|reflexivity].
  pose proof (format_match_d_end d1 d2 ltac:(assumption) ltac:(assumption)) as Hd.
  destruct (day_ok d1 d2).
  - rewrite Hd. cbn [prepend_fields app field andb].
    rewrite py_int_four_digits by assumption.
    change (py_int (str2 m1 m2)) with (py_int (String m1 (String m2 EmptyString))).
    change (py_int (str2 d1 d2)) with (py_int (String d1 (String d2 EmptyString))).
    rewrite !py_int_two_digits by assumption. reflexivity.
  - destruct (format_match [dir_d] (str2 d1 d2)) as [[f [|c r]]|];
      [contradiction|reflexivity|reflexivity].
Qed.

Lemma strptime_date_dmy (y1 y2 y3 y4 m1 m2 d1 d2 : ascii) :
  all_digits [y1; y2; y3; y4; m1; m2; d1; d2] ->
  strptime_date (dmy_text y1 y2 y3 y4 m1 m2 d1 d2) fmt_dmY
  = if month_ok m1 m2 && day_ok d1 d2
    then date_new (num4 y1 y2 y3 y4) (num2 m1 m2) (num2 d1 d2)
    else Raise ValueError.
Proof.
  intros H. repeat (apply Forall_cons_1 in H as [? H]).
  unfold strptime_date, fmt_dmY, dmy_text.
  change (str2 d1 d2 +:+ "." +:+ str2 m1 m2 +:+ "." +:+ str4 y1 y2 y3 y4)
    with (String d1 (String d2 (String "." (String m1 (String m2 (String "."
            (String y1 (String y2 (String y3 (String y4 EmptyString)))))))))).
  rewrite format_match_d_dot, format_match_m_dot, format_match_Y by assumption.
  rewrite andb_comm.
  destruct (day_ok d1 d2); [|reflexivity].
  destruct (month_ok m1 m2); [|reflexivity].
  cbn [format_match prepend_fields app field andb].
  rewrite py_int_four_digits by assumption.
  change (py_int (str2 m1 m2)) with (py_int (String m1 (String m2 EmptyString))).
  change (py_int (str2 d1 d2)) with (py_int (String d1 (String d2 EmptyString))).
  rewrite !py_int_two_digits by assumption. reflexivity.
Qed.

Lemma fullmatch_iso_text (y1 y2 y3 y4 m1 m2 d1 d2 : ascii) :
  all_digits [y1; y2; y3; y4; m1; m2; d1; d2] ->
  fullmatch re_date_iso (iso_text y1 y2 y3 y4 m1 m2 d1 d2) = true.
Proof.
  intros H. repeat (apply Forall_cons_1 in H as [? H]).
  unfold re_date_iso, iso_text.
  change (str4 y1 y2 y3 y4 +:+ "-" +:+ str2 m1 m2 +:+ "-" +:+ str2 d1 d2)
    with (String y1 (String y2 (String y3 (String y4
            (String "-" (String m1 (String m2 (String "-"
               (String d1 (String d2 EmptyString)))))))))).
  cbn [fullmatch atom_matches].
  repeat match goal with Hc : isdigit _ = true |- _ => rewrite Hc; clear Hc end.
  reflexivity.
Qed.

Lemma fullmatch_dmy_text (y1 y2 y3 y4 m1 m2 d1 d2 : ascii) :
  all_digits [y1; y2; y3; y4; m1; m2; d1; d2] ->
  fullmatch re_date_dmy (dmy_text y1 y2 y3 y4 m1 m2 d1 d2) = true
  /\ fullmatch re_date_iso (dmy_text y1 y2 y3 y4 m1 m2 d1 d2) = false.
Proof.
  intros H. repeat (apply Forall_cons_1 in H as [? H]).
  unfold re_date_dmy, re_date_iso, dmy_text.
  change (str2 d1 d2 +:+ "." +:+ str2 m1 m2 +:+ "." +:+ str4 y1 y2 y3 y4)
    with (String d1 (String d2 (String "." (String m1 (String m2 (String "."
            (String y1 (String y2 (String y3 (String y4 EmptyString)))))))))).
  cbn [fullmatch atom_matches].
  repeat match goal with Hc : isdigit _ = true |- _ => rewrite Hc; clear Hc end.
  split; reflexivity.
Qed.

(** On a text of the shape [YYYY-MM-DD] (surrounding white space apart)
    parse_date returns the date when it is a calendar date of the years
    1..9999 and raises ValueError otherwise: it never answers [None]. *)
Lemma parse_date_iso_shape (s : string) (y1 y2 y3 y4 m1 m2 d1 d2 : ascii) :
  strip s = iso_text y1 y2 y3 y4 m1 m2 d1 d2 ->
  all_digits [y1; y2; y3; y4; m1; m2; d1; d2] ->
  parse_date s
  = date_or_ValueError (num4 y1 y2 y3 y4) (num2 m1 m2) (num2 d1 d2).
Proof.
  intros Hs Hd. unfold parse_date.
  rewrite Hs, (fullmatch_iso_text _ _ _ _ _ _ _ _ Hd),
    (strptime_date_iso _ _ _ _ _ _ _ _ Hd).
  apply date_new_or_ValueError, fields_ok_of_valid.
Qed.

(** The same for the shape [DD.MM.YYYY]. *)
Lemma parse_date_dmy_shape (s : string) (y1 y2 y3 y4 m1 m2 d1 d2 : ascii) :
  strip s = dmy_text y1 y2 y3 y4 m1 m2 d1 d2 ->
  all_digits [y1; y2; y3; y4; m1; m2; d1; d2] ->
  parse_date s
  = date_or_ValueError (num4 y1 y2 y3 y4) (num2 m1 m2) (num2 d1 d2).
Proof.
  intros Hs Hd. unfold parse_date.
  destruct (fullmatch_dmy_text _ _ _ _ _ _ _ _ Hd) as [H1 H2].
  rewrite Hs, H2, H1, (strptime_date_dmy _ _ _ _ _ _ _ _ Hd).
  apply date_new_or_ValueError, fields_ok_of_valid.
Qed.

(* ===================================================================== *)
(** ** Formatting and parsing back                                         *)
(* ===================================================================== *)

Lemma forallb_Z_range (f : Z -> bool) (lo len n : Z) :
  forallb f (Z_range lo len) = true -> lo <= n < lo + len -> f n = true.
Proof.
  intros H Hn. rewrite forallb_forall in H. apply H, In_Z_range, Hn.
Qed.

Lemma check_digits2_all : forallb check_digits2 (Z_range 0 100) = true.
Proof. vm_compute. reflexivity. Qed.

Lemma check_digits4_all : forallb check_digits4 (Z_range 0 10000) = true.
Proof. vm_compute. reflexivity. Qed.

Lemma zfill2_digits (n : Z) :
  0 <= n <= 99 ->
  zfill 2 n = str2 (digit_char (n / 10)) (digit_char (n mod 10))
  /\ isdigit (digit_char (n / 10)) = true
  /\ isdigit (digit_char (n mod 10)) = true
  /\ num2 (digit_char (n / 10)) (digit_char (n mod 10)) = n.
Proof.
  intros Hn.
  pose proof (forallb_Z_range _ 0 100 n check_digits2_all ltac:(lia)) as H.
  unfold check_digits2 in H.
  repeat (apply andb_prop in H as [H ?]).
  apply String.eqb_eq in H. repeat split; try assumption. lia.
Qed.

Lemma zfill4_digits (n : Z) :
  0 <= n <= 9999 ->
  zfill 4 n = digits4 n
  /\ all_digits [digit_char (n / 1000); digit_char (n / 100 mod 10);
                 digit_char (n / 10 mod 10); digit_char (n mod 10)]
  /\ num4 (digit_char (n / 1000)) (digit_char (n / 100 mod 10))
          (digit_char (n / 10 mod 10)) (digit_char (n mod 10)) = n.
Proof.
  intros Hn.
  pose proof (forallb_Z_range _ 0 10000 n check_digits4_all ltac:(lia)) as H.
  unfold check_digits4 in H.
  repeat (apply andb_prop in H as [H ?]).
  apply String.eqb_eq in H. split; [assumption|]. split; [|lia].
  repeat constructor; assumption.
Qed.

Lemma rstrip_by_last (sp : ascii -> bool) (s : string) (c : ascii) :
  sp c = false ->
  rstrip_by sp (s +:+ String c EmptyString) = s +:+ String c EmptyString.
Proof.
  intros Hc. induction s as [|a s IH]; simpl.
  - now rewrite Hc.
  - simpl in IH. rewrite IH. now destruct s.
Qed.

Lemma strip_iso_text (y1 y2 y3 y4 m1 m2 d1 d2 : ascii) :
  all_digits [y1; y2; y3; y4; m1; m2; d1; d2] ->
  strip (iso_text y1 y2 y3 y4 m1 m2 d1 d2) = iso_text y1 y2 y3 y4 m1 m2 d1 d2.
Proof.
  intros H. repeat (apply Forall_cons_1 in H as [? H]).
  unfold strip, iso_text.
  change (str4 y1 y2 y3 y4 +:+ "-" +:+ str2 m1 m2 +:+ "-" +:+ str2 d1 d2)
    with (String y1 (String y2 (String y3 (String y4
            (String "-" (String m1 (String m2 (String "-"
               (String d1 EmptyString)))))))) +:+ String d2 EmptyString).
  rewrite <- (rstrip_by_last isspace _ d2) at 2 by now apply isdigit_not_space.
  f_equal. apply lstrip_by_fixed. now apply isdigit_not_space.
Qed.

Lemma strip_dmy_text (y1 y2 y3 y4 m1 m2 d1 d2 : ascii) :
  all_digits [y1; y2; y3; y4; m1; m2; d1; d2] ->
  strip (dmy_text y1 y2 y3 y4 m1 m2 d1 d2) = dmy_text y1 y2 y3 y4 m1 m2 d1 d2.
Proof.
  intros H. repeat (apply Forall_cons_1 in H as [? H]).
  unfold strip, dmy_text.
  change (str2 d1 d2 +:+ "." +:+ str2 m1 m2 +:+ "." +:+ str4 y1 y2 y3 y4)
    with (String d1 (String d2 (String "." (String m1 (String m2 (String "."
            (String y1 (String y2 (String y3 EmptyString))))))))
          +:+ String y4 EmptyString).
  rewrite <- (rstrip_by_last isspace _ y4) at 2 by now apply isdigit_not_space.
  f_equal. apply lstrip_by_fixed. now apply isdigit_not_space.
Qed.

(** X2: The two written forms of one date get the same answer from
    parse_date, be it the date or the ValueError. *)
Theorem parse_date_forms_agree (y1 y2 y3 y4 m1 m2 d1 d2 : ascii) :
  all_digits [y1; y2; y3; y4; m1; m2; d1; d2] ->
  parse_date (iso_text y1 y2 y3 y4 m1 m2 d1 d2)
  = parse_date (dmy_text y1 y2 y3 y4 m1 m2 d1 d2).
Proof.
  intros H.
  rewrite (parse_date_iso_shape _ _ _ _ _ _ _ _ _ (strip_iso_text _ _ _ _ _ _ _ _ H) H).
  rewrite (parse_date_dmy_shape _ _ _ _ _ _ _ _ _ (strip_dmy_text _ _ _ _ _ _ _ _ H) H).
  reflexivity.
Qed.

Lemma valid_date_ranges (y m d : Z) :
  valid_date y m d = true -> 1 <= y <= 9999 /\ 1 <= m <= 12 /\ 1 <= d <= 31.
Proof.
  intros H. pose proof (valid_date_fields y m d H).
  unfold valid_date in H. repeat (apply andb_prop in H as [H ?]). lia.
Qed.

Lemma date_isoformat_iso_text (y m d : Z) :
  0 <= y <= 9999 -> 0 <= m <= 99 -> 0 <= d <= 99 ->
  exists y1 y2 y3 y4 m1 m2 d1 d2,
    date_isoformat (mkDate y m d) = iso_text y1 y2 y3 y4 m1 m2 d1 d2
    /\ all_digits [y1; y2; y3; y4; m1; m2; d1; d2]
    /\ num4 y1 y2 y3 y4 = y /\ num2 m1 m2 = m /\ num2 d1 d2 = d.
Proof.
  intros Hy Hm Hd.
  destruct (zfill4_digits y Hy) as (Ey & Dy & Ny).
  destruct (zfill2_digits m Hm) as (Em & Dm1 & Dm2 & Nm).
  destruct (zfill2_digits d Hd) as (Ed & Dd1 & Dd2 & Nd).
  do 8 eexists. unfold date_isoformat, iso_text. cbn [year month day].
  rewrite Ey, Em, Ed. split; [reflexivity|]. split; [|now repeat split].
  repeat (apply Forall_cons_1 in Dy as [? Dy]).
  repeat constructor; assumption.
Qed.

(** X3: Round trip: the ISO text of a calendar date parses back to the
    date. *)
Theorem parse_date_isoformat (y m d : Z) :
  valid_date y m d = true ->
  parse_date (date_isoformat (mkDate y m d)) = Ok (Some (mkDate y m d)).
Proof.
  intros Hv. pose proof (valid_date_ranges y m d Hv) as (Hy & Hm & Hd).
  destruct (date_isoformat_iso_text y m d) as
    (y1 & y2 & y3 & y4 & m1 & m2 & d1 & d2 & E & D & Ny & Nm & Nd); try lia.
  rewrite (parse_date_iso_shape _ y1 y2 y3 y4 m1 m2 d1 d2); [|now rewrite E, strip_iso_text|exact D].
  rewrite Ny, Nm, Nd. unfold date_or_ValueError. now rewrite Hv.
Qed.

Lemma parse_time_formatted_all :
  forallb (fun h => forallb (fun m =>
     match parse_time (zfill 2 h +:+ ":" +:+ zfill 2 m) with
     | Ok (Some (h', m')) => (h' =? h) && (m' =? m)
     | _ => false
     end) (Z_range 0 60)) (Z_range 0 24) = true.
Proof. vm_compute. reflexivity. Qed.

(** X4: Round trip: the text ["%02d:%02d"] of a time of day parses back to
    the pair. *)
Theorem parse_time_formatted (h m : Z) :
  0 <= h <= 23 -> 0 <= m <= 59 ->
  parse_time (zfill 2 h +:+ ":" +:+ zfill 2 m) = Ok (Some (h, m)).
Proof.
  intros Hh Hm.
  pose proof (forallb_Z_range _ 0 24 h parse_time_formatted_all ltac:(lia)) as H.
  cbv beta in H.
  pose proof (forallb_Z_range _ 0 60 m H ltac:(lia)) as H'.
  cbv beta in H'.
  destruct (parse_time (zfill 2 h +:+ ":" +:+ zfill 2 m)) as [[[h' m']|]|];
    try discriminate.
  apply andb_prop in H' as [E1 E2]. f_equal. f_equal. f_equal; lia.
Qed.

Lemma isdigit_not_dash (c : ascii) : isdigit c = true -> Ascii.eqb c "-" = false.
Proof. intros H. digit_cases H; reflexivity. Qed.

Lemma map_int_split_iso_text (y1 y2 y3 y4 m1 m2 d1 d2 : ascii) :
  all_digits [y1; y2; y3; y4; m1; m2; d1; d2] ->
  map_int_split "-" (iso_text y1 y2 y3 y4 m1 m2 d1 d2)
  = Ok [num4 y1 y2 y3 y4; num2 m1 m2; num2 d1 d2].
Proof.
  intros H. repeat (apply Forall_cons_1 in H as [? H]).
  unfold map_int_split, iso_text.
  change (str4 y1 y2 y3 y4 +:+ "-" +:+ str2 m1 m2 +:+ "-" +:+ str2 d1 d2)
    with (String y1 (String y2 (String y3 (String y4
            (String "-" (String m1 (String m2 (String "-"
               (String d1 (String d2 EmptyString)))))))))).
  cbn [split].
  rewrite (isdigit_not_dash y1), (isdigit_not_dash y2), (isdigit_not_dash y3),
    (isdigit_not_dash y4), (isdigit_not_dash m1), (isdigit_not_dash m2),
    (isdigit_not_dash d1), (isdigit_not_dash d2) by assumption.
  rewrite Ascii.eqb_refl. cbn [mapM].
  change (String y1 (String y2 (String y3 (String y4 EmptyString))))
    with (str4 y1 y2 y3 y4).
  rewrite py_int_four_digits, !py_int_two_digits by assumption.
  reflexivity.
Qed.

Lemma datetime_new_valid (y m d hh mm : Z) :
  valid_date y m d = true -> 0 <= hh <= 23 -> 0 <= mm <= 59 ->
  datetime_new y m d hh mm 0 = Ok (mkDateTime (mkDate y m d) hh mm 0).
Proof.
  intros Hv Hh Hm. unfold datetime_new, date_new. rewrite Hv, bind_Ok.
  replace ((0 <=? hh) && (hh <=? 23) && (0 <=? mm) && (mm <=? 59)
           && (0 <=? 0) && (0 <=? 59)) with true; [reflexivity|].
  symmetry. repeat (apply andb_true_intro; split); lia.
Qed.

(** Round trip through the session: from the strings the date and time
    steps store, lines 365-367 rebuild the birth instant that the user
    entered. *)
Lemma dt_local_of_stored (dd : Data) (y m d hh mm : Z) :
  valid_date y m d = true -> 0 <= hh <= 23 -> 0 <= mm <= 59 ->
  date dd = Some (date_isoformat (mkDate y m d)) ->
  time dd = Some (zfill 2 hh +:+ ":" +:+ zfill 2 mm) ->
  dt_local_of dd = Ok (mkDateTime (mkDate y m d) hh mm 0).
Proof.
  intros Hv Hh Hm Ed Et.
  pose proof (valid_date_ranges y m d Hv) as (Hy & Hmo & Hd).
  destruct (date_isoformat_iso_text y m d) as
    (y1 & y2 & y3 & y4 & m1 & m2 & d1 & d2 & E & D & Ny & Nm & Nd); try lia.
  destruct (zfill2_digits hh ltac:(lia)) as (Eh & Dh1 & Dh2 & Nh).
  destruct (zfill2_digits mm ltac:(lia)) as (Em & Dm1 & Dm2 & Nmm).
  unfold dt_local_of. rewrite Ed, Et, bind_Ok, E.
  rewrite (map_int_split_iso_text _ _ _ _ _ _ _ _ D), !bind_Ok.
  rewrite Eh, Em.
  change (str2 ?a ?b +:+ ":" +:+ str2 ?c ?e)
    with (String a (String b (String ":" (String c (String e EmptyString))))).
  rewrite map_int_split_time, !bind_Ok by assumption.
  unfold num2 in Nh, Nmm. rewrite Ny, Nm, Nd, Nh, Nmm.
  now apply datetime_new_valid.
Qed.

(* ===================================================================== *)
(** ** What every update keeps                                             *)
(* ===================================================================== *)

Lemma parse_time_some_range (s : string) (h m : Z) :
  parse_time s = Ok (Some (h, m)) -> 0 <= h <= 23 /\ 0 <= m <= 59.
Proof.
  intros H. pose proof H as Hp. unfold parse_time in H.
  destruct (fullmatch re_time (strip s)) eqn:E; [|discriminate]. clear H.
  apply fullmatch_re_time in E as (a & b & c & d & Hs & Ha & Hb & Hc & Hd).
  assert (Hf : time_form (strip s) (10 * digit_value a + digit_value b)
                 (10 * digit_value c + digit_value d))
    by (exists a, b, c, d; repeat split; assumption).
  rewrite (parse_time_on_form s _ _ Hf) in Hp.
  destruct ((0 <=? _) && _ && _ && _) eqn:R in Hp; [|discriminate].
  injection Hp as <- <-. repeat (apply andb_prop in R as [R ?]). lia.
Qed.

Lemma parse_time_never_raises (s : string) (e : exn) : parse_time s <> Raise e.
Proof.
  unfold parse_time.
  destruct (fullmatch re_time (strip s)) eqn:E; [|discriminate].
  apply fullmatch_re_time in E as (a & b & c & d & Hs & Ha & Hb & Hc & Hd).
  rewrite Hs, (map_int_split_time a b c d Ha Hb Hc Hd), bind_Ok.
  destruct ((0 <=? _) && _ && _ && _); discriminate.
Qed.

Lemma place_parts_wf (text p : string) :
  In p (place_parts text) -> p <> EmptyString /\ strip p = p.
Proof.
  unfold place_parts. intros H.
  apply list_elem_of_In, list_elem_of_filter in H as [Hne H].
  apply list_elem_of_In, in_map_iff in H as (q & <- & _).
  split.
  - intros E. rewrite E in Hne. exact Hne.
  - apply strip_idem.
Qed.

Lemma new_session_wf : data_wf (data new_session).
Proof. repeat split; intros; discriminate. Qed.

Lemma get_or_new_wf (S : gmap Z Session) (c : Z) :
  store_wf S -> data_wf (data (get_or_new S c)).
Proof.
  intros HS. unfold get_or_new.
  destruct (S !! c) as [sess|] eqn:E; [exact (HS c sess E) | exact new_session_wf].
Qed.

Lemma store_wf_insert (S : gmap Z Session) (c : Z) (sess : Session) :
  store_wf S -> data_wf (data sess) -> store_wf (<[c := sess]> S).
Proof.
  intros HS Hd c' sess' H.
  destruct (decide (c = c')) as [->|Hne].
  - rewrite lookup_insert_eq in H. now injection H as <-.
  - rewrite lookup_insert_ne in H by assumption. exact (HS c' sess' H).
Qed.

Ltac data_wf_fields H :=
  destruct H as (?Hd & ?Ht & ?Hc & ?Hk & ?Hz & ?Hl);
  unfold data_wf;
  cbn [data date time city country tz lat lon topic set_date set_time
       set_city set_country set_tz set_lat set_lon set_topic];
  refine (conj _ (conj _ (conj _ (conj _ (conj _ _)))));
  try assumption; try (split; discriminate).

Lemma dispatch_sessions_shape (w : World) (S : gmap Z Session) (c : Z)
    (sess : Session) (raw : string) :
  S !! c = Some sess -> strip raw <> EmptyString ->
  let out := dispatch w S c sess (strip raw) in
  sessions out = S
  \/ exists sess', sessions out = <[c := sess']> S
                   /\ (data_wf (data sess) -> data_wf (data sess')).
Proof.
  intros HS Hne out. subst out. unfold dispatch.
  destruct (state sess).
  - (* ASK_DATE *)
    destruct (parse_date (strip raw)) as [[dt|]|e] eqn:E; [|now left..].
    right. eexists. split; [reflexivity|]. intros H. data_wf_fields H.
    intros s [= <-]. destruct dt as [y m d].
    exists y, m, d. split; [exact (parse_date_sound _ _ E)|reflexivity].
  - (* ASK_TIME *)
    destruct (parse_time (strip raw)) as [[[h m]|]|e] eqn:E; [|now left..].
    right. eexists. split; [reflexivity|]. intros H. data_wf_fields H.
    intros s [= <-]. exists h, m.
    destruct (parse_time_some_range _ _ _ E). now repeat split.
  - (* ASK_CITY *)
    right. destruct (place_parts (strip raw)) as [|p0 [|p1 rest]] eqn:E;
      eexists; (split; [reflexivity|]); intros H; data_wf_fields H;
      intros s [= <-];
      try (split; [now rewrite strip_idem | now rewrite !strip_idem]).
    + apply (place_parts_wf (strip raw)). rewrite E. now left.
    + apply (place_parts_wf (strip raw)). rewrite E. right. now left.
  - (* ASK_COUNTRY *)
    right. eexists. split; [reflexivity|]. intros H. data_wf_fields H.
    intros s [= <-]. split; [now rewrite strip_idem | now rewrite !strip_idem].
  - (* ASK_TZ *)
    destruct (tz_rejected (strip raw)) eqn:E; [now left|].
    right. eexists. split; [reflexivity|]. intros H. data_wf_fields H.
    intros s [= <-]. rewrite !strip_idem. now split.
  - (* ASK_TOPIC *)
    now left.
  - (* ASK_FREEFORM *)
    unfold freeform_round.
    destruct (String.eqb (OPENAI_API_KEY w) EmptyString); [now left|].
    destruct (match geocode_city w _ _ with Ok c0 => c0 | Raise _ => None end)
      as [[la lo]|].
    2:{ right. eexists. split; [reflexivity|]. intros H. exact H. }
    assert (Hwf : data_wf (data sess) ->
                  data_wf (set_lon (Some lo) (set_lat (Some la) (data sess)))).
    { intros H. data_wf_fields H. }
    destruct (dt_local_of _) as [dt|e];
      [|right; eexists; split; [reflexivity|exact Hwf]].
    destruct (chart ← compute_chart w la lo dt _; chart_to_text chart)
      as [txt|e]; [|right; eexists; split; [reflexivity|exact Hwf]].
    match goal with |- context [call_openai ?a ?b ?d] =>
      destruct (call_openai a b d) end;
      right; eexists;
      (split; [cbn [done sessions];
               first [apply insert_insert_eq | reflexivity] | exact Hwf]).
Qed.

Lemma webhook_sessions_shape (w : World) (S : gmap Z Session) (u : Update) :
  sessions (webhook w S u) = S
  \/ exists c sess',
       update_chat u = Some c
       /\ sessions (webhook w S u) = <[c := sess']> S
       /\ (data_wf (data (get_or_new S c)) -> data_wf (data sess')).
Proof.
  destruct u as [id c cq|c t|]; [| |now left].
  - right. exists c. unfold webhook.
    destruct (String.prefix "topic:" (or_empty cq)).
    + destruct (split1_snd ":" (or_empty cq)) as [t|e].
      * eexists. split; [reflexivity|]. split; [apply insert_insert_eq|].
        intros H. data_wf_fields H.
      * eexists. split; [reflexivity|]. split; [reflexivity|auto].
    + eexists. split; [reflexivity|]. split; [reflexivity|auto].
  - unfold webhook.
    destruct (String.eqb_spec (strip (or_empty t)) EmptyString) as [|Hne];
      [now left|].
    destruct (str_in _ ["/start"; "start"]).
    { right. exists c, new_session. split; [reflexivity|]. split; [reflexivity|].
      intros _. exact new_session_wf. }
    destruct (str_in _ ["/reset"; "reset"]).
    { right. exists c, new_session. split; [reflexivity|]. split; [reflexivity|].
      intros _. exact new_session_wf. }
    destruct (S !! c) as [sess|] eqn:HS.
    + destruct (dispatch_sessions_shape w S c sess (or_empty t) HS Hne)
        as [E|(sess' & E & Hwf)]; [now left|].
      right. exists c, sess'. split; [reflexivity|]. split; [exact E|].
      unfold get_or_new. now rewrite HS.
    + right. exists c, new_session. split; [reflexivity|]. split; [reflexivity|].
      intros _. exact new_session_wf.
Qed.

Lemma webhook_store_wf (w : World) (S : gmap Z Session) (u : Update) :
  store_wf S -> store_wf (sessions (webhook w S u)).
Proof.
  intros HS.
  destruct (webhook_sessions_shape w S u) as [->|(c & sess' & _ & -> & Hwf)];
    [exact HS|].
  apply store_wf_insert; [exact HS|]. apply Hwf, get_or_new_wf, HS.
Qed.

Lemma run_store_wf (w : World) (updates : list Update) (S : gmap Z Session) :
  store_wf S -> store_wf (run w S updates).
Proof.
  revert S. induction updates as [|u updates IH]; intros S HS; [exact HS|].
  cbn [run]. apply IH, webhook_store_wf, HS.
Qed.

Lemma store_wf_empty : store_wf ∅.
Proof. intros c sess H. rewrite lookup_empty in H. discriminate. Qed.

(** X8: Invariant of the session store: whatever the updates and the answers
    of the outside world, a stored date is the ISO text of a calendar
    date, a stored time the [HH:MM] text of a time of day, stored city and
    country are trimmed and not empty, a stored time zone is trimmed, has
    a [/] and no space, and latitude and longitude are set together. *)
Theorem store_wf_invariant :
  store_wf ∅
  /\ (forall w S u, store_wf S -> store_wf (sessions (webhook w S u)))
  /\ (forall w updates, store_wf (run w ∅ updates)).
Proof.
  split; [exact store_wf_empty|]. split; [exact webhook_store_wf|].
  intros w updates. apply run_store_wf, store_wf_empty.
Qed.

Lemma dt_local_of_wf (d : Data) :
  data_wf d ->
  match date d, time d with
  | Some _, Some _ => exists dt, dt_local_of d = Ok dt
  | _, _ => dt_local_of d = Raise AttributeError
  end.
Proof.
  intros (Hd & Ht & _).
  destruct (date d) as [ds|] eqn:Ed.
  2:{ destruct (time d); unfold dt_local_of; now rewrite Ed. }
  destruct (Hd ds eq_refl) as (y & m & dd & Hv & ->).
  destruct (time d) as [ts|] eqn:Et.
  - destruct (Ht ts eq_refl) as (h & mi & Hh & Hm & ->).
    eexists. exact (dt_local_of_stored d y m dd h mi Hv Hh Hm Ed Et).
  - pose proof (valid_date_ranges y m dd Hv) as (Hy & Hmo & Hdd).
    destruct (date_isoformat_iso_text y m dd) as
      (y1 & y2 & y3 & y4 & m1 & m2 & d1 & d2 & E & D & _); try lia.
    unfold dt_local_of. rewrite Ed, Et, bind_Ok, E.
    now rewrite (map_int_split_iso_text _ _ _ _ _ _ _ _ D).
Qed.

(** X9: In every store the process can reach from the empty one, rebuilding
    the birth instant (lines 365-367) succeeds whenever date and time are
    both stored, and raises AttributeError when one is missing; it never
    fails on the content of a stored string. *)
Theorem reachable_dt_local_of (w : World) (updates : list Update) (c : Z)
    (sess : Session) :
  run w ∅ updates !! c = Some sess ->
  match date (data sess), time (data sess) with
  | Some _, Some _ => exists dt, dt_local_of (data sess) = Ok dt
  | _, _ => dt_local_of (data sess) = Raise AttributeError
  end.
Proof.
  intros H. apply dt_local_of_wf.
  exact (run_store_wf w updates ∅ store_wf_empty c sess H).
Qed.

(** X11: Sessions are isolated: an update changes no session but the one of
    its own chat. *)
Theorem webhook_other_chats_untouched (w : World) (S : gmap Z Session)
    (u : Update) (c' : Z) :
  update_chat u <> Some c' ->
  sessions (webhook w S u) !! c' = S !! c'.
Proof.
  intros Hc.
  destruct (webhook_sessions_shape w S u) as [->|(c & sess' & Hu & -> & _)];
    [reflexivity|].
  apply lookup_insert_ne. intros ->. now apply Hc.
Qed.

(* ===================================================================== *)
(** ** Replies and exceptions                                              *)
(* ===================================================================== *)

(** X7: What the user entered is what chart computation gets: after the date
    step and the time step, lines 365-367 rebuild exactly the parsed date
    and time. *)
Theorem entered_instant_is_rebuilt (w : World) (S : gmap Z Session) (c : Z)
    (sess : Session) (date_text time_text : string) (d : Date) (h m : Z) :
  S !! c = Some sess -> state sess = ASK_DATE ->
  parse_date date_text = Ok (Some d) ->
  parse_time time_text = Ok (Some (h, m)) ->
  exists sess',
    run w S [message c (Some date_text); message c (Some time_text)] !! c
    = Some sess'
    /\ state sess' = ASK_CITY
    /\ dt_local_of (data sess') = Ok (mkDateTime d h m 0).
Proof.
  intros HS Hst Hd Ht. cbn [run].
  rewrite (step_date w S c sess date_text d HS Hst Hd). cbn [done sessions].
  set (s1 := mkSession ASK_TIME _). set (S1 := <[c := s1]> S).
  assert (H1 : S1 !! c = Some s1) by apply lookup_insert_eq.
  rewrite (step_time w S1 c s1 time_text h m H1 eq_refl Ht).
  cbn [done sessions]. rewrite lookup_insert_eq. eexists.
  split; [reflexivity|]. split; [reflexivity|].
  destruct d as [y mo dd].
  destruct (parse_time_some_range _ _ _ Ht) as [Hh Hm].
  apply dt_local_of_stored; try assumption; try reflexivity.
  exact (parse_date_sound _ _ Hd).
Qed.

Lemma prefix_cons (a : ascii) (p s : string) :
  String.prefix (String a p) s = true ->
  exists s', s = String a s' /\ String.prefix p s' = true.
Proof.
  destruct s as [|b s]; cbn [String.prefix]; [discriminate|].
  destruct (ascii_dec a b) as [<-|]; [|discriminate].
  intros H. now exists s.
Qed.

Lemma prefix_topic (s : string) :
  String.prefix "topic:" s = true -> exists name, s = "topic:" +:+ name.
Proof.
  intros H.
  repeat (apply prefix_cons in H as (? & -> & H)).
  eexists. reflexivity.
Qed.

Lemma bind_Raise_inv {A B} (m : result A) (f : A -> result B) (e : exn) :
  m ≫= f = Raise e -> m = Raise e \/ exists a, m = Ok a /\ f a = Raise e.
Proof.
  destruct m as [a|e']; intros H; [right; now exists a|].
  left. change (Raise (A:=B) e' = Raise e) in H. congruence.
Qed.

Lemma py_int_raise (s : string) (e : exn) : py_int s = Raise e -> e = ValueError.
Proof.
  unfold py_int.
  set (body := fun t : string =>
                 match int_digits 0 false t with
                 | Some n => Ok n
                 | None => Raise ValueError
                 end).
  assert (Hb : forall t, body t = Raise e -> e = ValueError).
  { intros t. unfold body. destruct (int_digits 0 false t); congruence. }
  destruct (rstrip_by int_space (lstrip_by int_space s))
    as [|[[] [] [] [] [] [] [] []] t]; cbv beta iota; try apply Hb.
  intros H. apply bind_Raise_inv in H as [H|(n & _ & H)];
    [exact (Hb _ H) | discriminate H].
Qed.

Lemma field_raise (which : directive -> bool) (dflt : Z)
    (fields : list (directive * string)) (e : exn) :
  field which dflt fields = Raise e -> e = ValueError.
Proof.
  induction fields as [|[d m] fields IH]; cbn [field]; [discriminate|].
  destruct (which d); [apply py_int_raise | exact IH].
Qed.

Lemma strptime_date_raise (s : string) (fmt : list directive) (e : exn) :
  strptime_date s fmt = Raise e -> e = ValueError.
Proof.
  unfold strptime_date.
  destruct (format_match fmt s) as [[fields [|? ?]]|]; try congruence.
  intros H.
  apply bind_Raise_inv in H as [H|(y & _ & H)]; [exact (field_raise _ _ _ _ H)|].
  apply bind_Raise_inv in H as [H|(m & _ & H)]; [exact (field_raise _ _ _ _ H)|].
  apply bind_Raise_inv in H as [H|(d & _ & H)]; [exact (field_raise _ _ _ _ H)|].
  unfold date_new in H. destruct (valid_date y m d); congruence.
Qed.

Lemma parse_date_raise (s : string) (e : exn) :
  parse_date s = Raise e -> e = ValueError.
Proof.
  unfold parse_date.
  destruct (fullmatch re_date_iso (strip s)).
  - intros H. apply bind_Raise_inv in H as [H|(d & _ & H)];
      [exact (strptime_date_raise _ _ _ H) | discriminate H].
  - destruct (fullmatch re_date_dmy (strip s)); [|discriminate].
    intros H. apply bind_Raise_inv in H as [H|(d & _ & H)];
      [exact (strptime_date_raise _ _ _ H) | discriminate H].
Qed.

Ltac effects_to_chat :=
  cbn [done effects app send];
  repeat (apply Forall_cons; split; [first [reflexivity | exact I]|]);
  apply Forall_nil_2.

Lemma dispatch_outcome (w : World) (S : gmap Z Session) (c : Z)
    (sess : Session) (text : string) :
  let out := dispatch w S c sess text in
  Forall (to_chat c) (effects out)
  /\ match response out with
     | Ok _ => existsb is_send (effects out) = true
     | Raise e =>
         filter is_send (effects out) = []
         /\ ((state sess = ASK_DATE /\ e = ValueError
              /\ out = mkOutcome S [] (Raise e))
             \/ state sess = ASK_FREEFORM)
     end.
Proof.
  intros out. subst out. unfold dispatch.
  destruct (state sess) eqn:Hst.
  - destruct (parse_date text) as [[dt|]|e] eqn:E;
      (split; [effects_to_chat|]); try reflexivity.
    cbn [response effects]. split; [reflexivity|]. left.
    rewrite (parse_date_raise _ _ E). now repeat split.
  - destruct (parse_time text) as [[[h m]|]|e] eqn:E;
      (split; [effects_to_chat|]); try reflexivity.
    now apply parse_time_never_raises in E.
  - destruct (place_parts text) as [|p0 [|p1 rest]];
      (split; [effects_to_chat|]); reflexivity.
  - split; [effects_to_chat|]; reflexivity.
  - destruct (tz_rejected text); (split; [effects_to_chat|]); reflexivity.
  - split; [effects_to_chat|]; reflexivity.
  - unfold freeform_round.
    destruct (String.eqb (OPENAI_API_KEY w) EmptyString);
      [split; [effects_to_chat|]; reflexivity|].
    destruct (match geocode_city w _ _ with Ok c0 => c0 | Raise _ => None end)
      as [[la lo]|]; [|split; [effects_to_chat|]; reflexivity].
    destruct (dt_local_of _) as [dt|e].
    2:{ split; [effects_to_chat|]. cbn. split; [reflexivity|now right]. }
    destruct (chart ← compute_chart w la lo dt _; chart_to_text chart)
      as [txt|e]; [|split; [effects_to_chat|]; reflexivity].
    match goal with |- context [call_openai ?a ?b ?d] =>
      destruct (call_openai a b d) end;
      (split; [effects_to_chat|]); [reflexivity|].
    cbn. split; [reflexivity|now right].
Qed.

Lemma webhook_outcome (w : World) (S : gmap Z Session) (u : Update) :
  let out := webhook w S u in
  (forall c, update_chat u = Some c -> Forall (to_chat c) (effects out))
  /\ match response out with
     | Ok _ =>
         forall c t, u = message c t -> existsb is_send (effects out) = true
     | Raise e =>
         filter is_send (effects out) = []
         /\ exists c t sess,
              u = message c t /\ S !! c = Some sess
              /\ ((state sess = ASK_DATE /\ e = ValueError
                   /\ out = mkOutcome S [] (Raise e))
                  \/ state sess = ASK_FREEFORM)
     end.
Proof.
  intros out. subst out.
  destruct u as [id c cq|c t|].
  - unfold webhook, update_chat.
    destruct (String.prefix "topic:" (or_empty cq)) eqn:Hp.
    + destruct (prefix_topic _ Hp) as [name ->].
      change (split1_snd ":" ("topic:" +:+ name)) with (Ok (A:=string) name).
      cbv beta iota.
      split; [intros c' [= <-]; effects_to_chat | intros c' t; discriminate].
    + split; [intros c' [= <-]; effects_to_chat | intros c' t; discriminate].
  - unfold webhook, update_chat.
    destruct (String.eqb (strip (or_empty t)) EmptyString);
      [split; [intros c' [= <-]; effects_to_chat | intros ? ? _; reflexivity]|].
    destruct (str_in _ ["/start"; "start"]);
      [split; [intros c' [= <-]; effects_to_chat | intros ? ? _; reflexivity]|].
    destruct (str_in _ ["/reset"; "reset"]);
      [split; [intros c' [= <-]; effects_to_chat | intros ? ? _; reflexivity]|].
    destruct (S !! c) as [sess|] eqn:HS;
      [|split; [intros c' [= <-]; effects_to_chat | intros ? ? _; reflexivity]].
    destruct (dispatch_outcome w S c sess (strip (or_empty t))) as [H1 H2].
    split; [intros c' [= <-]; exact H1|].
    destruct (response (dispatch w S c sess (strip (or_empty t)))) as [[]|e].
    + intros _ _ _. exact H2.
    + destruct H2 as [H2 H3]. split; [exact H2|]. now exists c, t, sess.
  - cbn. split; [discriminate | intros c t; discriminate].
Qed.

(** X12: No cross-talk: whatever an update makes the bot send goes to the chat
    the update came from. *)
Theorem replies_go_to_sender (w : World) (S : gmap Z Session) (u : Update)
    (c : Z) :
  update_chat u = Some c -> Forall (to_chat c) (effects (webhook w S u)).
Proof. intros H. exact (proj1 (webhook_outcome w S u) c H). Qed.

(** X13: A message update the handler returns from normally has been answered
    with at least one message. *)
Theorem message_is_answered (w : World) (S : gmap Z Session) (c : Z)
    (t : option string) :
  response (webhook w S (message c t)) = Ok tt ->
  existsb is_send (effects (webhook w S (message c t))) = true.
Proof.
  intros H. pose proof (proj2 (webhook_outcome w S (message c t))) as H'.
  cbv zeta in H'. rewrite H in H'. exact (H' c t eq_refl).
Qed.

(** X14: On a message update (a message with its chat id, with or without
    text) the handler raises only when the session of the chat is in
    [ASK_DATE] (the ValueError of the date parser; nothing is stored or
    sent) or in [ASK_FREEFORM]; a message of an unknown chat or of a chat
    in another state never raises.  When it raises, no message has been
    sent to the user. *)
Theorem webhook_raises_only (w : World) (S : gmap Z Session) (c : Z)
    (t : option string) (e : exn) :
  response (webhook w S (message c t)) = Raise e ->
  filter is_send (effects (webhook w S (message c t))) = []
  /\ exists sess,
       S !! c = Some sess
       /\ ((state sess = ASK_DATE /\ e = ValueError
            /\ webhook w S (message c t) = mkOutcome S [] (Raise e))
           \/ state sess = ASK_FREEFORM).
Proof.
  intros H. pose proof (proj2 (webhook_outcome w S (message c t))) as H'.
  cbv zeta in H'. rewrite H in H'.
  destruct H' as [H1 (c' & t' & sess & E & HS & Hcase)].
  injection E as <- <-.
  split; [exact H1|]. exists sess. split; [exact HS|exact Hcase].
Qed.

(* ===================================================================== *)
(** ** Single steps                                                        *)
(* ===================================================================== *)

(** X15: First contact: the first text of an unknown chat only opens a session
    in [ASK_DATE]; the text itself is not interpreted, not even when it is
    a valid date. *)
Theorem first_message_is_discarded (w : World) (S : gmap Z Session) (c : Z)
    (raw : string) :
  S !! c = None -> strip raw <> EmptyString -> is_command (strip raw) = false ->
  webhook w S (message c (Some raw))
  = done (<[c := new_session]> S) [send c MsgBegin].
Proof.
  intros HS Hne Hc. unfold webhook. cbn [or_empty].
  destruct (String.eqb_spec (strip raw) EmptyString); [contradiction|].
  unfold is_command in Hc. apply orb_false_elim in Hc as [-> ->].
  now rewrite HS.
Qed.

(** X16: A message without text, or with white space only, changes nothing: no
    session is created for an unknown chat, the bot asks for text. *)
Theorem empty_text_changes_nothing (w : World) (S : gmap Z Session) (c : Z)
    (t : option string) :
  strip (or_empty t) = EmptyString ->
  webhook w S (message c t) = done S [send c MsgWriteText].
Proof. intros H. unfold webhook. now rewrite H. Qed.


(** X19: Places are not validated: in [ASK_CITY] every text moves the chat on,
    to [ASK_TZ] when it has two tokens and to [ASK_COUNTRY] otherwise, and
    in [ASK_COUNTRY] every text moves it to [ASK_TZ]; what is stored is
    trimmed and not empty. *)
Theorem place_steps_always_advance (w : World) (S : gmap Z Session) (c : Z)
    (sess : Session) (raw : string) :
  S !! c = Some sess ->
  strip raw <> EmptyString -> is_command (strip raw) = false ->
  let out := webhook w S (message c (Some raw)) in
  (state sess = ASK_CITY ->
   exists sess' s,
     sessions out !! c = Some sess' /\ city (data sess') = Some s
     /\ s <> EmptyString /\ strip s = s
     /\ ((2 <= length (place_parts (strip raw)))%nat
         /\ state sess' = ASK_TZ /\ In s (place_parts (strip raw))
         /\ (exists k, country (data sess') = Some k
                       /\ In k (place_parts (strip raw)))
         \/ (length (place_parts (strip raw)) < 2)%nat
            /\ state sess' = ASK_COUNTRY /\ s = strip raw
            /\ country (data sess') = country (data sess)))
  /\ (state sess = ASK_COUNTRY ->
      sessions out !! c
      = Some (mkSession ASK_TZ (set_country (Some (strip raw)) (data sess)))).
Proof.
  intros HS Hne Hc out. subst out.
  rewrite (webhook_message_dispatch w S c sess raw HS Hne Hc).
  unfold dispatch. split; intros Hst; rewrite Hst.
  - destruct (place_parts (strip raw)) as [|p0 [|p1 rest]] eqn:E;
      cbn [done sessions]; rewrite lookup_insert_eq.
    + exists (mkSession ASK_COUNTRY (set_city (Some (strip (strip raw))) (data sess))),
        (strip (strip raw)).
      rewrite !strip_idem. repeat split; try assumption.
      right. cbn. repeat split; lia.
    + exists (mkSession ASK_COUNTRY (set_city (Some (strip (strip raw))) (data sess))),
        (strip (strip raw)).
      rewrite !strip_idem. repeat split; try assumption.
      right. cbn. repeat split; lia.
    + destruct (place_parts_wf (strip raw) p0) as [H1 H2];
        [rewrite E; now left|].
      eexists _, p0. split; [reflexivity|]. repeat split; try assumption.
      left. cbn. repeat split; try lia; [now left|].
      exists p1. split; [reflexivity|]. right. now left.
  - cbn [done sessions]. now rewrite lookup_insert_eq, strip_idem.
Qed.

(* ===================================================================== *)
(** ** What each state guarantees                                          *)
(* ===================================================================== *)

Lemma dispatch_session_ok (w : World) (S : gmap Z Session) (c : Z)
    (sess : Session) (text : string) :
  session_ok sess ->
  let out := dispatch w S c sess text in
  sessions out = S
  \/ exists sess', sessions out = <[c := sess']> S /\ session_ok sess'.
Proof.
  intros Hok out. subst out. unfold dispatch.
  unfold session_ok in Hok.
  destruct (state sess) eqn:Hst.
  - destruct (parse_date text) as [[dt|]|e]; [|now left..].
    right. eexists. split; [reflexivity|]. cbn. discriminate.
  - destruct (parse_time text) as [[[h m]|]|e]; [|now left..].
    right. eexists. split; [reflexivity|]. exact I.
  - right. destruct (place_parts text) as [|p0 [|p1 rest]];
      eexists; (split; [reflexivity|]); cbn; try split; discriminate.
  - right. eexists. split; [reflexivity|]. cbn. split; [exact Hok|discriminate].
  - destruct (tz_rejected text); [now left|].
    right. eexists. split; [reflexivity|]. exact I.
  - now left.
  - unfold freeform_round.
    destruct (String.eqb (OPENAI_API_KEY w) EmptyString); [now left|].
    destruct (match geocode_city w _ _ with Ok c0 => c0 | Raise _ => None end)
      as [[la lo]|].
    2:{ right. eexists. split; [reflexivity|]. exact I. }
    assert (Hk : session_ok
                   (mkSession (state sess)
                      (set_lon (Some lo) (set_lat (Some la) (data sess))))).
    { unfold session_ok. cbn. rewrite Hst. exact Hok. }
    destruct (dt_local_of _) as [dt|e];
      [|right; eexists; split; [reflexivity|exact Hk]].
    destruct (chart ← compute_chart w la lo dt _; chart_to_text chart)
      as [txt|e]; [|right; eexists; split; [reflexivity|exact Hk]].
    match goal with |- context [call_openai ?a ?b ?d] =>
      destruct (call_openai a b d) end;
      right; eexists;
      (split; [cbn [done sessions];
               first [apply insert_insert_eq | reflexivity] | ]);
      [exact I | exact Hk].
Qed.

Lemma new_session_ok : session_ok new_session.
Proof. exact I. Qed.

Lemma get_or_new_ok (S : gmap Z Session) (c : Z) :
  store_ok S -> session_ok (get_or_new S c).
Proof.
  intros HS. unfold get_or_new.
  destruct (S !! c) as [sess|] eqn:E; [exact (HS c sess E) | exact new_session_ok].
Qed.

Lemma store_ok_insert (S : gmap Z Session) (c : Z) (sess : Session) :
  store_ok S -> session_ok sess -> store_ok (<[c := sess]> S).
Proof.
  intros HS Hd c' sess' H.
  destruct (decide (c = c')) as [->|Hne].
  - rewrite lookup_insert_eq in H. now injection H as <-.
  - rewrite lookup_insert_ne in H by assumption. exact (HS c' sess' H).
Qed.

Lemma webhook_store_ok (w : World) (S : gmap Z Session) (u : Update) :
  store_ok S -> store_ok (sessions (webhook w S u)).
Proof.
  intros HS. destruct u as [id c cq|c t|]; [| |exact HS].
  - unfold webhook.
    destruct (String.prefix "topic:" (or_empty cq)).
    + destruct (split1_snd ":" (or_empty cq)) as [t|e]; cbn [done sessions].
      * rewrite insert_insert_eq. apply store_ok_insert; [exact HS|].
        cbn. discriminate.
      * apply store_ok_insert; [exact HS | now apply get_or_new_ok].
    + apply store_ok_insert; [exact HS | now apply get_or_new_ok].
  - unfold webhook.
    destruct (String.eqb (strip (or_empty t)) EmptyString); [exact HS|].
    destruct (str_in _ ["/start"; "start"]);
      [apply store_ok_insert; [exact HS|exact new_session_ok]|].
    destruct (str_in _ ["/reset"; "reset"]);
      [apply store_ok_insert; [exact HS|exact new_session_ok]|].
    destruct (S !! c) as [sess|] eqn:E;
      [|apply store_ok_insert; [exact HS|exact new_session_ok]].
    destruct (dispatch_session_ok w S c sess (strip (or_empty t)) (HS c sess E))
      as [->|(sess' & -> & Hok)]; [exact HS|].
    now apply store_ok_insert.
Qed.

Lemma run_store_ok (w : World) (updates : list Update) (S : gmap Z Session) :
  store_ok S -> store_ok (run w S updates).
Proof.
  revert S. induction updates as [|u updates IH]; intros S HS; [exact HS|].
  cbn [run]. apply IH, webhook_store_ok, HS.
Qed.

(** X10: What a state tells about the stored fields, in every store reachable
    from the empty one: in [ASK_TIME] a date is stored, in [ASK_COUNTRY] a
    city, in [ASK_TZ] a city and a country, in [ASK_FREEFORM] a topic. *)
Theorem reachable_state_fields (w : World) (updates : list Update) (c : Z)
    (sess : Session) :
  run w ∅ updates !! c = Some sess ->
  match state sess with
  | ASK_TIME => date (data sess) <> None
  | ASK_COUNTRY => city (data sess) <> None
  | ASK_TZ => city (data sess) <> None /\ country (data sess) <> None
  | ASK_FREEFORM => topic (data sess) <> None
  | _ => True
  end.
Proof.
  intros H.
  assert (store_ok (∅ : gmap Z Session)) as H0.
  { intros c' s' E. rewrite lookup_empty in E. discriminate. }
  exact (run_store_ok w updates ∅ H0 c sess H).
Qed.

(* ===================================================================== *)
(** ** The free-form round, further                                        *)
(* ===================================================================== *)

(** X21: Without the generation key a question is answered by the notice only:
    the store is unchanged and no collaborator is called. *)
Theorem no_key_no_round (w : World) (S : gmap Z Session) (c : Z)
    (sess : Session) (raw : string) :
  S !! c = Some sess -> state sess = ASK_FREEFORM ->
  strip raw <> EmptyString -> is_command (strip raw) = false ->
  OPENAI_API_KEY w = EmptyString ->
  webhook w S (message c (Some raw)) = done S [send c MsgNoKey].
Proof.
  intros HS Hst Hne Hc Hk.
  rewrite (webhook_message_dispatch w S c sess raw HS Hne Hc).
  unfold dispatch. rewrite Hst. unfold freeform_round. now rewrite Hk.
Qed.

Lemma dt_local_of_set_coords (d : Data) (la lo : option float) :
  dt_local_of (set_lon lo (set_lat la d)) = dt_local_of d.
Proof. reflexivity. Qed.

Lemma dt_local_of_missing (d : Data) :
  date d = None \/ time d = None -> exists e, dt_local_of d = Raise e.
Proof.
  unfold dt_local_of. intros [H|H].
  - rewrite H. now exists AttributeError.
  - destruct (date d) as [ds|]; [|now exists AttributeError].
    rewrite bind_Ok.
    destruct (map_int_split "-" ds) as [l|e]; [|now exists e].
    rewrite bind_Ok.
    destruct l as [|y [|m [|dd [|? ?]]]]; try (now exists ValueError).
    rewrite bind_Ok, H. now exists AttributeError.
Qed.

(** X22: Chart computation and text generation are never attempted for a
    session that lacks the date or the time, whatever its state and
    whatever the collaborators answer. *)
Theorem no_chart_without_date_and_time (w : World) (S : gmap Z Session)
    (c : Z) (sess : Session) (t : option string) :
  S !! c = Some sess ->
  date (data sess) = None \/ time (data sess) = None ->
  existsb is_chart_or_generation (effects (webhook w S (message c t))) = false.
Proof.
  intros HS Hd. unfold webhook.
  destruct (String.eqb (strip (or_empty t)) EmptyString); [reflexivity|].
  destruct (str_in _ ["/start"; "start"]); [reflexivity|].
  destruct (str_in _ ["/reset"; "reset"]); [reflexivity|].
  rewrite HS. unfold dispatch.
  destruct (state sess).
  - destruct (parse_date _) as [[dt|]|e]; reflexivity.
  - destruct (parse_time _) as [[[h m]|]|e]; reflexivity.
  - destruct (place_parts _) as [|p0 [|p1 rest]]; reflexivity.
  - reflexivity.
  - destruct (tz_rejected _); reflexivity.
  - reflexivity.
  - unfold freeform_round.
    destruct (String.eqb (OPENAI_API_KEY w) EmptyString); [reflexivity|].
    destruct (match geocode_city w _ _ with Ok c0 => c0 | Raise _ => None end)
      as [[la lo]|]; [|reflexivity].
    rewrite dt_local_of_set_coords.
    destruct (dt_local_of_missing (data sess) Hd) as [e ->]. reflexivity.
Qed.

(** X23: A successful round and the next button press: the answer of text
    generation is sent as it is, followed by the topic keyboard; the
    prompt carries the rendered chart, the label of the stored topic and
    the trimmed question; afterwards the chat is in [ASK_TOPIC], and a
    topic button brings it back to [ASK_FREEFORM] with the birth data and
    the coordinates still stored. *)
Theorem question_cycle (w : World) (S : gmap Z Session) (c : Z)
    (sess : Session) (raw id name : string) (la lo : float) (dt : DateTime)
    (txt answer : string) :
  S !! c = Some sess -> state sess = ASK_FREEFORM ->
  strip raw <> EmptyString -> is_command (strip raw) = false ->
  OPENAI_API_KEY w <> EmptyString ->
  geocode_city w (city (data sess)) (country (data sess)) = Ok (Some (la, lo)) ->
  dt_local_of (data sess) = Ok dt ->
  (chart ← compute_chart w la lo dt (tz (data sess)); chart_to_text chart)
  = Ok txt ->
  let d' := set_lon (Some lo) (set_lat (Some la) (data sess)) in
  let prompt := mkPrompt txt (topic_label (topic (data sess))) (strip raw) in
  call_openai w prompt (strip raw) = Ok answer ->
  let out := webhook w S (message c (Some raw)) in
  effects out
  = [geocoding (city (data sess)) (country (data sess));
     chart_computation la lo dt (tz (data sess));
     text_generation prompt (strip raw);
     send c (MsgAnswer answer);
     tg_send_message c MsgAnotherTopic true]
  /\ response out = Ok tt
  /\ sessions out !! c = Some (mkSession ASK_TOPIC d')
  /\ sessions (webhook w (sessions out)
                 (callback_query id c (Some ("topic:" +:+ name)))) !! c
     = Some (mkSession ASK_FREEFORM (set_topic (Some name) d')).
Proof.
  intros HS Hst Hne Hc Hk Hg Hdt Hch d' prompt Ho out. subst out.
  rewrite (webhook_message_dispatch w S c sess raw HS Hne Hc).
  unfold dispatch. rewrite Hst. unfold freeform_round.
  destruct (String.eqb_spec (OPENAI_API_KEY w) EmptyString); [contradiction|].
  rewrite Hg, dt_local_of_set_coords, Hdt.
  cbn [tz set_lon set_lat topic]. rewrite Hch.
  fold prompt. rewrite Ho. cbn [done effects response sessions app].
  split; [reflexivity|]. split; [reflexivity|].
  rewrite insert_insert_eq, lookup_insert_eq. split; [reflexivity|].
  rewrite step_topic. cbn [done sessions].
  unfold get_or_new. now rewrite !lookup_insert_eq.
Qed.

(* ===================================================================== *)
(** ** The chart, further                                                  *)
(* ===================================================================== *)

Lemma calc_positions_spec (w : World) (jd : float)
    (items : list (string * Body)) (acc m : gmap string float) :
  NoDup (map fst items) ->
  calc_positions w jd items acc = Ok m ->
  (forall name pid, In (name, pid) items ->
     exists l, swe_calc_ut w jd pid = Ok l /\ m !! name = Some l)
  /\ (forall k, ~ In k (map fst items) -> m !! k = acc !! k).
Proof.
  revert acc. induction items as [|[name pid] items IH]; intros acc Hnd Hc.
  - injection Hc as <-. split; [intros ? ? []|reflexivity].
  - cbn [calc_positions] in Hc.
    apply bind_Ok_inv in Hc as (l & Hl & Hc).
    cbn [map fst] in Hnd. apply NoDup_cons in Hnd as [Hnot Hnd].
    destruct (IH _ Hnd Hc) as [IH1 IH2]. split.
    + intros name' pid' [[= <- <-]|Hin]; [|exact (IH1 _ _ Hin)].
      exists l. split; [exact Hl|].
      rewrite IH2; [apply lookup_insert_eq|].
      intros Hin. apply Hnot. now apply list_elem_of_In.
    + intros k Hk. rewrite IH2.
      * apply lookup_insert_ne. intros ->. apply Hk. now left.
      * intros Hin. apply Hk. now right.
Qed.

Lemma calc_positions_some (w : World) (jd : float)
    (items : list (string * Body)) (acc : gmap string float) :
  (forall name pid, In (name, pid) items -> is_ok (swe_calc_ut w jd pid) = true) ->
  exists m, calc_positions w jd items acc = Ok m.
Proof.
  revert acc. induction items as [|[name pid] items IH]; intros acc H.
  - now exists acc.
  - cbn [calc_positions].
    pose proof (H name pid (or_introl eq_refl)) as Hok.
    destruct (swe_calc_ut w jd pid) as [l|]; [|discriminate].
    rewrite bind_Ok. apply IH. intros n p Hin. apply (H n p). now right.
Qed.

Lemma planets_NoDup : NoDup (map fst planets).
Proof.
  apply NoDup_ListNoDup. cbn.
  repeat (constructor; [cbn; intros H;
    repeat (destruct H as [H|H]; [discriminate H|]); exact H|]).
  constructor.
Qed.

Lemma planets_names : map fst planets = bodies.
Proof. reflexivity. Qed.

(** X25: What a chart that compute_chart returns holds: the ISO text of the
    UTC instant, for each of the ten bodies the longitude the ephemeris
    gave for the Julian day of that instant, no other key, and the
    ascendant of the houses at the given coordinates. *)
Theorem compute_chart_content (w : World) (la lo : float) (dt : DateTime)
    (z : option string) (chart : Chart) :
  compute_chart w la lo dt z = Ok chart ->
  exists dt_utc jd,
    utc_of_local w dt z = Ok dt_utc
    /\ swe_julday w (year (dt_date dt_utc)) (month (dt_date dt_utc))
         (day (dt_date dt_utc))
         (float_of_int (hour dt_utc) + float_of_int (minute dt_utc) / 60
          + float_of_int (second dt_utc) / 3600)%float = Ok jd
    /\ utc chart = datetime_isoformat_utc dt_utc
    /\ (forall name pid, In (name, pid) planets ->
          exists l, swe_calc_ut w jd pid = Ok l
                    /\ positions chart !! name = Some l)
    /\ (forall k, ~ In k bodies -> positions chart !! k = None)
    /\ swe_houses_asc w jd la lo = Ok (asc chart).
Proof.
  unfold compute_chart. intros H.
  apply bind_Ok_inv in H as (dt_utc & Hu & H).
  apply bind_Ok_inv in H as (jd & Hj & H).
  apply bind_Ok_inv in H as (pos & Hp & H).
  apply bind_Ok_inv in H as (a & Ha & [= <-]).
  destruct (calc_positions_spec w jd planets ∅ pos planets_NoDup Hp) as [H1 H2].
  exists dt_utc, jd. cbn [utc positions asc].
  repeat split; assumption.
Qed.

(** X26: No partial chart: compute_chart returns a chart exactly when the time
    zone conversion, the Julian day, the ephemeris for each of the ten
    bodies and the houses all return. *)
Theorem compute_chart_all_or_nothing (w : World) (la lo : float)
    (dt : DateTime) (z : option string) :
  is_ok (compute_chart w la lo dt z) = true
  <-> exists dt_utc jd,
        utc_of_local w dt z = Ok dt_utc
        /\ swe_julday w (year (dt_date dt_utc)) (month (dt_date dt_utc))
             (day (dt_date dt_utc))
             (float_of_int (hour dt_utc) + float_of_int (minute dt_utc) / 60
              + float_of_int (second dt_utc) / 3600)%float = Ok jd
        /\ (forall name pid, In (name, pid) planets ->
              is_ok (swe_calc_ut w jd pid) = true)
        /\ is_ok (swe_houses_asc w jd la lo) = true.
Proof.
  split.
  - destruct (compute_chart w la lo dt z) as [chart|] eqn:E; [|discriminate].
    intros _. unfold compute_chart in E.
    apply bind_Ok_inv in E as (dt_utc & Hu & E).
    apply bind_Ok_inv in E as (jd & Hj & E).
    apply bind_Ok_inv in E as (pos & Hp & E).
    apply bind_Ok_inv in E as (a & Ha & _).
    destruct (calc_positions_spec w jd planets ∅ pos planets_NoDup Hp) as [H1 _].
    exists dt_utc, jd. repeat split; try assumption.
    + intros name pid Hin. destruct (H1 name pid Hin) as (l & -> & _). reflexivity.
    + now rewrite Ha.
  - intros (dt_utc & jd & Hu & Hj & Hp & Ha).
    unfold compute_chart. rewrite Hu, bind_Ok, Hj, bind_Ok.
    destruct (calc_positions_some w jd planets ∅ Hp) as [m ->].
    rewrite bind_Ok.
    destruct (swe_houses_asc w jd la lo); [reflexivity|discriminate].
Qed.

Lemma float_to_int_raise_kind (q : float) (e : exn) :
  float_to_int q = Raise e -> e = ValueError \/ e = OverflowError.
Proof.
  unfold float_to_int. destruct (Prim2SF q); intros [= <-]; auto.
Qed.

Lemma deg_to_sign_raise_kind (deg : float) (e : exn) :
  deg_to_sign deg = Raise e -> e = ValueError \/ e = OverflowError.
Proof.
  intros H.
  destruct (deg_to_sign_total deg) as [(s & wi & E & _)|(q & e' & _ & Hq & E & _)];
    rewrite E in H; [discriminate|].
  injection H as <-. exact (float_to_int_raise_kind q e' Hq).
Qed.

Lemma body_lines_raise (m : gmap string float) (ks : list string) (e : exn) :
  body_lines m ks = Raise e ->
  (e = KeyError /\ exists k, In k ks /\ m !! k = None)
  \/ (exists k v, In k ks /\ m !! k = Some v /\ deg_to_sign v = Raise e).
Proof.
  induction ks as [|k ks IH]; cbn [body_lines]; [discriminate|].
  unfold positions_get. destruct (m !! k) as [v|] eqn:Ek.
  - rewrite bind_Ok. destruct (deg_to_sign v) as [p|e'] eqn:Ed.
    + rewrite bind_Ok. intros H.
      apply bind_Raise_inv in H as [H|(rest & _ & H)]; [|discriminate H].
      destruct (IH H) as [(-> & k' & Hin & Hk')|(k' & v' & Hin & Hk' & Hd)].
      * left. split; [reflexivity|]. exists k'. split; [now right|assumption].
      * right. exists k', v'. split; [now right|now split].
    + intros [= <-]. right. exists k, v. split; [now left|now split].
  - intros [= <-]. left. split; [reflexivity|]. exists k. split; [now left|assumption].
Qed.

Lemma body_lines_missing (m : gmap string float) (ks : list string) (k : string) :
  In k ks -> m !! k = None -> is_ok (body_lines m ks) = false.
Proof.
  induction ks as [|k' ks IH]; intros Hin Hk; [destruct Hin|].
  cbn [body_lines]. unfold positions_get.
  destruct Hin as [->|Hin]; [now rewrite Hk|].
  destruct (m !! k') as [v|]; [|reflexivity]. rewrite bind_Ok.
  destruct (deg_to_sign v) as [p|]; [|reflexivity]. rewrite bind_Ok.
  specialize (IH Hin Hk). destruct (body_lines m ks); [discriminate|reflexivity].
Qed.

(** X27: No partial summary: a chart in which one of the ten bodies is missing
    is not rendered at all, chart_to_text raises. *)
Theorem chart_to_text_missing_body (chart : Chart) (k : string) :
  In k bodies -> positions chart !! k = None ->
  is_ok (chart_to_text chart) = false.
Proof.
  intros Hin Hk. unfold chart_to_text.
  destruct (deg_to_sign (asc chart)) as [p|]; [|reflexivity]. rewrite bind_Ok.
  pose proof (body_lines_missing (positions chart) bodies k Hin Hk) as H.
  destruct (body_lines (positions chart) bodies); [discriminate|reflexivity].
Qed.

(** X28: Rendering a chart that compute_chart returned never fails on a
    missing body: if chart_to_text raises, it is the ValueError or
    OverflowError of a longitude that has no sign placement. *)
Theorem computed_chart_renders (w : World) (la lo : float) (dt : DateTime)
    (z : option string) (chart : Chart) (e : exn) :
  compute_chart w la lo dt z = Ok chart ->
  chart_to_text chart = Raise e ->
  (e = ValueError \/ e = OverflowError)
  /\ exists name deg,
       In name line_names /\ chart_longitude chart name = Some deg
       /\ deg_to_sign deg = Raise e.
Proof.
  intros Hc Hr. unfold chart_to_text in Hr.
  apply bind_Raise_inv in Hr as [Hr|(p & _ & Hr)].
  { split; [exact (deg_to_sign_raise_kind _ _ Hr)|].
    exists "Ascendant", (asc chart). split; [now left|]. now split. }
  apply bind_Raise_inv in Hr as [Hr|(rest & _ & Hr)]; [|discriminate Hr].
  apply body_lines_raise in Hr
    as [(-> & k & Hin & Hk)|(k & v & Hin & Hk & Hd)].
  - destruct (compute_chart_positions w la lo dt z chart k Hc Hin) as [v Hv].
    congruence.
  - split; [exact (deg_to_sign_raise_kind _ _ Hd)|].
    exists k, v. split; [now right|]. split; [|exact Hd].
    unfold chart_longitude.
    assert (String.eqb k "Ascendant" = false) as ->; [|exact Hk].
    unfold bodies in Hin. cbn [In] in Hin.
    repeat (destruct Hin as [<-|Hin]; [reflexivity|]). contradiction.
Qed.

(* ===================================================================== *)
(** ** The topic keyboard                                                  *)
(* ===================================================================== *)

(** X29: Every button of the keyboard works in every state: its payload is
    taken by the callback branch, the chat goes to [ASK_FREEFORM] with the
    topic stored, and topic_label finds the topic among its keys (the
    label is not the default one). *)
Theorem keyboard_buttons_work (w : World) (S : gmap Z Session) (id : string)
    (c : Z) (payload : string) :
  In payload (concat TOPIC_KEYBOARD) ->
  exists name,
    payload = "topic:" +:+ name
    /\ sessions (webhook w S (callback_query id c (Some payload))) !! c
       = Some (mkSession ASK_FREEFORM
                 (set_topic (Some name) (data (get_or_new S c))))
    /\ topic_label (Some name) <> label_other
    /\ payload_label payload = topic_label (Some name).
Proof.
  intros H. cbn in H.
  assert (Hb : forall name,
            sessions (webhook w S (callback_query id c (Some ("topic:" +:+ name)))) !! c
            = Some (mkSession ASK_FREEFORM
                      (set_topic (Some name) (data (get_or_new S c))))).
  { intros name. rewrite step_topic. cbn [done sessions].
    apply lookup_insert_eq. }
  destruct H as [<-|[<-|[<-|[<-|[<-|[]]]]]];
    [exists "relationships"|exists "career"|exists "money"|exists "self"
    |exists "general"];
    (split; [reflexivity|]); (split; [apply Hb|]);
    (split; [discriminate|reflexivity]).
Qed.

(* ===================================================================== *)
(** ** Entering the place in one step or in two                            *)
(* ===================================================================== *)

Lemma lstrip_by_length (sp : ascii -> bool) (s : string) :
  (String.length (lstrip_by sp s) <= String.length s)%nat.
Proof.
  induction s as [|a s IH]; cbn [lstrip_by String.length]; [lia|].
  destruct (sp a); cbn [String.length]; lia.
Qed.

Lemma rstrip_by_length (sp : ascii -> bool) (s : string) :
  (String.length (rstrip_by sp s) <= String.length s)%nat.
Proof.
  induction s as [|a s IH]; cbn [rstrip_by String.length]; [lia|].
  destruct (rstrip_by sp s); [destruct (sp a)|]; cbn [String.length] in *; lia.
Qed.

Lemma lstrip_by_same_length (sp : ascii -> bool) (s : string) :
  String.length (lstrip_by sp s) = String.length s -> lstrip_by sp s = s.
Proof.
  destruct s as [|a s]; cbn [lstrip_by String.length]; [reflexivity|].
  destruct (sp a); [|reflexivity].
  pose proof (lstrip_by_length sp s). lia.
Qed.

Lemma strip_fixed_parts (p : string) :
  strip p = p ->
  lstrip_by isspace p = p /\ rstrip_by isspace p = p.
Proof.
  unfold strip. intros H.
  assert (lstrip_by isspace p = p) as E.
  { apply lstrip_by_same_length.
    pose proof (lstrip_by_length isspace p).
    pose proof (rstrip_by_length isspace (lstrip_by isspace p)).
    rewrite H in *. lia. }
  split; [exact E|]. now rewrite E in H.
Qed.

Lemma rstrip_by_app (sp : ascii -> bool) (a b : string) :
  b <> EmptyString -> rstrip_by sp b = b ->
  rstrip_by sp (a +:+ b) = a +:+ b.
Proof.
  intros Hne Hb. induction a as [|x a IH]; [exact Hb|].
  change (String x a +:+ b) with (String x (a +:+ b)).
  cbn [rstrip_by]. rewrite IH.
  destruct (a +:+ b) eqn:E; [|reflexivity].
  destruct a; [cbn in E; contradiction|discriminate E].
Qed.

Lemma lstrip_by_app (sp : ascii -> bool) (a b : string) :
  a <> EmptyString -> lstrip_by sp a = a ->
  lstrip_by sp (a +:+ b) = a +:+ b.
Proof.
  destruct a as [|x a]; [contradiction|]. intros _.
  change (String x a +:+ b) with (String x (a +:+ b)).
  cbn [lstrip_by]. destruct (sp x); [|reflexivity].
  intros H. pose proof (lstrip_by_length sp a) as Hl.
  rewrite H in Hl. cbn [String.length] in Hl. lia.
Qed.

Lemma contains_app (x : ascii) (a b : string) :
  contains x (a +:+ b) = contains x a || contains x b.
Proof.
  induction a as [|y a IH]; [reflexivity|].
  change (String y a +:+ b) with (String y (a +:+ b)).
  cbn [contains]. rewrite IH. apply orb_assoc.
Qed.

Lemma replace_char_absent (x y : ascii) (s : string) :
  contains x s = false -> replace_char x y s = s.
Proof.
  induction s as [|a s IH]; [reflexivity|]. cbn [contains replace_char].
  intros H. apply orb_false_elim in H as [H1 H2].
  rewrite Ascii.eqb_sym in H1. now rewrite H1, IH.
Qed.

Lemma split_app_sep (x : ascii) (a rest : string) :
  contains x a = false ->
  split x (a +:+ String x rest) = a :: split x rest.
Proof.
  induction a as [|y a IH]; intros H.
  - change (EmptyString +:+ String x rest) with (String x rest).
    cbn [split]. now rewrite Ascii.eqb_refl.
  - change (String y a +:+ String x rest) with (String y (a +:+ String x rest)).
    cbn [contains] in H. apply orb_false_elim in H as [H1 H2].
    cbn [split]. rewrite Ascii.eqb_sym in H1. now rewrite H1, IH.
Qed.

Lemma split_absent (x : ascii) (s : string) :
  contains x s = false -> split x s = [s].
Proof.
  induction s as [|y s IH]; [reflexivity|]. cbn [contains split].
  intros H. apply orb_false_elim in H as [H1 H2].
  rewrite Ascii.eqb_sym in H1. now rewrite H1, IH.
Qed.

Lemma lower_char_comma (x : ascii) :
  Ascii.eqb "," (lower_char x) = Ascii.eqb "," x.
Proof. destruct x as [[] [] [] [] [] [] [] []]; reflexivity. Qed.

Lemma contains_comma_lower (s : string) :
  contains "," (lower s) = contains "," s.
Proof.
  induction s as [|x s IH]; [reflexivity|].
  cbn [lower contains]. now rewrite lower_char_comma, IH.
Qed.

Lemma comma_not_command (s : string) :
  contains "," s = true -> is_command s = false.
Proof.
  intros H. rewrite <- contains_comma_lower in H.
  unfold is_command, str_in. cbn [existsb].
  repeat match goal with
    | |- context [String.eqb (lower s) ?x] =>
        destruct (String.eqb_spec (lower s) x) as [E|_];
        [rewrite E in H; discriminate H|]
    end.
  reflexivity.
Qed.

Lemma place_parts_two (c k : string) :
  place_token c -> place_token k ->
  strip (c +:+ ", " +:+ k) = c +:+ ", " +:+ k
  /\ place_parts (c +:+ ", " +:+ k) = [c; k].
Proof.
  intros (Hc1 & Hc2 & Hc3 & Hc4) (Hk1 & Hk2 & Hk3 & Hk4).
  destruct (strip_fixed_parts c Hc2) as [Lc Rc].
  destruct (strip_fixed_parts k Hk2) as [Lk Rk].
  split.
  - unfold strip. rewrite lstrip_by_app by assumption.
    change (c +:+ ", " +:+ k) with (c +:+ (", " +:+ k)).
    apply rstrip_by_app.
    + discriminate.
    + change (", " +:+ k) with (String "," (String " " EmptyString) +:+ k).
      now apply rstrip_by_app.
  - unfold place_parts.
    rewrite replace_char_absent.
    2:{ rewrite !contains_app, Hc4, Hk4. reflexivity. }
    change (c +:+ ", " +:+ k) with (c +:+ String "," (String " " k)).
    rewrite split_app_sep by assumption.
    rewrite split_absent by (cbn [contains]; now rewrite Hk3).
    cbn [map]. rewrite Hc2.
    assert (strip (String " " k) = k) as ->.
    { unfold strip. cbn [lstrip_by]. change (isspace " ") with true.
      cbv iota. now rewrite Lk. }
    unfold filter, list_filter. cbn.
    destruct c; [contradiction|]. destruct k; [contradiction|]. reflexivity.
Qed.

Lemma place_parts_one (c : string) :
  place_token c -> place_parts c = [c].
Proof.
  intros (Hc1 & Hc2 & Hc3 & Hc4). unfold place_parts.
  rewrite replace_char_absent, split_absent by assumption.
  cbn [map]. rewrite Hc2. destruct c; [contradiction|reflexivity].
Qed.

(** X20: The place may be entered as ["city, country"] in one message or as the
    city and then the country in two: both ways leave the same session,
    in [ASK_TZ] with the two tokens stored. *)
Theorem place_in_one_or_two_steps (w : World) (S : gmap Z Session) (ch : Z)
    (sess : Session) (c k : string) :
  S !! ch = Some sess -> state sess = ASK_CITY ->
  place_token c -> place_token k ->
  is_command c = false -> is_command k = false ->
  let after := mkSession ASK_TZ
                 (set_country (Some k) (set_city (Some c) (data sess))) in
  run w S [message ch (Some (c +:+ ", " +:+ k))] !! ch = Some after
  /\ run w S [message ch (Some c); message ch (Some k)] !! ch = Some after.
Proof.
  intros HS Hst Hc Hk Cc Ck after. subst after.
  destruct (place_parts_two c k Hc Hk) as [Es Ep].
  pose proof Hc as (Hc1 & Hc2 & Hc3 & Hc4).
  pose proof Hk as (Hk1 & Hk2 & Hk3 & Hk4).
  split; cbn [run].
  - rewrite (step_city_country w S ch sess (c +:+ ", " +:+ k) c k []);
      try assumption.
    + cbn [done sessions]. apply lookup_insert_eq.
    + rewrite Es. destruct c; [contradiction|discriminate].
    + rewrite Es. apply comma_not_command.
      rewrite !contains_app. cbn. now rewrite orb_true_r.
    + now rewrite Es.
  - rewrite (webhook_message_dispatch w S ch sess c HS); rewrite ?Hc2; try assumption.
    unfold dispatch at 1. rewrite Hst, (place_parts_one c Hc), Hc2.
    cbn [done sessions].
    set (s1 := mkSession ASK_COUNTRY _). set (S1 := <[ch := s1]> S).
    assert (H1 : S1 !! ch = Some s1) by apply lookup_insert_eq.
    rewrite (webhook_message_dispatch w S1 ch s1 k H1); rewrite ?Hk2; try assumption.
    unfold dispatch. cbn [state s1]. rewrite Hk2.
    cbn [done sessions]. now rewrite lookup_insert_eq.
Qed.

(* ===================================================================== *)
(** ** Dates through the webhook                                           *)
(* ===================================================================== *)

(** X1: On a text of one of the two date shapes (surrounding white space
    apart) parse_date never answers [None]: it returns the date when the
    digits denote a calendar date of the years 1..9999, and raises
    ValueError otherwise. *)
Theorem parse_date_shaped (s : string) (y1 y2 y3 y4 m1 m2 d1 d2 : ascii) :
  date_shaped s y1 y2 y3 y4 m1 m2 d1 d2 ->
  parse_date s
  = if valid_date (num4 y1 y2 y3 y4) (num2 m1 m2) (num2 d1 d2)
    then Ok (Some (mkDate (num4 y1 y2 y3 y4) (num2 m1 m2) (num2 d1 d2)))
    else Raise ValueError.
Proof.
  intros [Hd [Hs|Hs]].
  - exact (parse_date_iso_shape s _ _ _ _ _ _ _ _ Hs Hd).
  - exact (parse_date_dmy_shape s _ _ _ _ _ _ _ _ Hs Hd).
Qed.

Lemma parse_date_on_shape (s : string) (y1 y2 y3 y4 m1 m2 d1 d2 : ascii) :
  date_shaped s y1 y2 y3 y4 m1 m2 d1 d2 ->
  parse_date s
  = date_or_ValueError (num4 y1 y2 y3 y4) (num2 m1 m2) (num2 d1 d2).
Proof.
  intros [Hd [Hs|Hs]].
  - exact (parse_date_iso_shape s _ _ _ _ _ _ _ _ Hs Hd).
  - exact (parse_date_dmy_shape s _ _ _ _ _ _ _ _ Hs Hd).
Qed.

Lemma date_shaped_head (s : string) (y1 y2 y3 y4 m1 m2 d1 d2 : ascii) :
  date_shaped s y1 y2 y3 y4 m1 m2 d1 d2 -> head_digit (strip s) = true.
Proof.
  intros [Hd [-> | ->]]; repeat (apply Forall_cons_1 in Hd as [? Hd]);
    assumption.
Qed.

(** X5: The defect of the date step: in [ASK_DATE] a text of one of the
    two shapes, written with the digits "0".."9", whose digits are not a
    calendar date makes the handler raise ValueError, with nothing stored
    and nothing sent. *)
Theorem bad_calendar_date_raises (w : World) (S : gmap Z Session) (c : Z)
    (sess : Session) (raw : string) (y1 y2 y3 y4 m1 m2 d1 d2 : ascii) :
  S !! c = Some sess -> state sess = ASK_DATE ->
  date_shaped raw y1 y2 y3 y4 m1 m2 d1 d2 ->
  valid_date (num4 y1 y2 y3 y4) (num2 m1 m2) (num2 d1 d2) = false ->
  webhook w S (message c (Some raw)) = mkOutcome S [] (Raise ValueError).
Proof.
  intros HS Hst Hsh Hv.
  destruct (head_digit_not_command _ (date_shaped_head _ _ _ _ _ _ _ _ _ Hsh))
    as [Hne Hc].
  rewrite (webhook_message_dispatch w S c sess raw HS Hne Hc).
  unfold dispatch.
  rewrite Hst, parse_date_strip, (parse_date_on_shape _ _ _ _ _ _ _ _ _ Hsh).
  unfold date_or_ValueError. now rewrite Hv.
Qed.

Lemma check_zfill4_all :
  forallb (fun a => forallb (fun b => forallb (fun c =>
    forallb (fun d => check_zfill4 a b c d) digit_chars) digit_chars)
    digit_chars) digit_chars = true.
Proof. vm_compute. reflexivity. Qed.

Lemma check_zfill2_all :
  forallb (fun a => forallb (fun b => check_zfill2 a b) digit_chars)
    digit_chars = true.
Proof. vm_compute. reflexivity. Qed.

Lemma zfill4_num4 (a b c d : ascii) :
  isdigit a = true -> isdigit b = true -> isdigit c = true ->
  isdigit d = true -> zfill 4 (num4 a b c d) = str4 a b c d.
Proof.
  intros Ha Hb Hc Hd.
  pose proof check_zfill4_all as H.
  rewrite forallb_forall in H. specialize (H a (isdigit_inv a Ha)).
  rewrite forallb_forall in H. specialize (H b (isdigit_inv b Hb)).
  rewrite forallb_forall in H. specialize (H c (isdigit_inv c Hc)).
  rewrite forallb_forall in H. specialize (H d (isdigit_inv d Hd)).
  now apply String.eqb_eq.
Qed.

Lemma zfill2_num2 (a b : ascii) :
  isdigit a = true -> isdigit b = true -> zfill 2 (num2 a b) = str2 a b.
Proof.
  intros Ha Hb.
  pose proof check_zfill2_all as H.
  rewrite forallb_forall in H. specialize (H a (isdigit_inv a Ha)).
  rewrite forallb_forall in H. specialize (H b (isdigit_inv b Hb)).
  now apply String.eqb_eq.
Qed.

(** X6: Whichever of the two forms the user types, a valid date is stored in
    the ISO form [YYYY-MM-DD] with the digits typed, and the chat moves to
    [ASK_TIME]. *)
Theorem date_stored_in_iso_form (w : World) (S : gmap Z Session) (c : Z)
    (sess : Session) (raw : string) (y1 y2 y3 y4 m1 m2 d1 d2 : ascii) :
  S !! c = Some sess -> state sess = ASK_DATE ->
  date_shaped raw y1 y2 y3 y4 m1 m2 d1 d2 ->
  valid_date (num4 y1 y2 y3 y4) (num2 m1 m2) (num2 d1 d2) = true ->
  webhook w S (message c (Some raw))
  = done (<[c := mkSession ASK_TIME
                   (set_date (Some (iso_text y1 y2 y3 y4 m1 m2 d1 d2))
                             (data sess))]> S)
         [send c MsgAskTime].
Proof.
  intros HS Hst Hsh Hv.
  assert (Hp : parse_date raw
               = Ok (Some (mkDate (num4 y1 y2 y3 y4) (num2 m1 m2) (num2 d1 d2)))).
  { rewrite (parse_date_on_shape _ _ _ _ _ _ _ _ _ Hsh).
    unfold date_or_ValueError. now rewrite Hv. }
  rewrite (step_date w S c sess raw _ HS Hst Hp).
  destruct Hsh as [Hd _]. repeat (apply Forall_cons_1 in Hd as [? Hd]).
  unfold date_isoformat, iso_text. cbn [year month day].
  now rewrite zfill4_num4, !zfill2_num2 by assumption.
Qed.

(* ===================================================================== *)
(** ** Commands and the way back from a geocoding miss                     *)
(* ===================================================================== *)

(** X17: The bare words [start] and [reset] are commands as well, in any
    letter case and with surrounding white space: such a text replaces
    the session by a fresh one in every state, so it can never be stored
    as a city, a country or a question. *)
Theorem command_words_reset (w : World) (S : gmap Z Session) (c : Z)
    (raw : string) :
  is_command (strip raw) = true ->
  sessions (webhook w S (message c (Some raw))) = <[c := new_session]> S
  /\ exists m, effects (webhook w S (message c (Some raw))) = [send c m].
Proof.
  intros H. unfold webhook. cbn [or_empty].
  destruct (String.eqb_spec (strip raw) EmptyString) as [E|_].
  { rewrite E in H. discriminate H. }
  unfold is_command in H.
  destruct (str_in (lower (strip raw)) ["/start"; "start"]);
    [split; [reflexivity|eexists; reflexivity]|].
  cbn [orb] in H. rewrite H. split; [reflexivity|eexists; reflexivity].
Qed.

(** After a geocoding miss the next place text replaces city and country
    only. *)
Lemma geocoding_miss_new_place_store (w : World) (S : gmap Z Session)
    (ch : Z) (sess : Session) (question c k : string) :
  S !! ch = Some sess -> state sess = ASK_FREEFORM ->
  strip question <> EmptyString -> is_command (strip question) = false ->
  OPENAI_API_KEY w <> EmptyString ->
  geocode_city w (city (data sess)) (country (data sess)) = Ok None ->
  place_token c -> place_token k ->
  run w S [message ch (Some question); message ch (Some (c +:+ ", " +:+ k))]
    !! ch
  = Some (mkSession ASK_TZ
            (set_country (Some k) (set_city (Some c) (data sess)))).
Proof.
  intros HS Hst Hne Hc Hk Hg Tc Tk. cbn [run].
  rewrite (webhook_message_dispatch w S ch sess question HS Hne Hc).
  unfold dispatch at 1. rewrite Hst.
  rewrite (freeform_round_geocode_miss w S ch sess _ Hk (or_introl Hg)).
  cbn [done sessions].
  set (s1 := mkSession ASK_CITY _). set (S1 := <[ch := s1]> S).
  assert (H1 : S1 !! ch = Some s1) by apply lookup_insert_eq.
  destruct (place_parts_two c k Tc Tk) as [Es Ep].
  destruct Tc as (Hc1 & _).
  rewrite (step_city_country w S1 ch s1 (c +:+ ", " +:+ k) c k []);
    try assumption; try reflexivity.
  - cbn [done sessions]. now rewrite lookup_insert_eq.
  - rewrite Es. destruct c; [contradiction|discriminate].
  - rewrite Es. apply comma_not_command.
    rewrite !contains_app. cbn. now rewrite orb_true_r.
  - now rewrite Es.
Qed.

(** X24: After a geocoding miss the next place text replaces city and country
    only: date, time, time zone, topic and earlier coordinates stay
    stored, and the chat is in [ASK_TZ].  A topic button pressed then
    takes the chat to [ASK_FREEFORM] with the time zone of before the miss
    still stored. *)
Theorem geocoding_miss_then_new_place (w : World) (S : gmap Z Session)
    (ch : Z) (sess : Session) (question c k : string) :
  S !! ch = Some sess -> state sess = ASK_FREEFORM ->
  strip question <> EmptyString -> is_command (strip question) = false ->
  OPENAI_API_KEY w <> EmptyString ->
  geocode_city w (city (data sess)) (country (data sess)) = Ok None ->
  place_token c -> place_token k ->
  let place := message ch (Some (c +:+ ", " +:+ k)) in
  let d := set_country (Some k) (set_city (Some c) (data sess)) in
  run w S [message ch (Some question); place] !! ch
  = Some (mkSession ASK_TZ d)
  /\ tz d = tz (data sess)
  /\ forall id name,
       run w S [message ch (Some question); place;
                callback_query id ch (Some ("topic:" +:+ name))] !! ch
       = Some (mkSession ASK_FREEFORM (set_topic (Some name) d)).
Proof.
  intros HS Hst Hne Hc Hk Hg Tc Tk place d.
  pose proof (geocoding_miss_new_place_store w S ch sess question c k
                HS Hst Hne Hc Hk Hg Tc Tk) as H2.
  fold place d in H2.
  split; [exact H2|]. split; [reflexivity|].
  intros id name. cbn [run] in H2 |- *.
  rewrite step_topic. cbn [done sessions].
  rewrite lookup_insert_eq. unfold get_or_new. now rewrite H2.
Qed.

(* ===================================================================== *)
(** * Instances on concrete inputs                                        *)
(* ===================================================================== *)

(** An instance on a concrete input. *)
Lemma parse_date_forms_agree_witness :
  all_digits ["1"; "9"; "9"; "2"; "0"; "8"; "1"; "4"]%char
  /\ parse_date (iso_text "1" "9" "9" "2" "0" "8" "1" "4")
     = parse_date (dmy_text "1" "9" "9" "2" "0" "8" "1" "4").
Proof.
  assert (H : all_digits ["1"; "9"; "9"; "2"; "0"; "8"; "1"; "4"]%char)
    by (repeat constructor).
  split; [exact H|].
  exact (parse_date_forms_agree "1" "9" "9" "2" "0" "8" "1" "4" H).
Defined.

(** An instance on a concrete input. *)
Lemma parse_date_isoformat_witness :
  valid_date 1992 8 14 = true
  /\ parse_date (date_isoformat (mkDate 1992 8 14))
     = Ok (Some (mkDate 1992 8 14)).
Proof.
  assert (H : valid_date 1992 8 14 = true) by reflexivity.
  split; [exact H|]. exact (parse_date_isoformat 1992 8 14 H).
Defined.

(** An instance on a concrete input. *)
Lemma parse_time_formatted_witness :
  (0 <= 7 <= 23 /\ 0 <= 5 <= 59)
  /\ parse_time (zfill 2 7 +:+ ":" +:+ zfill 2 5) = Ok (Some (7, 5)).
Proof.
  assert (H1 : 0 <= 7 <= 23) by lia.
  assert (H2 : 0 <= 5 <= 59) by lia.
  split; [split; assumption|]. exact (parse_time_formatted 7 5 H1 H2).
Defined.

(** An instance on a concrete input. *)
Lemma reachable_dt_local_of_witness :
  let sess := mkSession ASK_TIME (set_date (Some "1992-08-14") (data new_session)) in
  run example_world ∅ [message 7 (Some "hi"); message 7 (Some "14.08.1992")]
    !! 7 = Some sess
  /\ match date (data sess), time (data sess) with
     | Some _, Some _ => exists dt, dt_local_of (data sess) = Ok dt
     | _, _ => dt_local_of (data sess) = Raise AttributeError
     end.
Proof.
  intros sess.
  assert (H : run example_world ∅
                [message 7 (Some "hi"); message 7 (Some "14.08.1992")] !! 7
              = Some sess) by reflexivity.
  split; [exact H|].
  exact (reachable_dt_local_of example_world
           [message 7 (Some "hi"); message 7 (Some "14.08.1992")] 7 sess H).
Defined.

(** An instance on a concrete input. *)
Lemma reachable_state_fields_witness :
  let sess := mkSession ASK_TIME (set_date (Some "1992-08-14") (data new_session)) in
  run example_world ∅ [message 7 (Some "hi"); message 7 (Some "14.08.1992")]
    !! 7 = Some sess
  /\ match state sess with
     | ASK_TIME => date (data sess) <> None
     | ASK_COUNTRY => city (data sess) <> None
     | ASK_TZ => city (data sess) <> None /\ country (data sess) <> None
     | ASK_FREEFORM => topic (data sess) <> None
     | _ => True
     end.
Proof.
  intros sess.
  assert (H : run example_world ∅
                [message 7 (Some "hi"); message 7 (Some "14.08.1992")] !! 7
              = Some sess) by reflexivity.
  split; [exact H|].
  exact (reachable_state_fields example_world
           [message 7 (Some "hi"); message 7 (Some "14.08.1992")] 7 sess H).
Defined.

(** An instance on a concrete input. *)
Lemma webhook_other_chats_untouched_witness :
  let S : gmap Z Session := {[ 8 := mkSession ASK_TZ example_data ]} in
  update_chat (message 7 (Some "/start")) <> Some 8
  /\ sessions (webhook example_world S (message 7 (Some "/start"))) !! 8
     = S !! 8.
Proof.
  intros S.
  assert (H : update_chat (message 7 (Some "/start")) <> Some 8)
    by discriminate.
  split; [exact H|].
  exact (webhook_other_chats_untouched example_world S
           (message 7 (Some "/start")) 8 H).
Defined.

(** An instance on a concrete input. *)
Lemma entered_instant_is_rebuilt_witness :
  let S : gmap Z Session := {[ 7 := new_session ]} in
  (S !! 7 = Some new_session
   /\ state new_session = ASK_DATE
   /\ parse_date "14.08.1992" = Ok (Some (mkDate 1992 8 14))
   /\ parse_time "07:30" = Ok (Some (7, 30)))
  /\ exists sess',
       run example_world S
         [message 7 (Some "14.08.1992"); message 7 (Some "07:30")] !! 7
       = Some sess'
       /\ state sess' = ASK_CITY
       /\ dt_local_of (data sess') = Ok (mkDateTime (mkDate 1992 8 14) 7 30 0).
Proof.
  intros S.
  assert (H1 : S !! 7 = Some new_session) by reflexivity.
  assert (H2 : state new_session = ASK_DATE) by reflexivity.
  assert (H3 : parse_date "14.08.1992" = Ok (Some (mkDate 1992 8 14)))
    by reflexivity.
  assert (H4 : parse_time "07:30" = Ok (Some (7, 30))) by reflexivity.
  split; [repeat split; assumption|].
  exact (entered_instant_is_rebuilt example_world S 7 new_session
           "14.08.1992" "07:30" (mkDate 1992 8 14) 7 30 H1 H2 H3 H4).
Defined.

(** An instance on a concrete input. *)
Lemma replies_go_to_sender_witness :
  update_chat (message 7 (Some "hello")) = Some 7
  /\ Forall (to_chat 7)
       (effects (webhook example_world ∅ (message 7 (Some "hello")))).
Proof.
  assert (H : update_chat (message 7 (Some "hello")) = Some 7) by reflexivity.
  split; [exact H|].
  exact (replies_go_to_sender example_world ∅ (message 7 (Some "hello")) 7 H).
Defined.

(** An instance on a concrete input. *)
Lemma message_is_answered_witness :
  response (webhook example_world ∅ (message 7 (Some "hello"))) = Ok tt
  /\ existsb is_send
       (effects (webhook example_world ∅ (message 7 (Some "hello")))) = true.
Proof.
  assert (H : response (webhook example_world ∅ (message 7 (Some "hello")))
              = Ok tt) by reflexivity.
  split; [exact H|].
  exact (message_is_answered example_world ∅ 7 (Some "hello") H).
Defined.

(** An instance on a concrete input. *)
Lemma webhook_raises_only_witness :
  let S : gmap Z Session := {[ 7 := new_session ]} in
  let u := message 7 (Some "2024-13-01") in
  response (webhook example_world S u) = Raise ValueError
  /\ filter is_send (effects (webhook example_world S u)) = []
  /\ exists sess,
       S !! 7 = Some sess
       /\ ((state sess = ASK_DATE /\ ValueError = ValueError
            /\ webhook example_world S u = mkOutcome S [] (Raise ValueError))
           \/ state sess = ASK_FREEFORM).
Proof.
  intros S u.
  assert (H : response (webhook example_world S u) = Raise ValueError)
    by reflexivity.
  split; [exact H|].
  exact (webhook_raises_only example_world S 7 (Some "2024-13-01")
           ValueError H).
Defined.

(** An instance on a concrete input. *)
Lemma first_message_is_discarded_witness :
  ((∅ : gmap Z Session) !! 7 = None
   /\ strip "14.08.1992" <> EmptyString
   /\ is_command (strip "14.08.1992") = false)
  /\ webhook example_world ∅ (message 7 (Some "14.08.1992"))
     = done (<[7 := new_session]> ∅) [send 7 MsgBegin].
Proof.
  assert (H1 : (∅ : gmap Z Session) !! 7 = None) by reflexivity.
  assert (H2 : strip "14.08.1992" <> EmptyString) by discriminate.
  assert (H3 : is_command (strip "14.08.1992") = false) by reflexivity.
  split; [repeat split; assumption|].
  exact (first_message_is_discarded example_world ∅ 7 "14.08.1992" H1 H2 H3).
Defined.

(** An instance on a concrete input. *)
Lemma empty_text_changes_nothing_witness :
  let S : gmap Z Session := {[ 7 := mkSession ASK_TZ example_data ]} in
  strip (or_empty (Some "   ")) = EmptyString
  /\ webhook example_world S (message 7 (Some "   "))
     = done S [send 7 MsgWriteText].
Proof.
  intros S.
  assert (H : strip (or_empty (Some "   ")) = EmptyString) by reflexivity.
  split; [exact H|].
  exact (empty_text_changes_nothing example_world S 7 (Some "   ") H).
Defined.


(** An instance on a concrete input. *)
Lemma place_steps_always_advance_witness :
  let s1 := mkSession ASK_CITY (data new_session) in
  let s2 := mkSession ASK_COUNTRY (set_city (Some "Berlin") (data new_session)) in
  let S : gmap Z Session := {[ 7 := s1; 8 := s2 ]} in
  ((S !! 7 = Some s1
    /\ strip "Berlin,, Germany" <> EmptyString
    /\ is_command (strip "Berlin,, Germany") = false
    /\ state s1 = ASK_CITY)
   /\ exists sess' s,
        sessions (webhook example_world S (message 7 (Some "Berlin,, Germany")))
          !! 7 = Some sess'
        /\ city (data sess') = Some s
        /\ s <> EmptyString /\ strip s = s
        /\ ((2 <= length (place_parts (strip "Berlin,, Germany")))%nat
            /\ state sess' = ASK_TZ
            /\ In s (place_parts (strip "Berlin,, Germany"))
            /\ (exists k, country (data sess') = Some k
                          /\ In k (place_parts (strip "Berlin,, Germany")))
            \/ (length (place_parts (strip "Berlin,, Germany")) < 2)%nat
               /\ state sess' = ASK_COUNTRY /\ s = strip "Berlin,, Germany"
               /\ country (data sess') = country (data s1)))
  /\ ((S !! 8 = Some s2
       /\ strip " Germany " <> EmptyString
       /\ is_command (strip " Germany ") = false
       /\ state s2 = ASK_COUNTRY)
      /\ sessions (webhook example_world S (message 8 (Some " Germany "))) !! 8
         = Some (mkSession ASK_TZ
                   (set_country (Some (strip " Germany ")) (data s2)))).
Proof.
  intros s1 s2 S.
  assert (A1 : S !! 7 = Some s1) by reflexivity.
  assert (A2 : strip "Berlin,, Germany" <> EmptyString) by discriminate.
  assert (A3 : is_command (strip "Berlin,, Germany") = false) by reflexivity.
  assert (A4 : state s1 = ASK_CITY) by reflexivity.
  assert (B1 : S !! 8 = Some s2) by reflexivity.
  assert (B2 : strip " Germany " <> EmptyString) by discriminate.
  assert (B3 : is_command (strip " Germany ") = false) by reflexivity.
  assert (B4 : state s2 = ASK_COUNTRY) by reflexivity.
  split; (split; [repeat split; assumption|]).
  - exact (proj1 (place_steps_always_advance example_world S 7 s1
                    "Berlin,, Germany" A1 A2 A3) A4).
  - exact (proj2 (place_steps_always_advance example_world S 8 s2
                    " Germany " B1 B2 B3) B4).
Defined.

(** An instance on a concrete input. *)
Lemma no_key_no_round_witness :
  let S : gmap Z Session := {[ 7 := mkSession ASK_FREEFORM example_data ]} in
  (S !! 7 = Some (mkSession ASK_FREEFORM example_data)
   /\ state (mkSession ASK_FREEFORM example_data) = ASK_FREEFORM
   /\ strip "test" <> EmptyString
   /\ is_command (strip "test") = false
   /\ OPENAI_API_KEY keyless_world = EmptyString)
  /\ webhook keyless_world S (message 7 (Some "test"))
     = done S [send 7 MsgNoKey].
Proof.
  intros S.
  assert (H1 : S !! 7 = Some (mkSession ASK_FREEFORM example_data))
    by reflexivity.
  assert (H2 : state (mkSession ASK_FREEFORM example_data) = ASK_FREEFORM)
    by reflexivity.
  assert (H3 : strip "test" <> EmptyString) by discriminate.
  assert (H4 : is_command (strip "test") = false) by reflexivity.
  assert (H5 : OPENAI_API_KEY keyless_world = EmptyString) by reflexivity.
  split; [repeat split; assumption|].
  exact (no_key_no_round keyless_world S 7 _ "test" H1 H2 H3 H4 H5).
Defined.

(** An instance on a concrete input. *)
Lemma no_chart_without_date_and_time_witness :
  let d := set_date None example_data in
  let S : gmap Z Session := {[ 7 := mkSession ASK_FREEFORM d ]} in
  (S !! 7 = Some (mkSession ASK_FREEFORM d)
   /\ (date (data (mkSession ASK_FREEFORM d)) = None
       \/ time (data (mkSession ASK_FREEFORM d)) = None))
  /\ existsb is_chart_or_generation
       (effects (webhook example_world S (message 7 (Some "test")))) = false.
Proof.
  intros d S.
  assert (H1 : S !! 7 = Some (mkSession ASK_FREEFORM d)) by reflexivity.
  assert (H2 : date (data (mkSession ASK_FREEFORM d)) = None
               \/ time (data (mkSession ASK_FREEFORM d)) = None)
    by (left; reflexivity).
  split; [split; assumption|].
  exact (no_chart_without_date_and_time example_world S 7 _ (Some "test")
           H1 H2).
Defined.

(** An instance on a concrete input. *)
Lemma question_cycle_witness :
  let sess := mkSession ASK_FREEFORM example_data in
  let S : gmap Z Session := {[ 7 := sess ]} in
  let la := 51.5%float in
  let lo := (-0.125)%float in
  let d' := set_lon (Some lo) (set_lat (Some la) (data sess)) in
  let prompt :=
    mkPrompt example_text (topic_label (topic (data sess))) (strip "test") in
  let out := webhook example_world S (message 7 (Some "test")) in
  (S !! 7 = Some sess
   /\ state sess = ASK_FREEFORM
   /\ strip "test" <> EmptyString
   /\ is_command (strip "test") = false
   /\ OPENAI_API_KEY example_world <> EmptyString
   /\ geocode_city example_world (city (data sess)) (country (data sess))
      = Ok (Some (la, lo))
   /\ dt_local_of (data sess) = Ok example_instant
   /\ (chart ← compute_chart example_world la lo example_instant
                 (tz (data sess));
       chart_to_text chart) = Ok example_text
   /\ call_openai example_world prompt (strip "test") = Ok "reading")
  /\ effects out
     = [geocoding (city (data sess)) (country (data sess));
        chart_computation la lo example_instant (tz (data sess));
        text_generation prompt (strip "test");
        send 7 (MsgAnswer "reading");
        tg_send_message 7 MsgAnotherTopic true]
  /\ response out = Ok tt
  /\ sessions out !! 7 = Some (mkSession ASK_TOPIC d')
  /\ sessions (webhook example_world (sessions out)
                 (callback_query "cb" 7 (Some ("topic:" +:+ "career")))) !! 7
     = Some (mkSession ASK_FREEFORM (set_topic (Some "career") d')).
Proof.
  intros sess S la lo d' prompt out.
  assert (H1 : S !! 7 = Some sess) by reflexivity.
  assert (H2 : state sess = ASK_FREEFORM) by reflexivity.
  assert (H3 : strip "test" <> EmptyString) by discriminate.
  assert (H4 : is_command (strip "test") = false) by reflexivity.
  assert (H5 : OPENAI_API_KEY example_world <> EmptyString) by discriminate.
  assert (H6 : geocode_city example_world (city (data sess))
                 (country (data sess)) = Ok (Some (la, lo))) by reflexivity.
  assert (H7 : dt_local_of (data sess) = Ok example_instant) by reflexivity.
  assert (H8 : (chart ← compute_chart example_world la lo example_instant
                          (tz (data sess));
                chart_to_text chart) = Ok example_text)
    by (vm_compute; reflexivity).
  assert (H9 : call_openai example_world prompt (strip "test") = Ok "reading")
    by reflexivity.
  split; [repeat split; assumption|].
  exact (question_cycle example_world S 7 sess "test" "cb" "career" la lo
           example_instant example_text "reading"
           H1 H2 H3 H4 H5 H6 H7 H8 H9).
Defined.

(** An instance on a concrete input. *)
Lemma compute_chart_content_witness :
  let w := example_world in
  let la := 51.5%float in
  let lo := (-0.125)%float in
  let z := Some "Europe/London" in
  compute_chart w la lo example_instant z = Ok example_chart
  /\ exists dt_utc jd,
       utc_of_local w example_instant z = Ok dt_utc
       /\ swe_julday w (year (dt_date dt_utc)) (month (dt_date dt_utc))
            (day (dt_date dt_utc))
            (float_of_int (hour dt_utc) + float_of_int (minute dt_utc) / 60
             + float_of_int (second dt_utc) / 3600)%float = Ok jd
       /\ utc example_chart = datetime_isoformat_utc dt_utc
       /\ (forall name pid, In (name, pid) planets ->
             exists l, swe_calc_ut w jd pid = Ok l
                       /\ positions example_chart !! name = Some l)
       /\ (forall k, ~ In k bodies -> positions example_chart !! k = None)
       /\ swe_houses_asc w jd la lo = Ok (asc example_chart).
Proof.
  intros w la lo z.
  assert (H : compute_chart w la lo example_instant z = Ok example_chart)
    by (vm_compute; reflexivity).
  split; [exact H|].
  exact (compute_chart_content w la lo example_instant z example_chart H).
Defined.

(** An instance on a concrete input. *)
Lemma chart_to_text_missing_body_witness :
  let chart := mkChart (utc example_chart)
                 (delete "Moon" (positions example_chart))
                 (asc example_chart) in
  (In "Moon" bodies /\ positions chart !! "Moon" = None)
  /\ is_ok (chart_to_text chart) = false.
Proof.
  intros chart.
  assert (H1 : In "Moon" bodies) by (right; left; reflexivity).
  assert (H2 : positions chart !! "Moon" = None) by reflexivity.
  split; [split; assumption|].
  exact (chart_to_text_missing_body chart "Moon" H1 H2).
Defined.

(** An instance on a concrete input. *)
Lemma computed_chart_renders_witness :
  let la := 51.5%float in
  let lo := (-0.125)%float in
  let z := Some "Europe/London" in
  let chart := mkChart (utc example_chart) (positions example_chart) nan in
  (compute_chart nan_asc_world la lo example_instant z = Ok chart
   /\ chart_to_text chart = Raise ValueError)
  /\ (ValueError = ValueError \/ ValueError = OverflowError)
  /\ exists name deg,
       In name line_names /\ chart_longitude chart name = Some deg
       /\ deg_to_sign deg = Raise ValueError.
Proof.
  intros la lo z chart.
  assert (H1 : compute_chart nan_asc_world la lo example_instant z = Ok chart)
    by (vm_compute; reflexivity).
  assert (H2 : chart_to_text chart = Raise ValueError)
    by (vm_compute; reflexivity).
  split; [split; assumption|].
  exact (computed_chart_renders nan_asc_world la lo example_instant z chart
           ValueError H1 H2).
Defined.

(** An instance on a concrete input. *)
Lemma keyboard_buttons_work_witness :
  let S : gmap Z Session := {[ 7 := mkSession ASK_TOPIC example_data ]} in
  In "topic:career" (concat TOPIC_KEYBOARD)
  /\ exists name,
       "topic:career" = "topic:" +:+ name
       /\ sessions (webhook example_world S
                      (callback_query "cb" 7 (Some "topic:career"))) !! 7
          = Some (mkSession ASK_FREEFORM
                    (set_topic (Some name) (data (get_or_new S 7))))
       /\ topic_label (Some name) <> label_other
       /\ payload_label "topic:career" = topic_label (Some name).
Proof.
  intros S.
  assert (H : In "topic:career" (concat TOPIC_KEYBOARD))
    by (right; left; reflexivity).
  split; [exact H|].
  exact (keyboard_buttons_work example_world S "cb" 7 "topic:career" H).
Defined.

(** An instance on a concrete input. *)
Lemma place_in_one_or_two_steps_witness :
  let sess := mkSession ASK_CITY (data new_session) in
  let S : gmap Z Session := {[ 7 := sess ]} in
  let after := mkSession ASK_TZ
                 (set_country (Some "Germany")
                    (set_city (Some "Berlin") (data sess))) in
  (S !! 7 = Some sess /\ state sess = ASK_CITY
   /\ place_token "Berlin" /\ place_token "Germany"
   /\ is_command "Berlin" = false /\ is_command "Germany" = false)
  /\ run example_world S [message 7 (Some ("Berlin" +:+ ", " +:+ "Germany"))]
       !! 7 = Some after
  /\ run example_world S [message 7 (Some "Berlin"); message 7 (Some "Germany")]
       !! 7 = Some after.
Proof.
  intros sess S after.
  assert (H1 : S !! 7 = Some sess) by reflexivity.
  assert (H2 : state sess = ASK_CITY) by reflexivity.
  assert (H3 : place_token "Berlin")
    by (split; [discriminate|repeat split; reflexivity]).
  assert (H4 : place_token "Germany")
    by (split; [discriminate|repeat split; reflexivity]).
  assert (H5 : is_command "Berlin" = false) by reflexivity.
  assert (H6 : is_command "Germany" = false) by reflexivity.
  split; [repeat split; solve [assumption | apply H3 | apply H4]|].
  exact (place_in_one_or_two_steps example_world S 7 sess "Berlin" "Germany"
           H1 H2 H3 H4 H5 H6).
Defined.

(** An instance on a concrete input. *)
Lemma parse_date_shaped_witness :
  date_shaped " 2024-13-01 " "2" "0" "2" "4" "1" "3" "0" "1"
  /\ parse_date " 2024-13-01 "
     = if valid_date (num4 "2" "0" "2" "4") (num2 "1" "3") (num2 "0" "1")
       then Ok (Some (mkDate (num4 "2" "0" "2" "4") (num2 "1" "3")
                        (num2 "0" "1")))
       else Raise ValueError.
Proof.
  assert (H : date_shaped " 2024-13-01 " "2" "0" "2" "4" "1" "3" "0" "1")
    by (split; [repeat constructor|left; reflexivity]).
  split; [exact H|].
  exact (parse_date_shaped " 2024-13-01 " "2" "0" "2" "4" "1" "3" "0" "1" H).
Defined.

(** An instance on a concrete input. *)
Lemma bad_calendar_date_raises_witness :
  let S : gmap Z Session := {[ 7 := new_session ]} in
  (S !! 7 = Some new_session /\ state new_session = ASK_DATE
   /\ date_shaped "30.02.2001" "2" "0" "0" "1" "0" "2" "3" "0"
   /\ valid_date (num4 "2" "0" "0" "1") (num2 "0" "2") (num2 "3" "0") = false)
  /\ webhook example_world S (message 7 (Some "30.02.2001"))
     = mkOutcome S [] (Raise ValueError).
Proof.
  intros S.
  assert (H1 : S !! 7 = Some new_session) by reflexivity.
  assert (H2 : state new_session = ASK_DATE) by reflexivity.
  assert (H3 : date_shaped "30.02.2001" "2" "0" "0" "1" "0" "2" "3" "0")
    by (split; [repeat constructor|right; reflexivity]).
  assert (H4 : valid_date (num4 "2" "0" "0" "1") (num2 "0" "2") (num2 "3" "0")
               = false) by reflexivity.
  split; [repeat split; solve [assumption | apply H3]|].
  exact (bad_calendar_date_raises example_world S 7 new_session "30.02.2001"
           "2" "0" "0" "1" "0" "2" "3" "0" H1 H2 H3 H4).
Defined.

(** An instance on a concrete input. *)
Lemma date_stored_in_iso_form_witness :
  let S : gmap Z Session := {[ 7 := new_session ]} in
  (S !! 7 = Some new_session /\ state new_session = ASK_DATE
   /\ date_shaped " 14.08.1992" "1" "9" "9" "2" "0" "8" "1" "4"
   /\ valid_date (num4 "1" "9" "9" "2") (num2 "0" "8") (num2 "1" "4") = true)
  /\ webhook example_world S (message 7 (Some " 14.08.1992"))
     = done (<[7 := mkSession ASK_TIME
                      (set_date (Some (iso_text "1" "9" "9" "2" "0" "8" "1" "4"))
                                (data new_session))]> S)
            [send 7 MsgAskTime].
Proof.
  intros S.
  assert (H1 : S !! 7 = Some new_session) by reflexivity.
  assert (H2 : state new_session = ASK_DATE) by reflexivity.
  assert (H3 : date_shaped " 14.08.1992" "1" "9" "9" "2" "0" "8" "1" "4")
    by (split; [repeat constructor|right; reflexivity]).
  assert (H4 : valid_date (num4 "1" "9" "9" "2") (num2 "0" "8") (num2 "1" "4")
               = true) by reflexivity.
  split; [repeat split; solve [assumption | apply H3]|].
  exact (date_stored_in_iso_form example_world S 7 new_session " 14.08.1992"
           "1" "9" "9" "2" "0" "8" "1" "4" H1 H2 H3 H4).
Defined.

(** An instance on a concrete input. *)
Lemma command_words_reset_witness :
  let S : gmap Z Session := {[ 7 := mkSession ASK_CITY example_data ]} in
  is_command (strip " Reset ") = true
  /\ sessions (webhook example_world S (message 7 (Some " Reset ")))
     = <[7 := new_session]> S
  /\ exists m,
       effects (webhook example_world S (message 7 (Some " Reset ")))
       = [send 7 m].
Proof.
  intros S.
  assert (H : is_command (strip " Reset ") = true) by reflexivity.
  split; [exact H|].
  exact (command_words_reset example_world S 7 " Reset " H).
Defined.

(** An instance on a concrete input. *)
Lemma geocoding_miss_then_new_place_witness :
  let d := set_city (Some "Qwxzplonk123") example_data in
  let sess := mkSession ASK_FREEFORM d in
  let S : gmap Z Session := {[ 7 := sess ]} in
  (S !! 7 = Some sess /\ state sess = ASK_FREEFORM
   /\ strip "test" <> EmptyString /\ is_command (strip "test") = false
   /\ OPENAI_API_KEY example_world <> EmptyString
   /\ geocode_city example_world (city (data sess)) (country (data sess))
      = Ok None
   /\ place_token "Berlin" /\ place_token "Germany")
  /\ run example_world S
       [message 7 (Some "test");
        message 7 (Some ("Berlin" +:+ ", " +:+ "Germany"))] !! 7
     = Some (mkSession ASK_TZ
               (set_country (Some "Germany")
                  (set_city (Some "Berlin") (data sess))))
  /\ run example_world S
       [message 7 (Some "test");
        message 7 (Some ("Berlin" +:+ ", " +:+ "Germany"));
        callback_query "cb" 7 (Some ("topic:" +:+ "money"))] !! 7
     = Some (mkSession ASK_FREEFORM
               (set_topic (Some "money")
                  (set_country (Some "Germany")
                     (set_city (Some "Berlin") (data sess))))).
Proof.
  intros d sess S.
  assert (H1 : S !! 7 = Some sess) by reflexivity.
  assert (H2 : state sess = ASK_FREEFORM) by reflexivity.
  assert (H3 : strip "test" <> EmptyString) by discriminate.
  assert (H4 : is_command (strip "test") = false) by reflexivity.
  assert (H5 : OPENAI_API_KEY example_world <> EmptyString) by discriminate.
  assert (H6 : geocode_city example_world (city (data sess))
                 (country (data sess)) = Ok None) by reflexivity.
  assert (H7 : place_token "Berlin")
    by (split; [discriminate|repeat split; reflexivity]).
  assert (H8 : place_token "Germany")
    by (split; [discriminate|repeat split; reflexivity]).
  split; [repeat split; solve [assumption | apply H7 | apply H8]|].
  pose proof (geocoding_miss_then_new_place example_world S 7 sess "test"
                "Berlin" "Germany" H1 H2 H3 H4 H5 H6 H7 H8) as (A & _ & B).
  split; [exact A|exact (B "cb" "money")].
Defined.
